(** * Test-case generator: normalisation, synthesis and validation

    A shallow embedding of the core of [index.js] (input normalisation,
    identifier minting, test-case synthesis for the three input variants and
    the structural output validator), followed by the properties of the
    natural-language specification stated and settled against it.

    Modelling conventions.
    - JavaScript values are the JSON values plus [undefined]; objects are
      association lists of their own properties, kept in property
      enumeration order.  The objects the program receives come from
      [JSON.parse] or from an object literal: their prototype is
      [Object.prototype] (an array's is [Array.prototype]) and none of their
      properties is callable.  An object the program fills by assignment to
      computed keys carries its prototype with it while it is filled, since
      the key [__proto__] reaches the accessor of [Object.prototype].
    - A string is a sequence of UTF-16 code units; [ascii] stands for one
      code unit, so the model covers the strings whose code units are below
      256.  Every string the program itself writes is ASCII.
    - A number is an exact decimal [mant * 10 ^ exp10], which agrees with
      the IEEE double of JavaScript on the numbers of at most 15 significant
      digits within the double range.  The program never computes with the
      numbers it receives: it tests [typeof] and truthiness and prints them,
      and its own constants are the integers 0, 123 and 999999.
    - A computation that may throw returns a [result]; [try]/[catch] is a
      match on it. *)

From Stdlib Require Import List String Ascii ZArith NArith Bool Lia DecimalString.
Import ListNotations.
Local Open Scope list_scope.
Local Open Scope string_scope.
Set Warnings "-register-all".

(** ** The JavaScript fragment the program runs on *)

Module JS.

Record number := Num { mant : Z; exp10 : Z }.

Definition num_of_Z (z : Z) : number := Num z 0.
Definition num_of_nat (n : nat) : number := Num (Z.of_nat n) 0.
Definition num_is_zero (n : number) : bool := (mant n =? 0)%Z.

Inductive value :=
| VUndefined
| VNull
| VBool (b : bool)
| VNum (n : number)
| VStr (s : string)
| VArr (elems : list value)
| VObj (props : list (string * value)).

Definition object := list (string * value).

Inductive error :=
| TypeError
| Error (message : string).

Inductive result (A : Type) :=
| Ok (a : A)
| Throw (e : error).
Arguments Ok {A} a.
Arguments Throw {A} e.

Definition bind {A B} (m : result A) (k : A -> result B) : result B :=
  match m with
  | Ok a => k a
  | Throw e => Throw e
  end.

Notation "x <- m ;; k" := (bind m (fun x => k))
  (at level 61, m at next level, right associativity).

(** [typeof v], as the string JavaScript returns. *)
Definition typeof (v : value) : string :=
  match v with
  | VUndefined => "undefined"
  | VNull => "object"
  | VBool _ => "boolean"
  | VNum _ => "number"
  | VStr _ => "string"
  | VArr _ => "object"
  | VObj _ => "object"
  end.

(** ToBoolean. *)
Definition truthy (v : value) : bool :=
  match v with
  | VUndefined => false
  | VNull => false
  | VBool b => b
  | VNum n => negb (num_is_zero n)
  | VStr s => negb (s =? "")
  | VArr _ => true
  | VObj _ => true
  end.

(** [a || b] on values that are already evaluated. *)
Definition or_else (a b : value) : value := if truthy a then a else b.

Definition Array_isArray (v : value) : bool :=
  match v with
  | VArr _ => true
  | _ => false
  end.

(** *** Objects as ordered property lists *)

Fixpoint obj_get (o : object) (k : string) : option value :=
  match o with
  | [] => None
  | (k', v) :: o' => if k' =? k then Some v else obj_get o' k
  end.

Definition has_key (o : object) (k : string) : bool :=
  match obj_get o k with
  | Some _ => true
  | None => false
  end.

Definition is_digit (c : ascii) : bool :=
  (48 <=? nat_of_ascii c)%nat && (nat_of_ascii c <=? 57)%nat.

Definition digit_val (c : ascii) : N := N.of_nat (nat_of_ascii c - 48).

Fixpoint all_digits (s : string) : bool :=
  match s with
  | EmptyString => true
  | String c r => is_digit c && all_digits r
  end.

Fixpoint digits_value (s : string) (acc : N) : N :=
  match s with
  | EmptyString => acc
  | String c r => digits_value r (10 * acc + digit_val c)
  end.

(** A property name is an array index when it is the canonical decimal form
    of an integer below 2^32 - 1; such names are enumerated first, in
    ascending order, whatever the order of their creation. *)
Definition array_index (k : string) : option N :=
  match k with
  | EmptyString => None
  | String c r =>
      if all_digits k && (negb (c =? "0")%char || (r =? "")) &&
         (String.length k <=? 10)%nat && (digits_value k 0 <? 4294967295)%N
      then Some (digits_value k 0)
      else None
  end.

(** [k] is enumerated before [k']. *)
Definition enumerated_before (k k' : string) : bool :=
  match array_index k, array_index k' with
  | Some i, Some j => (i <? j)%N
  | Some _, None => true
  | None, _ => false
  end.

Fixpoint obj_update (k : string) (v : value) (o : object) : object :=
  match o with
  | [] => []
  | (k', v') :: o' =>
      if k' =? k then (k', v) :: o' else (k', v') :: obj_update k v o'
  end.

Fixpoint obj_insert (k : string) (v : value) (o : object) : object :=
  match o with
  | [] => [(k, v)]
  | (k', v') :: o' =>
      if enumerated_before k k' then (k, v) :: (k', v') :: o'
      else (k', v') :: obj_insert k v o'
  end.

(** CreateDataProperty, as [JSON.parse] and an object literal apply it to
    each member: an existing own property keeps its place and takes the
    value, a new one is created. *)
Definition obj_define (k : string) (v : value) (o : object) : object :=
  if has_key o k then obj_update k v o else obj_insert k v o.

(** *** Assignment to a computed key

    An object under construction: its own properties and its prototype,
    which starts as [Object.prototype] for [{}] and which an assignment to
    the key [__proto__] can replace by [null] or by an object. *)
Inductive prototype :=
| ObjectPrototype
| NullPrototype
| ValuePrototype (v : value).

Record instance := { own : object; proto : prototype }.

(** The object [{}]. *)
Definition empty_object : instance := {| own := []; proto := ObjectPrototype |}.

(** Whether the lookup of [__proto__] along the prototype chain ends at the
    accessor of [Object.prototype]: not below a [null] prototype, and not
    when the prototype is an object that has a property of that name of its
    own (a data property, found first). *)
Definition reaches_proto_accessor (p : prototype) : bool :=
  match p with
  | ObjectPrototype => true
  | NullPrototype => false
  | ValuePrototype (VObj q) => negb (has_key q "__proto__")
  | ValuePrototype _ => true
  end.

(** [o[k] = v].  An own property takes the value.  Otherwise the key
    [__proto__], when it reaches the accessor, creates no property: the
    setter replaces the prototype when [v] is [null] or an object and does
    nothing for any other [v].  Every other key finds at most a writable data
    property on the chain, and a new own property is created. *)
Definition obj_assign (k : string) (v : value) (o : instance) : instance :=
  if has_key (own o) k then
    {| own := obj_update k v (own o); proto := proto o |}
  else if (k =? "__proto__") && reaches_proto_accessor (proto o) then
    {| own := own o;
       proto := match v with
                | VNull => NullPrototype
                | VObj _ | VArr _ => ValuePrototype v
                | _ => proto o
                end |}
  else {| own := obj_insert k v (own o); proto := proto o |}.

(** [v.k] for the property names the program uses ([type], [endpoint],
    [steps], ...): none of them is an index or a built-in property of a
    string, number, boolean or array, so only objects answer, and reading a
    property of [null] or [undefined] throws. *)
Definition get_prop (v : value) (k : string) : result value :=
  match v with
  | VUndefined | VNull => Throw TypeError
  | VObj o =>
      match obj_get o k with
      | Some x => Ok x
      | None => Ok VUndefined
      end
  | _ => Ok VUndefined
  end.

(** [k in v] for the same property names. *)
Definition in_op (k : string) (v : value) : result bool :=
  match v with
  | VObj o => Ok (has_key o k)
  | VArr _ => Ok false
  | _ => Throw TypeError
  end.

(** [v.length]. *)
Definition length_prop (v : value) : result value :=
  match v with
  | VUndefined | VNull => Throw TypeError
  | VArr l => Ok (VNum (num_of_nat (List.length l)))
  | VStr s => Ok (VNum (num_of_nat (String.length s)))
  | VObj o => get_prop v "length"
  | _ => Ok VUndefined
  end.

(** [v === 0]. *)
Definition is_zero (v : value) : bool :=
  match v with
  | VNum n => num_is_zero n
  | _ => false
  end.

(** [v === s] for a string [s]. *)
Definition is_string (v : value) (s : string) : bool :=
  match v with
  | VStr s' => s' =? s
  | _ => false
  end.

(** *** Printing numbers *)

Definition string_of_nat (n : nat) : string :=
  NilZero.string_of_uint (Nat.to_uint n).

Definition string_of_N (n : N) : string :=
  NilZero.string_of_uint (N.to_uint n).

Fixpoint repeat_string (s : string) (n : nat) : string :=
  match n with
  | O => ""
  | S n' => s ++ repeat_string s n'
  end.

(** Removes the trailing zeros of a digit string and counts them. *)
Fixpoint strip_zeros (s : string) : string * nat :=
  match s with
  | EmptyString => ("", O)
  | String c r =>
      let (r', z) := strip_zeros r in
      if (r' =? "") && (c =? "0")%char then ("", S z) else (String c r', z)
  end.

(** Number::toString for radix 10: [s] holds the [k] significant digits and
    the value is [0.s * 10 ^ n]. *)
Definition number_to_string (x : number) : string :=
  if num_is_zero x then "0" else
  let sign := if (mant x <? 0)%Z then "-" else "" in
  let (s, z) := strip_zeros (string_of_N (Z.abs_N (mant x))) in
  let k := Z.of_nat (String.length s) in
  let n := (k + exp10 x + Z.of_nat z)%Z in
  sign ++
  (if (k <=? n)%Z && (n <=? 21)%Z then
     s ++ repeat_string "0" (Z.to_nat (n - k))
   else if (0 <? n)%Z && (n <=? 21)%Z then
     substring 0 (Z.to_nat n) s ++ "." ++
     substring (Z.to_nat n) (Z.to_nat (k - n)) s
   else if (-6 <? n)%Z && (n <=? 0)%Z then
     "0." ++ repeat_string "0" (Z.to_nat (- n)) ++ s
   else
     let e := (n - 1)%Z in
     let es := (if (e <? 0)%Z then "-" else "+") ++ string_of_N (Z.abs_N e) in
     match s with
     | String d EmptyString => String d "" ++ "e" ++ es
     | String d r => String d "" ++ "." ++ r ++ "e" ++ es
     | EmptyString => "0"
     end).

(** *** ToString and JSON.stringify *)

(** ToString: what a template literal, [String(v)] and [join] apply to a
    value.  An object is converted by the [toString] it inherits from
    [Object.prototype]; when it has a property [toString] of its own (which
    is not callable) that one is looked up instead and skipped, [valueOf]
    yields no primitive either, and the conversion throws a TypeError.  An
    array is converted by [join], which prints [null] and [undefined] as
    nothing and converts every other element in turn. *)
Fixpoint ToString (v : value) : result string :=
  match v with
  | VUndefined => Ok "undefined"
  | VNull => Ok "null"
  | VBool true => Ok "true"
  | VBool false => Ok "false"
  | VNum n => Ok (number_to_string n)
  | VStr s => Ok s
  | VArr l =>
      (fix join (l : list value) : result string :=
         match l with
         | [] => Ok ""
         | x :: r =>
             first <-
               (match x with
                | VUndefined | VNull => Ok ""
                | _ => ToString x
                end) ;;
             match r with
             | [] => Ok first
             | _ => rest <- join r ;; Ok (first ++ "," ++ rest)
             end
         end) l
  | VObj o => if has_key o "toString" then Throw TypeError else Ok "[object Object]"
  end.

(** [array.join(sep)] on the elements of an array. *)
Fixpoint Array_join (sep : string) (l : list value) : result string :=
  match l with
  | [] => Ok ""
  | x :: r =>
      first <-
        (match x with
         | VUndefined | VNull => Ok ""
         | _ => ToString x
         end) ;;
      match r with
      | [] => Ok first
      | _ => rest <- Array_join sep r ;; Ok (first ++ sep ++ rest)
      end
  end.

Definition hex_digit (n : nat) : ascii :=
  ascii_of_nat (if (n <? 10)%nat then 48 + n else 87 + n).

(** QuoteJSONString on one code unit. *)
Definition quote_char (c : ascii) : string :=
  let n := nat_of_ascii c in
  if (n =? 8)%nat then "\b"
  else if (n =? 9)%nat then "\t"
  else if (n =? 10)%nat then "\n"
  else if (n =? 12)%nat then "\f"
  else if (n =? 13)%nat then "\r"
  else if (n =? 34)%nat then String "\" (String c "")
  else if (n =? 92)%nat then "\\"
  else if (n <? 32)%nat then
    "\u00" ++ String (hex_digit (n / 16)) (String (hex_digit (n mod 16)) "")
  else String c "".

Fixpoint quote_body (s : string) : string :=
  match s with
  | EmptyString => ""
  | String c r => quote_char c ++ quote_body r
  end.

Definition dquote : string := String (ascii_of_nat 34) "".

Definition quote (s : string) : string := dquote ++ quote_body s ++ dquote.

(** JSON.stringify without indentation; [None] is the result [undefined]. *)
Fixpoint JSON_stringify (v : value) : option string :=
  match v with
  | VUndefined => None
  | VNull => Some "null"
  | VBool true => Some "true"
  | VBool false => Some "false"
  | VNum n => Some (number_to_string n)
  | VStr s => Some (quote s)
  | VArr l =>
      Some ("[" ++
        String.concat ","
          ((fix elems (l : list value) : list string :=
              match l with
              | [] => []
              | x :: r =>
                  (match JSON_stringify x with
                   | Some s => s
                   | None => "null"
                   end) :: elems r
              end) l) ++ "]")
  | VObj o =>
      Some ("{" ++
        String.concat ","
          ((fix members (o : list (string * value)) : list string :=
              match o with
              | [] => []
              | (k, x) :: r =>
                  match JSON_stringify x with
                  | Some s => (quote k ++ ":" ++ s) :: members r
                  | None => members r
                  end
              end) o) ++ "}")
  end.

Definition stringify_value (v : value) : value :=
  match JSON_stringify v with
  | Some s => VStr s
  | None => VUndefined
  end.

End JS.

(** ** JSON.parse

    A recursive-descent reader of the JSON grammar of ECMA-404, with fuel for
    the nesting.  It has three outcomes: the value [JSON.parse] returns, the
    SyntaxError it throws, and [Unrepresented] for a text whose value has no
    counterpart in the model: a [\u] escape that denotes a code unit of 256
    or more, or a number that is not an exact decimal of at most 15
    significant digits well inside the double range.  The theorems that
    quantify over every input take [JSON.parse] as a parameter and hold for
    any function; the reader serves the concrete scenarios. *)

Module JSONText.
Import JS.

Inductive reading (A : Type) :=
| Read (a : A) (rest : string)
| Malformed
| Unrepresented.
Arguments Read {A} a rest.
Arguments Malformed {A}.
Arguments Unrepresented {A}.

Definition is_ws (c : ascii) : bool :=
  let n := nat_of_ascii c in
  (n =? 32)%nat || (n =? 9)%nat || (n =? 10)%nat || (n =? 13)%nat.

Fixpoint skip_ws (s : string) : string :=
  match s with
  | String c r => if is_ws c then skip_ws r else s
  | EmptyString => s
  end.

Definition hex_val (c : ascii) : option nat :=
  let n := nat_of_ascii c in
  if is_digit c then Some (n - 48)
  else if (65 <=? n)%nat && (n <=? 70)%nat then Some (n - 55)
  else if (97 <=? n)%nat && (n <=? 102)%nat then Some (n - 87)
  else None.

(** The characters after the opening quote, up to the closing one. *)
Fixpoint parse_chars (s : string) (acc : string) : reading string :=
  match s with
  | EmptyString => Malformed
  | String c r =>
      let n := nat_of_ascii c in
      if (n =? 34)%nat then Read acc r
      else if (n <? 32)%nat then Malformed
      else if (n =? 92)%nat then
        match r with
        | String e r' =>
            let one (x : nat) := parse_chars r' (acc ++ String (ascii_of_nat x) "") in
            match nat_of_ascii e with
            | 34 => one 34%nat
            | 92 => one 92%nat
            | 47 => one 47%nat
            | 98 => one 8%nat
            | 102 => one 12%nat
            | 110 => one 10%nat
            | 114 => one 13%nat
            | 116 => one 9%nat
            | 117 =>
                match r' with
                | String h1 (String h2 (String h3 (String h4 r''))) =>
                    match hex_val h1, hex_val h2, hex_val h3, hex_val h4 with
                    | Some 0%nat, Some 0%nat, Some a, Some b =>
                        parse_chars r'' (acc ++ String (ascii_of_nat (16 * a + b)) "")
                    | Some _, Some _, Some _, Some _ => Unrepresented
                    | _, _, _, _ => Malformed
                    end
                | _ => Malformed
                end
            | _ => Malformed
            end
        | EmptyString => Malformed
        end
      else parse_chars r (acc ++ String c "")
  end.

Fixpoint take_digits (s : string) : string * string :=
  match s with
  | String c r =>
      if is_digit c then let (d, r') := take_digits r in (String c d, r')
      else ("", s)
  | EmptyString => ("", s)
  end.

(** The decimal [m * 10 ^ e] is zero, or has at most 15 significant digits
    and a magnitude between [10 ^ -300] and [10 ^ 300]: the double nearest to
    it prints back as the same decimal. *)
Definition exact_double (m : N) (e : Z) : bool :=
  let k := Z.of_nat (String.length (fst (strip_zeros (string_of_N m)))) in
  let z := Z.of_nat (snd (strip_zeros (string_of_N m))) in
  (m =? 0)%N ||
  ((k <=? 15)%Z && (-300 <=? k + z + e)%Z && (k + z + e <=? 300)%Z).

(** number = [-] int [frac] [exp], read as an exact decimal. *)
Definition parse_number (s : string) : reading number :=
  let (neg, s1) :=
    match s with
    | String "-" r => (true, r)
    | _ => (false, s)
    end in
  let (ip, s2) := take_digits s1 in
  match ip with
  | EmptyString => Malformed
  | String d0 ir =>
      if (d0 =? "0")%char && negb (ir =? "") then Malformed else
      let fr :=
        match s2 with
        | String "." r =>
            let (fp, r') := take_digits r in
            if fp =? "" then None else Some (fp, r')
        | _ => Some ("", s2)
        end in
      match fr with
      | None => Malformed
      | Some (fp, s3) =>
          let ex :=
            match s3 with
            | String c r =>
                if (c =? "e")%char || (c =? "E")%char then
                  let (eneg, r1) :=
                    match r with
                    | String "-" r' => (true, r')
                    | String "+" r' => (false, r')
                    | _ => (false, r)
                    end in
                  let (ep, r2) := take_digits r1 in
                  if ep =? "" then None
                  else
                    let e := Z.of_N (digits_value ep 0) in
                    Some ((if eneg then - e else e)%Z, r2)
                else Some (0%Z, s3)
            | EmptyString => Some (0%Z, s3)
            end in
          match ex with
          | None => Malformed
          | Some (e, s4) =>
              let m := digits_value (ip ++ fp) 0 in
              let e10 := (e - Z.of_nat (String.length fp))%Z in
              if exact_double m e10
              then Read (Num (if neg then - Z.of_N m else Z.of_N m)%Z e10) s4
              else Unrepresented
          end
      end
  end.

Definition expect (lit : string) (v : value) (s : string) : reading value :=
  if prefix lit s
  then Read v (substring (String.length lit) (String.length s - String.length lit) s)
  else Malformed.

Fixpoint parse_value (fuel : nat) (s : string) {struct fuel} : reading value :=
  match fuel with
  | O => Unrepresented
  | S f =>
      match skip_ws s with
      | EmptyString => Malformed
      | String c r =>
          match nat_of_ascii c with
          | 34 =>
              match parse_chars r "" with
              | Read str rest => Read (VStr str) rest
              | Malformed => Malformed
              | Unrepresented => Unrepresented
              end
          | 91 =>
              match skip_ws r with
              | String "]" rest => Read (VArr []) rest
              | _ => parse_elements f r []
              end
          | 123 =>
              match skip_ws r with
              | String "}" rest => Read (VObj []) rest
              | _ => parse_members f r []
              end
          | 116 => expect "true" (VBool true) (String c r)
          | 102 => expect "false" (VBool false) (String c r)
          | 110 => expect "null" VNull (String c r)
          | _ =>
              match parse_number (String c r) with
              | Read n rest => Read (VNum n) rest
              | Malformed => Malformed
              | Unrepresented => Unrepresented
              end
          end
      end
  end
with parse_elements (fuel : nat) (s : string) (acc : list value) {struct fuel}
  : reading value :=
  match fuel with
  | O => Unrepresented
  | S f =>
      match parse_value f s with
      | Read v rest =>
          match skip_ws rest with
          | String "," rest' => parse_elements f rest' (acc ++ [v])
          | String "]" rest' => Read (VArr (acc ++ [v])) rest'
          | _ => Malformed
          end
      | Malformed => Malformed
      | Unrepresented => Unrepresented
      end
  end
with parse_members (fuel : nat) (s : string) (acc : object) {struct fuel}
  : reading value :=
  match fuel with
  | O => Unrepresented
  | S f =>
      match skip_ws s with
      | String c r =>
          if (nat_of_ascii c =? 34)%nat then
            match parse_chars r "" with
            | Read k rest =>
                match skip_ws rest with
                | String ":" rest1 =>
                    match parse_value f rest1 with
                    | Read v rest2 =>
                        match skip_ws rest2 with
                        | String "," rest' => parse_members f rest' (obj_define k v acc)
                        | String "}" rest' => Read (VObj (obj_define k v acc)) rest'
                        | _ => Malformed
                        end
                    | Malformed => Malformed
                    | Unrepresented => Unrepresented
                    end
                | _ => Malformed
                end
            | Malformed => Malformed
            | Unrepresented => Unrepresented
            end
          else Malformed
      | EmptyString => Malformed
      end
  end.

(** The whole text: a value, then white space only. *)
Definition read (text : string) : reading value :=
  match parse_value (2 * String.length text + 2) text with
  | Read v rest =>
      match skip_ws rest with
      | EmptyString => Read v ""
      | _ => Malformed
      end
  | Malformed => Malformed
  | Unrepresented => Unrepresented
  end.

(** The function handed to the theorems at the concrete scenarios: the value
    read, and no value otherwise.  It is [JSON.parse] on every text that
    [read] decides, which every text of this file is. *)
Definition parse (text : string) : option value :=
  match read text with
  | Read v _ => Some v
  | _ => None
  end.

End JSONText.

(** ** String methods the program calls *)

Module Str.

Definition in_range (lo hi : nat) (c : ascii) : bool :=
  (lo <=? nat_of_ascii c)%nat && (nat_of_ascii c <=? hi)%nat.

Definition is_upper (c : ascii) : bool := in_range 65 90 c.
Definition is_lower (c : ascii) : bool := in_range 97 122 c.
Definition is_alnum (c : ascii) : bool := is_upper c || is_lower c || JS.is_digit c.

(** The class [\w]. *)
Definition is_word_char (c : ascii) : bool := is_alnum c || (c =? "_")%char.

Fixpoint map_chars (f : ascii -> ascii) (s : string) : string :=
  match s with
  | EmptyString => EmptyString
  | String c r => String (f c) (map_chars f r)
  end.

(** [s.replace(/[^a-zA-Z0-9]/g, '_')]. *)
Definition replace_non_alnum (s : string) : string :=
  map_chars (fun c => if is_alnum c then c else "_"%char) s.

(** [toUpperCase] on the strings the program applies it to, which consist of
    the characters [A-Za-z0-9_] only. *)
Definition toUpperCase (s : string) : string :=
  map_chars (fun c => if is_lower c then ascii_of_nat (nat_of_ascii c - 32) else c) s.

(** [toLowerCase] on code units below 256: the letters [A-Z] and the
    Latin-1 capitals [0xC0-0xDE] other than the multiplication sign. *)
Definition toLowerCase (s : string) : string :=
  map_chars (fun c =>
    if is_upper c || (in_range 192 222 c && negb (nat_of_ascii c =? 215)%nat)
    then ascii_of_nat (nat_of_ascii c + 32) else c) s.

(** [s.includes(w)]. *)
Fixpoint includes (s w : string) : bool :=
  prefix w s ||
  match s with
  | EmptyString => false
  | String _ r => includes r w
  end.

(** *** The regular expression [/\b\w{3,}\b/g]

    The matcher follows the backtracking semantics: at a position, [\b]
    holds when exactly one of the characters before and after is a word
    character; [\w{3,}] is greedy, so the longest run is tried first and
    given back one character at a time, down to three, until the closing
    [\b] holds. *)

Definition is_word (c : option ascii) : bool :=
  match c with
  | Some x => is_word_char x
  | None => false
  end.

Definition word_boundary (before after : option ascii) : bool :=
  xorb (is_word before) (is_word after).

Definition first_char (s : string) : option ascii :=
  match s with
  | String c _ => Some c
  | EmptyString => None
  end.

Fixpoint last_char (s : string) : option ascii :=
  match s with
  | EmptyString => None
  | String c EmptyString => Some c
  | String _ r => last_char r
  end.

(** The longest prefix of word characters, and what follows it. *)
Fixpoint take_word (s : string) : string * string :=
  match s with
  | String c r =>
      if is_word_char c then let (w, rest) := take_word r in (String c w, rest)
      else ("", s)
  | EmptyString => ("", s)
  end.

(** [\w{3,}\b] on the first [n] characters of [run], then on fewer; the
    result is the match and the text after it. *)
Fixpoint try_lengths (run rest : string) (n : nat) : option (string * string) :=
  match n with
  | O => None
  | S n' =>
      if (n <? 3)%nat then None
      else
        let m := substring 0 n run in
        let after := substring n (String.length run - n) run ++ rest in
        if word_boundary (last_char m) (first_char after) then Some (m, after)
        else try_lengths run rest n'
  end.

(** One attempt of the expression at a position, [before] being the
    character that precedes it. *)
Definition match_at (before : option ascii) (s : string) : option (string * string) :=
  if word_boundary before (first_char s) then
    let (run, rest) := take_word s in
    try_lengths run rest (String.length run)
  else None.

(** The global search: after a match it resumes behind the match, after a
    failure one character further. *)
Fixpoint scan (fuel : nat) (before : option ascii) (s : string) : list string :=
  match fuel with
  | O => []
  | S fuel' =>
      match match_at before s with
      | Some (m, after) => m :: scan fuel' (last_char m) after
      | None =>
          match s with
          | String c r => scan fuel' (Some c) r
          | EmptyString => []
          end
      end
  end.

(** [s.match(/\b\w{3,}\b/g)]; [None] is the result [null]. *)
Definition match_words (s : string) : option (list string) :=
  match scan (S (String.length s)) None s with
  | [] => None
  | ws => Some ws
  end.

End Str.

(** ** The program *)

Import JS.

Module QA_ASSUMPTIONS.
Definition string_maxLength : nat := 255.
Definition string_minLength : nat := 1.
Definition number_min : Z := 0.
Definition number_max : Z := 999999.
End QA_ASSUMPTIONS.

(** [v.k1 || v.k2 || ...], evaluated left to right and short-circuited. *)
Fixpoint or_props (v : value) (ks : list string) : result value :=
  match ks with
  | [] => Ok VUndefined
  | [k] => get_prop v k
  | k :: ks' =>
      x <- get_prop v k ;;
      if truthy x then Ok x else or_props v ks'
  end.

(** [v.k1 && v.k2]. *)
Definition and_props (v : value) (k1 k2 : string) : result value :=
  x <- get_prop v k1 ;;
  if truthy x then get_prop v k2 else Ok x.

(** The classification of [normalizeInput], from its comment "Detect input
    type" on, applied to the parsed value. *)
Definition detect (parsed : value) : result value :=
  is_api <- and_props parsed "endpoint" "method" ;;
  if truthy is_api then
    endpoint <- get_prop parsed "endpoint" ;;
    method <- get_prop parsed "method" ;;
    request <- or_props parsed ["request"; "parameters"] ;;
    response <- get_prop parsed "response" ;;
    Ok (VObj [("type", VStr "api");
              ("endpoint", endpoint);
              ("method", method);
              ("request", or_else request (VObj []));
              ("response", or_else response (VObj []))])
  else
    is_story <- or_props parsed ["user"; "story"; "as"; "iWant"; "soThat"] ;;
    if truthy is_story then
      content <-
        (if typeof parsed =? "string" then Ok parsed
         else
           c <- or_props parsed ["userStory"; "story"; "content"] ;;
           Ok (or_else c (stringify_value parsed))) ;;
      Ok (VObj [("type", VStr "user_story"); ("content", content)])
    else
      Ok (VObj [("type", VStr "raw_text");
                ("content",
                 if typeof parsed =? "string" then parsed
                 else stringify_value parsed)]).

Section Normalization.

(** [JSON.parse]: [None] when it throws. *)
Variable JSON_parse : string -> option value.

(** The value the classification looks at: a string is parsed, and wrapped
    when it does not parse. *)
Definition parsed_of (input : value) : value :=
  match input with
  | VStr s =>
      match JSON_parse s with
      | Some v => v
      | None => VObj [("raw", input)]
      end
  | _ => input
  end.

(** The body of the [try] block of [normalizeInput]. *)
Definition normalizeInput_try (input : value) : result value :=
  structured <-
    (if typeof input =? "object" then get_prop input "type"
     else Ok (VBool false)) ;;
  if truthy structured then Ok input
  else detect (parsed_of input).

(** [normalizeInput]: the [catch] turns every exception of the [try] block
    into a raw text, whose content is [String(input)]. *)
Definition normalizeInput (input : value) : result value :=
  match normalizeInput_try input with
  | Ok normalized => Ok normalized
  | Throw _ =>
      content <- ToString input ;;
      Ok (VObj [("type", VStr "raw_text"); ("content", VStr content)])
  end.

End Normalization.

Definition generateBaseId (input : value) : result string :=
  type <- get_prop input "type" ;;
  if is_string type "api" then
    endpoint <- get_prop input "endpoint" ;;
    match endpoint with
    | VStr e => Ok ("TC_" ++ Str.toUpperCase (Str.replace_non_alnum e))
    | _ => Throw TypeError
    end
  else
    c <- get_prop input "content" ;;
    match or_else c (VStr "") with
    | VStr content =>
        let words :=
          match Str.match_words content with
          | Some ws => ws
          | None => []
          end in
        let keyWords := map Str.toUpperCase (firstn 3 words) in
        let id := "TC_" ++ String.concat "_" keyWords in
        Ok (if truthy (VStr id) then id else "TC_GENERIC")
    | _ => Throw TypeError
    end.

(** [Object.entries]. *)
Fixpoint indexed {A} (f : A -> value) (l : list A) (i : nat) : list (string * value) :=
  match l with
  | [] => []
  | x :: r => (string_of_nat i, f x) :: indexed f r (S i)
  end.

Definition Object_entries (v : value) : result (list (string * value)) :=
  match v with
  | VUndefined | VNull => Throw TypeError
  | VObj o => Ok o
  | VArr l => Ok (indexed (fun x => x) l 0)
  | VStr s => Ok (indexed (fun c => VStr (String c "")) (list_ascii_of_string s) 0)
  | _ => Ok []
  end.

(** The three functions below fill [{}] by [result[key] = ...] and return
    it; the value returned is the own properties of the object.  Its
    prototype, which the key [__proto__] can change, is read by nothing
    afterwards: the test data is only stored and serialised. *)
Definition getInvalidTestData (request : value) : result value :=
  entries <- Object_entries request ;;
  Ok (VObj (own (fold_left (fun invalid kv =>
    let '(key, value) := kv in
    if typeof value =? "string" then obj_assign key (VNum (num_of_Z 123)) invalid
    else if typeof value =? "number" then obj_assign key (VStr "not_a_number") invalid
    else if typeof value =? "boolean" then obj_assign key (VStr "not_a_boolean") invalid
    else invalid) entries empty_object))).

Definition getBoundaryTestData (request : value) (type : string) : result value :=
  entries <- Object_entries request ;;
  Ok (VObj (own (fold_left (fun boundary kv =>
    let '(key, value) := kv in
    if typeof value =? "string" then
      obj_assign key
        (VStr (if type =? "max"
               then repeat_string "a" QA_ASSUMPTIONS.string_maxLength
               else "a")) boundary
    else if typeof value =? "number" then
      obj_assign key
        (VNum (num_of_Z (if type =? "max"
                         then QA_ASSUMPTIONS.number_max
                         else QA_ASSUMPTIONS.number_min))) boundary
    else boundary) entries empty_object))).

Definition getEdgeTestData (request : value) (type : string) : result value :=
  entries <- Object_entries request ;;
  Ok (VObj (own (fold_left (fun edge kv =>
    let '(key, value) := kv in
    if type =? "null" then obj_assign key VNull edge
    else if type =? "special" then
      obj_assign key
        (if typeof value =? "string"
         then VStr "!@#$%^&*()_+-=[]{}|;:,.<>?" else value) edge
    else edge) entries empty_object))).

(** The object literal of one test case, its properties in source order. *)
Definition test_case (id title type precondition : string) (steps : list string)
    (expected_result : string) (test_data : value) (priority : string) : value :=
  VObj [("id", VStr id);
        ("title", VStr title);
        ("type", VStr type);
        ("precondition", VStr precondition);
        ("steps", VArr (map VStr steps));
        ("expected_result", VStr expected_result);
        ("test_data", test_data);
        ("priority", VStr priority)].

(** The [testCases] object once every [push] has run. *)
Definition test_cases (positive negative boundary edge : list value) : value :=
  VObj [("positive", VArr positive);
        ("negative", VArr negative);
        ("boundary", VArr boundary);
        ("edge", VArr edge)].

Definition generateApiTestCases (apiInput : value) (baseId : string) : result value :=
  e <- get_prop apiInput "endpoint" ;;
  m <- get_prop apiInput "method" ;;
  r <- get_prop apiInput "request" ;;
  let request := or_else r (VObj []) in
  method <- ToString m ;;
  endpoint <- ToString e ;;
  let positive1 :=
    test_case (baseId ++ "_POS_001")
      (method ++ " " ++ endpoint ++ " with valid request")
      "positive"
      ("API endpoint " ++ endpoint ++ " is available and accessible")
      ["Prepare valid request data for " ++ endpoint;
       "Send " ++ method ++ " request to " ++ endpoint;
       "Verify response status is 200";
       "Verify response structure matches expected format"]
      "API returns 200 status with valid response data"
      request
      "High" in
  let negative1 :=
    test_case (baseId ++ "_NEG_001")
      (method ++ " " ++ endpoint ++ " with missing required fields")
      "negative"
      ("API endpoint " ++ endpoint ++ " is available")
      ["Send " ++ method ++ " request to " ++ endpoint ++ " without required fields";
       "Verify response status is 400";
       "Verify error message indicates missing required fields"]
      "API returns 400 status with validation error"
      (VObj [])
      "High" in
  invalid <- getInvalidTestData request ;;
  let negative2 :=
    test_case (baseId ++ "_NEG_002")
      (method ++ " " ++ endpoint ++ " with invalid data format")
      "negative"
      ("API endpoint " ++ endpoint ++ " is available")
      ["Send " ++ method ++ " request to " ++ endpoint ++ " with invalid data types";
       "Verify response status is 400";
       "Verify error message indicates invalid format"]
      "API returns 400 status with format validation error"
      invalid
      "Medium" in
  boundary_max <- getBoundaryTestData request "max" ;;
  let boundary1 :=
    test_case (baseId ++ "_BND_001")
      (method ++ " " ++ endpoint ++ " with maximum length values")
      "boundary"
      ("API endpoint " ++ endpoint ++ " is available")
      ["Send " ++ method ++ " request to " ++ endpoint ++ " with max length string values";
       "Verify response status is 200";
       "Verify data is processed correctly"]
      "API processes max length values successfully"
      boundary_max
      "Medium" in
  boundary_min <- getBoundaryTestData request "min" ;;
  let boundary2 :=
    test_case (baseId ++ "_BND_002")
      (method ++ " " ++ endpoint ++ " with minimum length values")
      "boundary"
      ("API endpoint " ++ endpoint ++ " is available")
      ["Send " ++ method ++ " request to " ++ endpoint ++ " with min length values";
       "Verify response status is 200";
       "Verify data is processed correctly"]
      "API processes min length values successfully"
      boundary_min
      "Medium" in
  edge_null <- getEdgeTestData request "null" ;;
  let edge1 :=
    test_case (baseId ++ "_EDGE_001")
      (method ++ " " ++ endpoint ++ " with null values")
      "edge"
      ("API endpoint " ++ endpoint ++ " is available")
      ["Send " ++ method ++ " request to " ++ endpoint ++ " with null values for optional fields";
       "Verify response status is 200";
       "Verify null values are handled appropriately"]
      "API handles null values without errors"
      edge_null
      "Low" in
  edge_special <- getEdgeTestData request "special" ;;
  let edge2 :=
    test_case (baseId ++ "_EDGE_002")
      (method ++ " " ++ endpoint ++ " with special characters")
      "edge"
      ("API endpoint " ++ endpoint ++ " is available")
      ["Send " ++ method ++ " request to " ++ endpoint ++ " with special characters";
       "Verify response status is 200";
       "Verify special characters are processed correctly"]
      "API handles special characters appropriately"
      edge_special
      "Low" in
  Ok (test_cases [positive1] [negative1; negative2] [boundary1; boundary2]
        [edge1; edge2]).

(** The first word of [words] that the lower-cased content includes. *)
Fixpoint first_included (lowerContent : string) (words : list string)
    (default : string) : string :=
  match words with
  | [] => default
  | word :: rest =>
      if Str.includes lowerContent word then word
      else first_included lowerContent rest default
  end.

(** [content.toLowerCase()] throws unless [content] is a string. *)
Definition lower_content (content : value) : result string :=
  match content with
  | VStr s => Ok (Str.toLowerCase s)
  | _ => Throw TypeError
  end.

Definition extractMainAction (content : value) : result string :=
  let actionWords :=
    ["login"; "register"; "create"; "update"; "delete"; "submit"; "save";
     "search"; "view"; "access"] in
  lowerContent <- lower_content content ;;
  Ok (first_included lowerContent actionWords "perform action").

Definition extractMainFeature (content : value) : result string :=
  let featureWords :=
    ["authentication"; "authorization"; "validation"; "processing"; "display";
     "storage"; "communication"] in
  lowerContent <- lower_content content ;;
  Ok (first_included lowerContent featureWords "feature").

Definition scenario (tag : string) : value := VObj [("scenario", VStr tag)].

Definition generateUserStoryTestCases (storyInput : value) (baseId : string)
  : result value :=
  content <- get_prop storyInput "content" ;;
  mainAction <- extractMainAction content ;;
  Ok (test_cases
    [test_case (baseId ++ "_POS_001")
       ("Happy path - " ++ mainAction)
       "positive"
       "User has valid credentials and necessary permissions"
       ["Navigate to the relevant page";
        "Perform " ++ mainAction ++ " with valid data";
        "Verify the action completes successfully";
        "Verify expected outcome is achieved"]
       ("User can " ++ mainAction ++ " and see expected result")
       (scenario "happy_path")
       "High"]
    [test_case (baseId ++ "_NEG_001")
       ("Invalid input - " ++ mainAction)
       "negative"
       "User is on the relevant page"
       ["Enter invalid or missing required information";
        "Attempt to complete the action";
        "Verify validation error messages appear";
        "Verify action cannot be completed"]
       "System displays appropriate error messages and prevents invalid action"
       (scenario "invalid_input")
       "High"]
    [test_case (baseId ++ "_BND_001")
       ("Maximum limits - " ++ mainAction)
       "boundary"
       "User is on the relevant page"
       ["Enter data at maximum allowed limits";
        "Attempt to complete the action";
        "Verify system handles maximum limits correctly";
        "Verify action completes or shows appropriate limit message"]
       "System handles maximum boundary values appropriately"
       (scenario "max_limits")
       "Medium"]
    [test_case (baseId ++ "_EDGE_001")
       ("Concurrent access - " ++ mainAction)
       "edge"
       "Multiple users have access to the system"
       ["Multiple users attempt the same action simultaneously";
        "Verify system handles concurrent requests";
        "Verify data integrity is maintained";
        "Verify all users receive appropriate responses"]
       "System maintains data integrity under concurrent access"
       (scenario "concurrent_access")
       "Low"]).

Definition generateRawTextTestCases (textInput : value) (baseId : string)
  : result value :=
  content <- get_prop textInput "content" ;;
  mainFeature <- extractMainFeature content ;;
  Ok (test_cases
    [test_case (baseId ++ "_POS_001")
       ("Basic functionality - " ++ mainFeature)
       "positive"
       "System is available and user has necessary access"
       ["Access the feature/function";
        "Perform basic operation with valid inputs";
        "Verify the operation completes successfully";
        "Verify expected output is displayed"]
       "Feature works correctly with valid inputs"
       (scenario "basic_functionality")
       "High"]
    [test_case (baseId ++ "_NEG_001")
       ("Error handling - " ++ mainFeature)
       "negative"
       "User is accessing the feature"
       ["Provide invalid or missing inputs";
        "Attempt to execute the operation";
        "Verify appropriate error messages are shown";
        "Verify system remains stable"]
       "System handles errors gracefully with clear error messages"
       (scenario "error_handling")
       "High"]
    [test_case (baseId ++ "_BND_001")
       ("Limit testing - " ++ mainFeature)
       "boundary"
       "User is accessing the feature"
       ["Test with minimum allowed values";
        "Test with maximum allowed values";
        "Verify system behavior at boundaries";
        "Verify no crashes or unexpected behavior"]
       "System behaves correctly at boundary values"
       (scenario "boundary_testing")
       "Medium"]
    [test_case (baseId ++ "_EDGE_001")
       ("Stress testing - " ++ mainFeature)
       "edge"
       "System is under normal load"
       ["Execute multiple operations rapidly";
        "Verify system response time";
        "Verify system stability under load";
        "Verify data integrity is maintained"]
       "System maintains performance and stability under stress"
       (scenario "stress_testing")
       "Low"]).

Definition generateTestCases (normalizedInput : value) : result value :=
  baseId <- generateBaseId normalizedInput ;;
  type <- get_prop normalizedInput "type" ;;
  if is_string type "api" then generateApiTestCases normalizedInput baseId
  else if is_string type "user_story" then
    generateUserStoryTestCases normalizedInput baseId
  else if is_string type "raw_text" then
    generateRawTextTestCases normalizedInput baseId
  else
    printed <- ToString type ;;
    Throw (Error ("Unsupported input type: " ++ printed)).

(** ** Output validation *)

Record validation := { isValid : bool; errors : list string }.

Definition requiredSections : list string :=
  ["positive"; "negative"; "boundary"; "edge"].

Definition requiredFields : list string :=
  ["id"; "title"; "type"; "precondition"; "steps"; "expected_result";
   "test_data"; "priority"].

Definition missing_section (section : string) : string :=
  "Missing or invalid section: " ++ section.

Definition short_section (section : string) : string :=
  "Section " ++ section ++ " has less than 3 test cases".

Definition missing_field (section : string) (index : nat) (field : string) : string :=
  "Section " ++ section ++ ", case " ++ string_of_nat (index + 1) ++
  ": Missing field " ++ field.

Definition empty_steps (section : string) (index : nat) : string :=
  "Section " ++ section ++ ", case " ++ string_of_nat (index + 1) ++
  ": Steps array is empty".

(** The first loop: the errors of the required sections, in order. *)
Fixpoint check_sections (testCases : value) (sections : list string)
  : result (list string) :=
  match sections with
  | [] => Ok []
  | section :: rest =>
      s <- get_prop testCases section ;;
      let here :=
        if negb (truthy s) || negb (Array_isArray s) then [missing_section section]
        else
          match s with
          | VArr cases =>
              if (List.length cases <? 3)%nat then [short_section section] else []
          | _ => []
          end in
      more <- check_sections testCases rest ;;
      Ok (here ++ more)%list
  end.

(** [field in testCase] for every required field. *)
Fixpoint check_fields (section : string) (index : nat) (testCase : value)
    (fields : list string) : result (list string) :=
  match fields with
  | [] => Ok []
  | field :: rest =>
      present <- in_op field testCase ;;
      more <- check_fields section index testCase rest ;;
      Ok ((if negb present then [missing_field section index field] else []) ++ more)%list
  end.

Definition check_case (section : string) (index : nat) (testCase : value)
  : result (list string) :=
  missing <- check_fields section index testCase requiredFields ;;
  steps <- get_prop testCase "steps" ;;
  no_steps <-
    (if negb (truthy steps) then Ok true
     else len <- length_prop steps ;; Ok (is_zero len)) ;;
  Ok (missing ++ if no_steps then [empty_steps section index] else [])%list.

(** [cases.entries()], from position [index] on. *)
Fixpoint check_cases (section : string) (cases : list value) (index : nat)
  : result (list string) :=
  match cases with
  | [] => Ok []
  | testCase :: rest =>
      here <- check_case section index testCase ;;
      more <- check_cases section rest (S index) ;;
      Ok (here ++ more)%list
  end.

(** The second loop, over [Object.entries(testCases)]. *)
Fixpoint check_entries (entries : list (string * value)) : result (list string) :=
  match entries with
  | [] => Ok []
  | (section, cases) :: rest =>
      here <-
        (match cases with
         | VArr l => check_cases section l 0
         | _ => Ok []
         end) ;;
      more <- check_entries rest ;;
      Ok (here ++ more)%list
  end.

Definition validateOutput (testCases : value) : result validation :=
  sections <- check_sections testCases requiredSections ;;
  entries <- Object_entries testCases ;;
  cases <- check_entries entries ;;
  let errors := (sections ++ cases)%list in
  Ok {| isValid := (List.length errors =? 0)%nat; errors := errors |}.

(** ** The [generate_test_cases] tool *)

Record summary := {
  total_cases : nat;
  by_section : list (string * value)
}.

Record response := {
  input_type : value;
  validation_of : validation;
  test_cases_of : value;
  summary_of : summary
}.

(** [Object.values(testCases).flat().length]. *)
Definition flat_length (entries : list (string * value)) : nat :=
  fold_right (fun kv n =>
    match snd kv with
    | VArr l => List.length l + n
    | _ => S n
    end) 0 entries.

(** [testCases.<section>.length]. *)
Definition section_length (testCases : value) (section : string) : result value :=
  s <- get_prop testCases section ;;
  length_prop s.

(** The handler of the tool: the [try] body; a [Throw] is what its [catch]
    reports as a failure result. *)
Definition generate_test_cases (JSON_parse : string -> option value)
    (input : value) : result response :=
  normalizedInput <- normalizeInput JSON_parse input ;;
  testCases <- generateTestCases normalizedInput ;;
  validation <- validateOutput testCases ;;
  type <- get_prop normalizedInput "type" ;;
  entries <- Object_entries testCases ;;
  positive <- section_length testCases "positive" ;;
  negative <- section_length testCases "negative" ;;
  boundary <- section_length testCases "boundary" ;;
  edge <- section_length testCases "edge" ;;
  Ok {| input_type := type;
        validation_of := validation;
        test_cases_of := testCases;
        summary_of :=
          {| total_cases := flat_length entries;
             by_section := [("positive", positive); ("negative", negative);
                            ("boundary", boundary); ("edge", edge)] |} |}.

(** ** The exporter and the automation templater

    The functions the tool handlers call on a test-case set, in the version
    of the server that carries the spreadsheet and automation tools. *)

Definition newline : string := String (ascii_of_nat 10) "".

(** [s.charAt(0).toUpperCase() + s.slice(1)], for the section names. *)
Definition capitalize (s : string) : string :=
  match s with
  | EmptyString => ""
  | String c r => Str.toUpperCase (String c "") ++ r
  end.

Definition excel_header : list value :=
  map VStr ["Test Case ID"; "Title"; "Type"; "Priority"; "Precondition";
            "Steps"; "Expected Result"; "Test Data"; "Section"].

(** The row [exportToExcel] pushes for one test case. *)
Definition excel_row (section : string) (testCase : value) : result (list value) :=
  id <- get_prop testCase "id" ;;
  title <- get_prop testCase "title" ;;
  type <- get_prop testCase "type" ;;
  priority <- get_prop testCase "priority" ;;
  precondition <- get_prop testCase "precondition" ;;
  steps <- get_prop testCase "steps" ;;
  expected_result <- get_prop testCase "expected_result" ;;
  test_data <- get_prop testCase "test_data" ;;
  joined <-
    (match steps with
     | VArr l => lines <- Array_join newline l ;; Ok (VStr lines)
     | _ => Ok (or_else steps (VStr ""))
     end) ;;
  Ok [or_else id (VStr "");
      or_else title (VStr "");
      or_else type (VStr "");
      or_else priority (VStr "");
      or_else precondition (VStr "");
      joined;
      or_else expected_result (VStr "");
      if typeof test_data =? "object" then stringify_value test_data
      else or_else test_data (VStr "");
      VStr (capitalize section)].

Fixpoint excel_rows (section : string) (cases : list value)
  : result (list (list value)) :=
  match cases with
  | [] => Ok []
  | testCase :: rest =>
      row <- excel_row section testCase ;;
      more <- excel_rows section rest ;;
      Ok (row :: more)
  end.

(** The loop of [exportToExcel] over the sections. *)
Fixpoint excel_sections (testCases : value) (sections : list string)
  : result (list (list value)) :=
  match sections with
  | [] => Ok []
  | section :: rest =>
      s <- get_prop testCases section ;;
      here <-
        (if truthy s && Array_isArray s then
           match s with
           | VArr cases => excel_rows section cases
           | _ => Ok []
           end
         else Ok []) ;;
      more <- excel_sections testCases rest ;;
      Ok (here ++ more)%list
  end.

(** [excelData], the rows handed to the worksheet: the header, then one row
    for each case of the four sections. *)
Definition excelData (testCases : value) : result (list (list value)) :=
  rows <- excel_sections testCases requiredSections ;;
  Ok (excel_header :: rows).

Inductive export_result :=
| Exported (path : value) (total_cases : nat) (file_size : nat)
| ExportFailed (e : error).

(** [exportToExcel]; [write] stands for the spreadsheet library and the file
    system: it writes the rows to the path and returns the size of the file,
    or throws.  The [catch] turns every exception into a failure result. *)
Definition exportToExcel (write : list (list value) -> value -> result nat)
    (testCases outputPath : value) : export_result :=
  match
    (data <- excelData testCases ;;
     size <- write data outputPath ;;
     Ok (Exported outputPath (List.length data - 1) size))
  with
  | Ok r => r
  | Throw e => ExportFailed e
  end.

Definition generatePlaywrightSetup : string :=
  String.concat newline
    ["// Playwright Test Configuration";
     "import { test, expect } from '@playwright/test';";
     "";
     "// Test configuration";
     "const config = {";
     "  baseURL: 'https://example.com',";
     "  timeout: 30000,";
     "  retries: 2";
     "};";
     "";
     "// Custom test helpers";
     "const helpers = {";
     "  async login(page, username, password) {";
     "    await page.goto('/login');";
     "    await page.fill('[data-testid=" ++ dquote ++ "username" ++ dquote ++ "]', username);";
     "    await page.fill('[data-testid=" ++ dquote ++ "password" ++ dquote ++ "]', password);";
     "    await page.click('[data-testid=" ++ dquote ++ "login-button" ++ dquote ++ "]');";
     "  },";
     "  ";
     "  async verifyToast(page, message) {";
     "    await expect(page.locator('.toast')).toContainText(message);";
     "  },";
     "  ";
     "  async waitForDashboard(page) {";
     "    await expect(page.locator('h1')).toContainText('Dashboard');";
     "  }";
     "};"].

(** [title.replace(/[^a-zA-Z0-9]/g, ' ')]. *)
Definition blank_non_alnum (s : string) : string :=
  Str.map_chars (fun c => if Str.is_alnum c then c else " "%char) s.

Fixpoint trim_start (s : string) : string :=
  match s with
  | String c r => if (c =? " ")%char then trim_start r else s
  | EmptyString => s
  end.

(** One space for every run of spaces: [s.replace(/\s+/g, ' ')] on a string
    whose only white space is the space character. *)
Fixpoint collapse_spaces (s : string) : string :=
  match s with
  | String c r =>
      if (c =? " ")%char then String " " (collapse_spaces (trim_start r))
      else String c (collapse_spaces r)
  | EmptyString => s
  end.

Fixpoint trim_end (s : string) : string :=
  match s with
  | String c r =>
      match trim_end r with
      | EmptyString => if (c =? " ")%char then "" else String c ""
      | r' => String c r'
      end
  | EmptyString => s
  end.

(** [s.trim()] on such a string. *)
Definition trim (s : string) : string := trim_end (trim_start s).

(** The evaluation of an identifier that no scope declares: a
    [ReferenceError], carried with its message. *)
Definition reference_error {A} (name : string) : result A :=
  Throw (Error (name ++ " is not defined")).

(** [generatePlaywrightTest].  Its third statement reads
    [testCase.precondition], and neither the function nor the module
    declares [testCase]: the evaluation stops there, and the statements that
    follow (the steps and the expectation) are never run. *)
Definition generatePlaywrightTest (id title steps expectedResult testData type
    baseUrl : value) : result value :=
  match title with
  | VStr t =>
      let testName := collapse_spaces (trim (blank_non_alnum t)) in
      let testFunction := "test('" ++ testName ++ "', async ({ page }) => {" in
      let testCode := testFunction ++ newline in
      reference_error "testCase"
  | _ => Throw TypeError
  end.

Definition generateSingleTest (testCase framework language baseUrl : value)
  : result value :=
  id <- get_prop testCase "id" ;;
  title <- get_prop testCase "title" ;;
  steps <- get_prop testCase "steps" ;;
  expected_result <- get_prop testCase "expected_result" ;;
  test_data <- get_prop testCase "test_data" ;;
  type <- get_prop testCase "type" ;;
  if is_string framework "playwright" && is_string language "javascript" then
    generatePlaywrightTest id title steps expected_result test_data type baseUrl
  else
    f <- ToString framework ;;
    l <- ToString language ;;
    Ok (VStr ("// Test generation not implemented for " ++ f ++ " with " ++ l)).

(** [cases.map(testCase => generateSingleTest(...))]. *)
Fixpoint map_tests (cases : list value) (framework language baseUrl : value)
  : result (list value) :=
  match cases with
  | [] => Ok []
  | testCase :: rest =>
      t <- generateSingleTest testCase framework language baseUrl ;;
      more <- map_tests rest framework language baseUrl ;;
      Ok (t :: more)
  end.

(** The loop of [generateAutomationTests] over the sections; [tests] is the
    object being filled, which starts as [{}]. *)
Fixpoint automation_sections (testCases : value) (sections : list string)
    (framework language baseUrl : value) (tests : instance) : result instance :=
  match sections with
  | [] => Ok tests
  | section :: rest =>
      s <- get_prop testCases section ;;
      tests' <-
        (if truthy s && Array_isArray s then
           match s with
           | VArr cases =>
               generated <- map_tests cases framework language baseUrl ;;
               Ok (obj_assign section (VArr generated) tests)
           | _ => Ok tests
           end
         else Ok tests) ;;
      automation_sections testCases rest framework language baseUrl tests'
  end.

Definition generateAutomationTests (testCases options : value) : result value :=
  let options := match options with VUndefined => VObj [] | _ => options end in
  f <- get_prop options "framework" ;;
  l <- get_prop options "language" ;;
  b <- get_prop options "baseUrl" ;;
  let framework := or_else f (VStr "playwright") in
  let language := or_else l (VStr "javascript") in
  let baseUrl := or_else b (VStr "https://example.com") in
  let configured := is_string framework "playwright" && is_string language "javascript" in
  tests <- automation_sections testCases requiredSections framework language baseUrl
             empty_object ;;
  Ok (VObj [("framework", framework);
            ("language", language);
            ("baseUrl", baseUrl);
            ("tests", VObj (own tests));
            ("setup", VStr (if configured then generatePlaywrightSetup else ""));
            ("dependencies",
             VArr (if configured then [VStr "@playwright/test"] else []))]).

(** [detectFileType], on the strings its caller passes: the lower-cased
    extension of the path and the text of the file. *)
Definition detectFileType (extension content : string) : string :=
  let ext := Str.toLowerCase extension in
  let among (l : list string) := existsb (String.eqb ext) l in
  if among [".md"; ".markdown"] then "markdown"
  else if among [".txt"; ".text"] then "text"
  else if among [".json"] then "json"
  else if among [".yml"; ".yaml"] then "yaml"
  else if among [".doc"; ".docx"] then "word"
  else if among [".pdf"] then "pdf"
  else if Str.includes content "As a" && Str.includes content "I want" &&
          Str.includes content "So that" then "user_story"
  else if Str.includes content "endpoint" || Str.includes content "method" ||
          Str.includes content "request" then "api_spec"
  else "unknown".

(** ** Scenario inputs *)

Definition login_story : string :=
  "As a user I want to login so that I can access dashboard".

Definition login_api : value :=
  VObj [("endpoint", VStr "/login");
        ("method", VStr "POST");
        ("request", VObj [("username", VStr "string"); ("password", VStr "string")])].

(** The same specification once normalised. *)
Definition login_request_api : value :=
  VObj [("type", VStr "api");
        ("endpoint", VStr "/login");
        ("method", VStr "POST");
        ("request", VObj [("username", VStr "string"); ("password", VStr "string")]);
        ("response", VObj [])].

(** ** Vocabulary of the properties *)

(** What the negative case stores for a field, when it stores anything. *)
Definition invalid_of (v : value) : option value :=
  match v with
  | VStr _ => Some (VNum (num_of_Z 123))
  | VNum _ => Some (VStr "not_a_number")
  | VBool _ => Some (VStr "not_a_boolean")
  | _ => None
  end.

(** What a boundary case stores for a field, when it stores anything. *)
Definition boundary_of (type : string) (v : value) : option value :=
  match v with
  | VStr _ =>
      Some (VStr (if type =? "max"
                  then repeat_string "a" QA_ASSUMPTIONS.string_maxLength
                  else "a"))
  | VNum _ =>
      Some (VNum (num_of_Z (if type =? "max"
                            then QA_ASSUMPTIONS.number_max
                            else QA_ASSUMPTIONS.number_min)))
  | _ => None
  end.

(** The reading of claim C5 as it is written: a field of another type keeps
    its value in the returned mapping. *)
Definition inverts_and_keeps (R invalid : object) : Prop :=
  forall k v,
    obj_get R k = Some v ->
    if (typeof v =? "string") || (typeof v =? "number") || (typeof v =? "boolean")
    then exists w, obj_get invalid k = Some w /\ typeof w <> typeof v
    else obj_get invalid k = Some v.

(** The values [in] accepts on its right: objects and arrays. *)
Definition is_object_value (v : value) : bool :=
  match v with
  | VObj _ | VArr _ => true
  | _ => false
  end.

(** A test case that carries every required field and a non-empty array of
    steps. *)
Definition complete_case (v : value) : bool :=
  match v with
  | VObj o =>
      forallb (has_key o) requiredFields &&
      match obj_get o "steps" with
      | Some (VArr (_ :: _)) => true
      | _ => false
      end
  | _ => false
  end.

(** The error of a section of fewer than three cases, if it is one. *)
Definition short_if (cases : list value) (section : string) : list string :=
  if (List.length cases <? 3)%nat then [short_section section] else [].

(** A test-case set whose array sections hold objects only: the shape on
    which the validator runs to its end. *)
Definition sections_hold_objects (set : object) : Prop :=
  forall section cases,
    In (section, VArr cases) set ->
    Forall (fun tc => is_object_value tc = true) cases.

(** Every case of the list is complete. *)
Definition all_complete (cases : list value) : Prop :=
  Forall (fun tc => complete_case tc = true) cases.

(** The values a template literal can print: every primitive, an object
    without a [toString] property of its own, and an array whose elements
    are such values. *)
Fixpoint printable (v : value) : bool :=
  match v with
  | VArr l => forallb printable l
  | VObj o => negb (has_key o "toString")
  | _ => true
  end.

(** An input of the [api] variant of the data model: tagged [api], with a
    string for endpoint and a method that can be printed (a string, in the
    data model). *)
Definition api_variant (input : value) : Prop :=
  get_prop input "type" = Ok (VStr "api") /\
  (exists endpoint, get_prop input "endpoint" = Ok (VStr endpoint)) /\
  exists method, get_prop input "method" = Ok method /\ printable method = true.

(** An input of a narrative variant of the data model: tagged [user_story]
    or [raw_text], with a string for content. *)
Definition narrative_variant (input : value) : Prop :=
  (get_prop input "type" = Ok (VStr "user_story") \/
   get_prop input "type" = Ok (VStr "raw_text")) /\
  exists content, get_prop input "content" = Ok (VStr content).

(** The words of the identifier: the first three matches, upper-cased. *)
Definition keyWords_of (content : string) : list string :=
  map Str.toUpperCase
    (firstn 3
       match Str.match_words content with
       | Some ws => ws
       | None => []
       end).

(** The [type] an input object carries when [normalizeInput] returns it as
    it is: a truthy [type] property of an object. *)
Definition carried_type (input : value) : option value :=
  match input with
  | VObj o =>
      match obj_get o "type" with
      | Some t => if truthy t then Some t else None
      | None => None
      end
  | _ => None
  end.

(** The property [k] of [v] can be read and is truthy. *)
Definition field_truthy (v : value) (k : string) : bool :=
  match get_prop v k with
  | Ok x => truthy x
  | Throw _ => false
  end.

(** The partition by truthy fields, first match first. *)
Definition classify (parsed : value) : string :=
  if field_truthy parsed "endpoint" && field_truthy parsed "method" then "api"
  else if existsb (field_truthy parsed) ["user"; "story"; "as"; "iWant"; "soThat"]
       then "user_story"
       else "raw_text".

(** [t] is one of the three tags the synthesizer dispatches on. *)
Definition known_tag (t : value) : bool :=
  is_string t "api" || is_string t "user_story" || is_string t "raw_text".

(** The field [k] is present in the object [v], whatever its value. *)
Definition has_field (v : value) (k : string) : bool :=
  match v with
  | VObj o => has_key o k
  | _ => false
  end.

(** The value [get_prop] reads from an object. *)
Definition prop (o : object) (k : string) : value :=
  match obj_get o k with
  | Some x => x
  | None => VUndefined
  end.

(** A computation that throws nothing but a [TypeError]. *)
Definition only_type_errors {A} (m : result A) : Prop :=
  forall message, m <> Throw (Error message).

(** [tc.k] when it can be read, [undefined] otherwise. *)
Definition prop_of (k : string) (tc : value) : value :=
  match get_prop tc k with
  | Ok v => v
  | Throw _ => VUndefined
  end.

(** A case of a section: its id is the base id with the suffix, its type is
    the name of the section and its priority is one of the three levels. *)
Definition case_labelled (baseId suffix type : string) (tc : value) : Prop :=
  get_prop tc "id" = Ok (VStr (baseId ++ suffix)) /\
  get_prop tc "type" = Ok (VStr type) /\
  exists priority,
    get_prop tc "priority" = Ok (VStr priority) /\
    In priority ["High"; "Medium"; "Low"].

(** The [id] of every case of a list. *)
Definition ids_of (cases : list value) : list value :=
  map (prop_of "id") cases.

(** Every character of [s] satisfies [p]. *)
Fixpoint all_chars (p : ascii -> bool) (s : string) : bool :=
  match s with
  | EmptyString => true
  | String c r => p c && all_chars p r
  end.

(** The characters of an identifier: capitals, digits and the underscore. *)
Definition is_id_char (c : ascii) : bool :=
  Str.is_upper c || is_digit c || (c =? "_")%char.

(** The keyword lists of [extractMainAction] and [extractMainFeature], in
    their order of priority. *)
Definition actionWords : list string :=
  ["login"; "register"; "create"; "update"; "delete"; "submit"; "save";
   "search"; "view"; "access"].

Definition featureWords : list string :=
  ["authentication"; "authorization"; "validation"; "processing"; "display";
   "storage"; "communication"].

(** [word] is the first keyword of [words] that [text] includes, or the
    default when it includes none. *)
Definition first_keyword (text : string) (words : list string)
    (default word : string) : Prop :=
  (word = default /\ forall w, In w words -> Str.includes text w = false) \/
  (exists before after,
     words = (before ++ word :: after)%list /\
     Str.includes text word = true /\
     forall w, In w before -> Str.includes text w = false).

(** A set the validator accepts: three complete cases in each section. *)
Definition sample_case (id : string) : value :=
  test_case id "Sign in" "positive" "An account exists" ["Open the page"]
    "The dashboard opens" (VObj []) "High".

Definition sample_set : object :=
  [("positive", VArr [sample_case "A1"; sample_case "A2"; sample_case "A3"]);
   ("negative", VArr [sample_case "B1"; sample_case "B2"; sample_case "B3"]);
   ("boundary", VArr [sample_case "C1"; sample_case "C2"; sample_case "C3"]);
   ("edge", VArr [sample_case "D1"; sample_case "D2"; sample_case "D3"])].

(** The number of cases of a section of a set: those of an array, none
    otherwise. *)
Definition section_count (set : object) (section : string) : nat :=
  match obj_get set section with
  | Some (VArr cases) => List.length cases
  | _ => 0
  end.

(** A case that is an object with a string for title. *)
Definition titled (tc : value) : Prop :=
  exists o title, tc = VObj o /\ obj_get o "title" = Some (VStr title).

(** [options.key || default], as [generateAutomationTests] reads its
    options; an omitted [options] is the empty object. *)
Definition option_or (options : value) (key default : string) : value :=
  or_else
    (prop_of key match options with VUndefined => VObj [] | _ => options end)
    (VStr default).

(** The one-line test of a framework or language that has no generator. *)
Definition not_implemented (framework language : string) : value :=
  VStr ("// Test generation not implemented for " ++ framework ++
        " with " ++ language).

(** The steps of a case can be joined: they are not an array, or an array
    of printable values. *)
Definition steps_printable (tc : value) : bool :=
  match prop_of "steps" tc with
  | VArr l => forallb printable l
  | _ => true
  end.

(** A test-case set whose array sections hold objects with steps that can
    be joined: the shape on which the exporter builds its rows. *)
Definition sections_hold_rows (set : object) : Prop :=
  forall section cases,
    In (section, VArr cases) set ->
    Forall (fun tc => is_object_value tc = true /\ steps_printable tc = true) cases.

(** The extensions [detectFileType] knows. *)
Definition known_extensions : list string :=
  [".md"; ".markdown"; ".txt"; ".text"; ".json"; ".yml"; ".yaml"; ".doc";
   ".docx"; ".pdf"].

(** ** Properties of the object operations *)

Section ObjectLemmas.

Lemma obj_get_update (k : string) (v : value) (o : object) (k' : string) :
  obj_get (obj_update k v o) k' =
  if k' =? k then (if has_key o k then Some v else None) else obj_get o k'.
Proof.
  unfold has_key.
  induction o as [|[k0 v0] o IH]; simpl.
  - destruct (k' =? k); reflexivity.
  - destruct (String.eqb_spec k0 k) as [->|Hk0].
    + simpl. destruct (String.eqb_spec k k') as [->|Hne].
      * now rewrite String.eqb_refl.
      * destruct (String.eqb_spec k' k); congruence.
    + simpl. destruct (String.eqb_spec k0 k') as [->|Hne].
      * destruct (String.eqb_spec k' k); congruence.
      * exact IH.
Qed.

Lemma obj_get_insert (k : string) (v : value) (o : object) (k' : string) :
  has_key o k = false ->
  obj_get (obj_insert k v o) k' = if k' =? k then Some v else obj_get o k'.
Proof.
  unfold has_key.
  induction o as [|[k0 v0] o IH]; simpl; intros Hno.
  - rewrite (String.eqb_sym k k'). reflexivity.
  - destruct (String.eqb_spec k0 k) as [->|Hk0]; [discriminate|].
    destruct (enumerated_before k k0); simpl.
    + rewrite (String.eqb_sym k k'). reflexivity.
    + destruct (String.eqb_spec k0 k') as [->|Hne].
      * destruct (String.eqb_spec k' k); congruence.
      * apply IH, Hno.
Qed.

(** Reading after an assignment to a key other than [__proto__]. *)
Lemma obj_get_assign (k : string) (v : value) (o : instance) (k' : string) :
  k <> "__proto__" ->
  obj_get (own (obj_assign k v o)) k' =
  if k' =? k then Some v else obj_get (own o) k'.
Proof.
  intros Hk. unfold obj_assign.
  apply String.eqb_neq in Hk. rewrite Hk. cbn [andb].
  destruct (has_key (own o) k) eqn:Hown; cbn [own].
  - rewrite obj_get_update, Hown. reflexivity.
  - apply obj_get_insert, Hown.
Qed.

(** An assignment leaves every other property as it is, whatever the key. *)
Lemma obj_get_assign_other (k : string) (v : value) (o : instance) (k' : string) :
  k' <> k ->
  obj_get (own (obj_assign k v o)) k' = obj_get (own o) k'.
Proof.
  intros Hne. apply String.eqb_neq in Hne. unfold obj_assign.
  destruct (has_key (own o) k) eqn:Hown; cbn [own].
  - rewrite obj_get_update, Hne. reflexivity.
  - destruct ((k =? "__proto__") && reaches_proto_accessor (proto o)); cbn [own].
    + reflexivity.
    + rewrite (obj_get_insert _ _ _ _ Hown), Hne. reflexivity.
Qed.

Lemma proto_assign (k : string) (v : value) (o : instance) :
  k <> "__proto__" -> proto (obj_assign k v o) = proto o.
Proof.
  intros Hk. apply String.eqb_neq in Hk. unfold obj_assign. rewrite Hk.
  destruct (has_key (own o) k); reflexivity.
Qed.

(** On an object that inherits from [Object.prototype] the assignment to
    [__proto__] creates no property. *)
Lemma own_assign_proto (v : value) (o : instance) :
  proto o = ObjectPrototype ->
  obj_get (own o) "__proto__" = None ->
  own (obj_assign "__proto__" v o) = own o.
Proof.
  intros Hp Hown. unfold obj_assign, has_key. rewrite Hown, Hp. reflexivity.
Qed.

Section Loops.

(** A loop that rewrites the fields selected by [f], one assignment each. *)
Variable step : instance -> string * value -> instance.
Variable f : value -> option value.
Hypothesis step_assigns :
  forall acc k v,
    step acc (k, v) =
    match f v with
    | Some w => obj_assign k w acc
    | None => acc
    end.

Lemma fold_assign_other (entries : list (string * value)) :
  forall acc k,
    ~ In k (map fst entries) ->
    obj_get (own (fold_left step entries acc)) k = obj_get (own acc) k.
Proof.
  induction entries as [|[k0 v0] entries IH]; simpl; intros acc k Hnotin.
  - reflexivity.
  - rewrite IH by tauto. rewrite step_assigns.
    destruct (f v0); [|reflexivity].
    apply obj_get_assign_other. intros ->. tauto.
Qed.

Lemma fold_assign_get (entries : list (string * value)) :
  forall acc k,
    NoDup (map fst entries) ->
    k <> "__proto__" ->
    obj_get (own (fold_left step entries acc)) k =
    match obj_get entries k with
    | Some v =>
        match f v with
        | Some w => Some w
        | None => obj_get (own acc) k
        end
    | None => obj_get (own acc) k
    end.
Proof.
  induction entries as [|[k0 v0] entries IH]; simpl; intros acc k Hnd Hk.
  - reflexivity.
  - inversion Hnd as [|? ? Hnotin Hnd']; subst.
    destruct (String.eqb_spec k0 k) as [->|Hne].
    + rewrite (fold_assign_other entries _ k Hnotin), step_assigns.
      destruct (f v0); [|reflexivity].
      rewrite (obj_get_assign _ _ _ _ Hk), String.eqb_refl. reflexivity.
    + rewrite (IH _ k Hnd' Hk), step_assigns.
      assert (Hkeep : forall w, obj_get (own (obj_assign k0 w acc)) k = obj_get (own acc) k)
        by (intros w; apply obj_get_assign_other; congruence).
      destruct (obj_get entries k) as [v|]; [destruct (f v); [reflexivity|]|];
        (destruct (f v0); [apply Hkeep|reflexivity]).
Qed.

(** The loop never creates a property named [__proto__]: its one
    assignment to that name finds the accessor of [Object.prototype]. *)
Lemma fold_assign_proto (entries : list (string * value)) :
  forall acc,
    NoDup (map fst entries) ->
    proto acc = ObjectPrototype ->
    obj_get (own acc) "__proto__" = None ->
    obj_get (own (fold_left step entries acc)) "__proto__" = None.
Proof.
  induction entries as [|[k0 v0] entries IH]; simpl; intros acc Hnd Hp Hown.
  - exact Hown.
  - inversion Hnd as [|? ? Hnotin Hnd']; subst.
    rewrite step_assigns. destruct (f v0) as [w|]; [|now apply IH].
    destruct (String.eqb_spec k0 "__proto__") as [->|Hne].
    + rewrite (fold_assign_other entries _ _ Hnotin).
      now rewrite own_assign_proto.
    + apply IH; [exact Hnd'| |].
      * now rewrite proto_assign.
      * rewrite obj_get_assign_other by congruence. exact Hown.
Qed.

(** The fields of the object the loop fills, starting from [{}]. *)
Lemma fold_assign_fields (entries : list (string * value)) (k : string) :
  NoDup (map fst entries) ->
  obj_get (own (fold_left step entries empty_object)) k =
  if k =? "__proto__" then None
  else match obj_get entries k with
       | Some v => f v
       | None => None
       end.
Proof.
  intros Hnd. destruct (String.eqb_spec k "__proto__") as [->|Hk].
  - now apply fold_assign_proto.
  - rewrite (fold_assign_get entries _ k Hnd Hk). cbn [own empty_object obj_get].
    destruct (obj_get entries k) as [v|]; [destruct (f v)|]; reflexivity.
Qed.

End Loops.

End ObjectLemmas.

(** ** Derived request data *)

Section RequestData.

Lemma getInvalidTestData_get (R : object) :
  NoDup (map fst R) ->
  exists invalid,
    getInvalidTestData (VObj R) = Ok (VObj invalid) /\
    forall k,
      obj_get invalid k =
      if k =? "__proto__" then None
      else match obj_get R k with
           | Some v => invalid_of v
           | None => None
           end.
Proof.
  intros Hnd. eexists. split; [reflexivity|].
  intros k. apply fold_assign_fields; [|exact Hnd].
  intros acc k0 []; reflexivity.
Qed.

Lemma getBoundaryTestData_get (R : object) (type : string) :
  NoDup (map fst R) ->
  exists boundary,
    getBoundaryTestData (VObj R) type = Ok (VObj boundary) /\
    forall k,
      obj_get boundary k =
      if k =? "__proto__" then None
      else match obj_get R k with
           | Some v => boundary_of type v
           | None => None
           end.
Proof.
  intros Hnd. eexists. split; [reflexivity|].
  intros k. apply fold_assign_fields; [|exact Hnd].
  intros acc k0 []; reflexivity.
Qed.

End RequestData.

(** C5, counterexample: for the request [{a: null}] the function returns the
    empty mapping, so the field [a], of another type, is not left in place
    with its value: it is dropped. *)
Lemma C5_null_field_is_dropped :
  getInvalidTestData (VObj [("a", VNull)]) = Ok (VObj []) /\
  ~ inverts_and_keeps [("a", VNull)] [].
Proof.
  split; [reflexivity|].
  intros H. specialize (H "a" VNull eq_refl). simpl in H. discriminate.
Qed.

(** C5, amended: for every request mapping (an object, its property names
    distinct) and every field of it other than one named [__proto__],
    [getInvalidTestData] returns a mapping in which the field holds the
    number 123 when its value was a string and the placeholder string
    [not_a_number] or [not_a_boolean] when it was a number or a boolean -- a
    value of a different runtime type in each case -- and in which a field
    of any other type is absent. *)
Theorem C5_getInvalidTestData_inverts_or_drops (R : object) :
  NoDup (map fst R) ->
  exists invalid,
    getInvalidTestData (VObj R) = Ok (VObj invalid) /\
    forall k v,
      k <> "__proto__" ->
      obj_get R k = Some v ->
      (typeof v = "string" ->
         obj_get invalid k = Some (VNum (num_of_Z 123)) /\
         typeof (VNum (num_of_Z 123)) <> typeof v) /\
      (typeof v = "number" ->
         obj_get invalid k = Some (VStr "not_a_number") /\
         typeof (VStr "not_a_number") <> typeof v) /\
      (typeof v = "boolean" ->
         obj_get invalid k = Some (VStr "not_a_boolean") /\
         typeof (VStr "not_a_boolean") <> typeof v) /\
      (typeof v <> "string" -> typeof v <> "number" -> typeof v <> "boolean" ->
         obj_get invalid k = None).
Proof.
  intros Hnd.
  destruct (getInvalidTestData_get R Hnd) as (invalid & Hrun & Hget).
  exists invalid. split; [exact Hrun|].
  intros k v Hproto Hk. rewrite Hget, Hk.
  apply String.eqb_neq in Hproto. rewrite Hproto.
  destruct v; simpl; repeat split; intros; try discriminate; try congruence.
Qed.

Lemma C5_witness :
  NoDup (map fst [("name", VStr "Ann"); ("age", VNum (num_of_Z 7));
                  ("admin", VBool true); ("tags", VArr [])]) /\
  exists invalid,
    getInvalidTestData
      (VObj [("name", VStr "Ann"); ("age", VNum (num_of_Z 7));
             ("admin", VBool true); ("tags", VArr [])]) = Ok (VObj invalid) /\
    forall k v,
      k <> "__proto__" ->
      obj_get [("name", VStr "Ann"); ("age", VNum (num_of_Z 7));
               ("admin", VBool true); ("tags", VArr [])] k = Some v ->
      (typeof v = "string" ->
         obj_get invalid k = Some (VNum (num_of_Z 123)) /\
         typeof (VNum (num_of_Z 123)) <> typeof v) /\
      (typeof v = "number" ->
         obj_get invalid k = Some (VStr "not_a_number") /\
         typeof (VStr "not_a_number") <> typeof v) /\
      (typeof v = "boolean" ->
         obj_get invalid k = Some (VStr "not_a_boolean") /\
         typeof (VStr "not_a_boolean") <> typeof v) /\
      (typeof v <> "string" -> typeof v <> "number" -> typeof v <> "boolean" ->
         obj_get invalid k = None).
Proof.
  assert (Hnd : NoDup (map fst [("name", VStr "Ann"); ("age", VNum (num_of_Z 7));
                                ("admin", VBool true); ("tags", VArr [])])).
  { repeat constructor; simpl; intuition discriminate. }
  split; [exact Hnd|].
  exact (C5_getInvalidTestData_inverts_or_drops _ Hnd).
Defined.

(** C9, as the code runs: for every request mapping (an object, its
    property names distinct), in the boundary test data every field other
    than one named [__proto__] whose value was a string holds, in the [max]
    case, a string of length exactly 255 and, in the [min] case, the single
    character [a], and every such field whose value was a number holds
    999999 in the [max] case and 0 in the [min] case.  A field named
    [__proto__] gets no value at all, whatever it held: [boundary[key] = ...]
    reaches the accessor of [Object.prototype] for that key and stores
    nothing, so that the request [{"__proto__": "x"}] yields the empty
    mapping in both cases. *)
Theorem C9_getBoundaryTestData_misses_proto_field (R : object) :
  NoDup (map fst R) ->
  exists bmax bmin,
    getBoundaryTestData (VObj R) "max" = Ok (VObj bmax) /\
    getBoundaryTestData (VObj R) "min" = Ok (VObj bmin) /\
    (forall k s,
       k <> "__proto__" ->
       obj_get R k = Some (VStr s) ->
       (exists m, obj_get bmax k = Some (VStr m) /\ String.length m = 255%nat) /\
       obj_get bmin k = Some (VStr "a")) /\
    (forall k n,
       k <> "__proto__" ->
       obj_get R k = Some (VNum n) ->
       obj_get bmax k = Some (VNum (num_of_Z 999999)) /\
       obj_get bmin k = Some (VNum (num_of_Z 0))) /\
    obj_get bmax "__proto__" = None /\
    obj_get bmin "__proto__" = None.
Proof.
  intros Hnd.
  destruct (getBoundaryTestData_get R "max" Hnd) as (bmax & Hmax & Hgmax).
  destruct (getBoundaryTestData_get R "min" Hnd) as (bmin & Hmin & Hgmin).
  exists bmax, bmin.
  split; [exact Hmax|]. split; [exact Hmin|].
  split; [|split; [|split; [rewrite Hgmax|rewrite Hgmin]; reflexivity]].
  - intros k s Hproto Hk. apply String.eqb_neq in Hproto.
    rewrite Hgmax, Hgmin, Hproto, Hk. simpl.
    split; [eexists; split; reflexivity|reflexivity].
  - intros k n Hproto Hk. apply String.eqb_neq in Hproto.
    rewrite Hgmax, Hgmin, Hproto, Hk. split; reflexivity.
Qed.

Lemma C9_witness :
  NoDup (map fst [("__proto__", VStr "x"); ("name", VStr "Ann")]) /\
  obj_get [("__proto__", VStr "x"); ("name", VStr "Ann")] "__proto__" = Some (VStr "x") /\
  exists bmax bmin,
    getBoundaryTestData (VObj [("__proto__", VStr "x"); ("name", VStr "Ann")]) "max"
      = Ok (VObj bmax) /\
    getBoundaryTestData (VObj [("__proto__", VStr "x"); ("name", VStr "Ann")]) "min"
      = Ok (VObj bmin) /\
    (exists m, obj_get bmax "name" = Some (VStr m) /\ String.length m = 255%nat) /\
    obj_get bmin "name" = Some (VStr "a") /\
    obj_get bmax "__proto__" = None /\
    obj_get bmin "__proto__" = None.
Proof.
  assert (Hnd : NoDup (map fst [("__proto__", VStr "x"); ("name", VStr "Ann")])).
  { repeat constructor; simpl; intuition discriminate. }
  split; [exact Hnd|]. split; [reflexivity|].
  destruct (C9_getBoundaryTestData_misses_proto_field _ Hnd)
    as (bmax & bmin & Hmax & Hmin & Hstr & _ & Hpmax & Hpmin).
  exists bmax, bmin. split; [exact Hmax|]. split; [exact Hmin|].
  destruct (Hstr "name" "Ann") as [Hm Ha]; [discriminate|reflexivity|].
  split; [exact Hm|]. split; [exact Ha|]. split; [exact Hpmax|exact Hpmin].
Defined.

(** ** Conversion to a string *)

Section Conversions.

(** The conversion throws exactly on the values that are not printable,
    and what it throws is a TypeError. *)
Lemma ToString_cases (v : value) :
  match ToString v with
  | Ok _ => printable v = true
  | Throw e => printable v = false /\ e = TypeError
  end.
Proof.
  revert v. fix IH 1. intros [| |b|n|s|l|o]; try reflexivity.
  - destruct b; reflexivity.
  - cbn [ToString printable].
    induction l as [|x l IHl]; [reflexivity|].
    cbn [forallb].
    assert (Hx : match (match x with
                        | VUndefined | VNull => Ok ""
                        | _ => ToString x
                        end) with
                 | Ok _ => printable x = true
                 | Throw e => printable x = false /\ e = TypeError
                 end).
    { pose proof (IH x) as Hx. destruct x; try reflexivity; exact Hx. }
    destruct (match x with VUndefined | VNull => Ok "" | _ => ToString x end)
      as [first|e]; cbn [bind].
    + rewrite Hx. cbn [andb]. destruct l as [|y l]; [reflexivity|].
      match type of IHl with
      | match ?m with _ => _ end => destruct m as [rest|e']
      end; cbn [bind]; exact IHl.
    + destruct Hx as [-> ->]. split; reflexivity.
  - cbn [ToString printable]. destruct (has_key o "toString"); [split|]; reflexivity.
Qed.

Lemma ToString_printable (v : value) :
  printable v = true -> exists s, ToString v = Ok s.
Proof.
  intros Hv. pose proof (ToString_cases v) as H.
  destruct (ToString v) as [s|e]; [exists s; reflexivity|].
  destruct H as [H _]. congruence.
Qed.

Lemma ToString_unprintable (v : value) :
  printable v = false -> ToString v = Throw TypeError.
Proof.
  intros Hv. pose proof (ToString_cases v) as H.
  destruct (ToString v) as [s|e]; [congruence|].
  destruct H as [_ ->]. reflexivity.
Qed.

(** [join] throws a TypeError on an array that holds a value that is not
    printable. *)
Lemma Array_join_cases (sep : string) (l : list value) :
  match Array_join sep l with
  | Ok _ => forallb printable l = true
  | Throw e => forallb printable l = false /\ e = TypeError
  end.
Proof.
  induction l as [|x l IH]; cbn [forallb Array_join]; [reflexivity|].
  assert (Hx : match (match x with
                      | VUndefined | VNull => Ok ""
                      | _ => ToString x
                      end) with
               | Ok _ => printable x = true
               | Throw e => printable x = false /\ e = TypeError
               end).
  { pose proof (ToString_cases x) as Hx. destruct x; try reflexivity; exact Hx. }
  destruct (match x with VUndefined | VNull => Ok "" | _ => ToString x end)
    as [first|e]; cbn [bind].
  - rewrite Hx. cbn [andb]. destruct l as [|y l]; [reflexivity|].
    destruct (Array_join sep (y :: l)) as [rest|e']; cbn [bind]; exact IH.
  - destruct Hx as [-> ->]. split; reflexivity.
Qed.

(** [join] succeeds on an array of printable values. *)
Lemma Array_join_printable (sep : string) (l : list value) :
  forallb printable l = true -> exists s, Array_join sep l = Ok s.
Proof.
  intros Hl. pose proof (Array_join_cases sep l) as H.
  destruct (Array_join sep l) as [s|e]; [exists s; reflexivity|].
  destruct H as [H _]. congruence.
Qed.

Lemma only_type_errors_ToString (v : value) : only_type_errors (ToString v).
Proof.
  intros message Hm. pose proof (ToString_cases v) as H.
  rewrite Hm in H. destruct H as [_ H]. discriminate.
Qed.

Lemma only_type_errors_join (sep : string) (l : list value) :
  only_type_errors (Array_join sep l).
Proof.
  intros message Hm. pose proof (Array_join_cases sep l) as H.
  rewrite Hm in H. destruct H as [_ H]. discriminate.
Qed.

(** The [default] branch of the dispatch returns nothing. *)
Lemma unsupported_type_throws {A} (type : value) (a : A) :
  (printed <- ToString type ;;
   Throw (Error ("Unsupported input type: " ++ printed))) <> Ok a.
Proof. destruct (ToString type); discriminate. Qed.

End Conversions.

(** ** The validator *)

Section Validator.

Lemma check_fields_object (section : string) (index : nat) (tc : value)
    (fields : list string) :
  is_object_value tc = true ->
  exists es,
    check_fields section index tc fields = Ok es /\
    forall F, In F fields -> in_op F tc = Ok false ->
              In (missing_field section index F) es.
Proof.
  intros Hobj. induction fields as [|f fields (es & Hes & Hin)]; simpl.
  - exists []. split; [reflexivity|]. intros F [].
  - assert (Hop : exists b, in_op f tc = Ok b)
      by (destruct tc; try discriminate; eexists; reflexivity).
    destruct Hop as (b & Hb). rewrite Hb, Hes. simpl.
    eexists. split; [reflexivity|].
    intros F [<-|HF] HFno.
    + rewrite HFno in Hb. injection Hb as <-. simpl. now left.
    + apply in_or_app. right. now apply Hin.
Qed.

Lemma check_fields_present (section : string) (index : nat) (o : object)
    (fields : list string) :
  forallb (has_key o) fields = true ->
  check_fields section index (VObj o) fields = Ok [].
Proof.
  induction fields as [|f fields IH]; simpl; intros H; [reflexivity|].
  apply andb_true_iff in H as [Hf Hrest].
  rewrite Hf, (IH Hrest). reflexivity.
Qed.

Lemma steps_check_total (tc : value) :
  is_object_value tc = true ->
  exists steps b,
    get_prop tc "steps" = Ok steps /\
    (if negb (truthy steps) then Ok true
     else len <- length_prop steps ;; Ok (is_zero len)) = Ok b.
Proof.
  intros Hobj.
  assert (Hs : exists steps, get_prop tc "steps" = Ok steps).
  { destruct tc; try discriminate; simpl; [eexists; reflexivity|].
    destruct (obj_get props "steps"); eexists; reflexivity. }
  destruct Hs as (steps & Hs). exists steps. rewrite Hs.
  destruct steps as [| |b|n|s|l|o]; simpl;
    try (eexists; split; reflexivity).
  - destruct b; eexists; split; reflexivity.
  - destruct (negb (num_is_zero n)); eexists; split; reflexivity.
  - destruct (negb (s =? "")); eexists; split; reflexivity.
  - destruct (obj_get o "length"); eexists; split; reflexivity.
Qed.

Lemma check_case_object (section : string) (index : nat) (tc : value) :
  is_object_value tc = true ->
  exists es,
    check_case section index tc = Ok es /\
    forall F, In F requiredFields -> in_op F tc = Ok false ->
              In (missing_field section index F) es.
Proof.
  intros Hobj. unfold check_case.
  destruct (check_fields_object section index tc requiredFields Hobj)
    as (es & Hes & Hin).
  destruct (steps_check_total tc Hobj) as (steps & b & Hsteps & Hb).
  rewrite Hes. cbn [bind]. rewrite Hsteps. cbn [bind]. rewrite Hb. cbn [bind].
  eexists. split; [reflexivity|].
  intros F HF Hno. apply in_or_app. left. now apply Hin.
Qed.

Lemma check_case_complete (section : string) (index : nat) (tc : value) :
  complete_case tc = true -> check_case section index tc = Ok [].
Proof.
  destruct tc as [| | | | | |o]; try discriminate. unfold complete_case.
  intros H. apply andb_true_iff in H as [Hfields Hsteps].
  unfold check_case. rewrite (check_fields_present _ _ _ _ Hfields).
  cbn [bind get_prop]. destruct (obj_get o "steps") as [[| | | | |[|x l]|]|]; try discriminate.
  reflexivity.
Qed.

Lemma check_cases_objects (section : string) (cases : list value) :
  Forall (fun tc => is_object_value tc = true) cases ->
  forall base,
  exists es,
    check_cases section cases base = Ok es /\
    forall i tc F,
      nth_error cases i = Some tc -> In F requiredFields ->
      in_op F tc = Ok false ->
      In (missing_field section (base + i) F) es.
Proof.
  induction 1 as [|tc cases Htc _ IH]; intros base; simpl.
  - exists []. split; [reflexivity|]. intros [|i] ? ? Hnth; discriminate.
  - destruct (check_case_object section base tc Htc) as (es1 & Hes1 & Hin1).
    destruct (IH (S base)) as (es2 & Hes2 & Hin2).
    rewrite Hes1, Hes2. simpl. eexists. split; [reflexivity|].
    intros [|i] tc' F Hnth HF Hno; simpl in Hnth; apply in_or_app.
    + injection Hnth as <-. left. rewrite Nat.add_0_r. now apply Hin1.
    + right. replace (base + S i)%nat with (S base + i)%nat by lia.
      now apply (Hin2 i tc').
Qed.

Lemma check_cases_complete (section : string) (cases : list value) :
  Forall (fun tc => complete_case tc = true) cases ->
  forall base, check_cases section cases base = Ok [].
Proof.
  induction 1 as [|tc cases Htc _ IH]; intros base; simpl; [reflexivity|].
  rewrite (check_case_complete _ _ _ Htc), IH. reflexivity.
Qed.

Lemma check_entries_objects (set : object) :
  sections_hold_objects set ->
  exists es,
    check_entries set = Ok es /\
    forall section cases i tc F,
      In (section, VArr cases) set ->
      nth_error cases i = Some tc -> In F requiredFields ->
      in_op F tc = Ok false ->
      In (missing_field section i F) es.
Proof.
  induction set as [|[s c] set IH]; intros Hset; simpl.
  - exists []. split; [reflexivity|]. intros ? ? ? ? ? [].
  - destruct IH as (es2 & Hes2 & Hin2).
    { intros section cases Hin. apply (Hset section cases). now right. }
    assert (Hhere : exists es1,
      match c with
      | VArr l => check_cases s l 0
      | _ => Ok []
      end = Ok es1 /\
      forall cases i tc F, c = VArr cases ->
        nth_error cases i = Some tc -> In F requiredFields ->
        in_op F tc = Ok false -> In (missing_field s i F) es1).
    { destruct c as [| | | | |l|]; try (exists []; split; [reflexivity|]; discriminate).
      destruct (check_cases_objects s l (Hset s l (or_introl eq_refl)) 0)
        as (es1 & Hes1 & Hin1).
      exists es1. split; [exact Hes1|].
      intros cases i tc F [= <-]. apply (Hin1 i tc F). }
    destruct Hhere as (es1 & Hes1 & Hin1).
    rewrite Hes1, Hes2. simpl. eexists. split; [reflexivity|].
    intros section cases i tc F [Heq|Hin] Hnth HF Hno; apply in_or_app.
    + left. injection Heq as -> Hc. now apply (Hin1 cases i tc F).
    + right. now apply (Hin2 section cases i tc F).
Qed.

Lemma check_sections_object (set : object) (sections : list string) :
  exists es, check_sections (VObj set) sections = Ok es.
Proof.
  induction sections as [|s sections (es & Hes)]; simpl.
  - eexists. reflexivity.
  - rewrite Hes. destruct (obj_get set s); simpl; eexists; reflexivity.
Qed.

Lemma length_zero_iff {A} (l : list A) : (List.length l =? 0)%nat = true <-> l = [].
Proof.
  destruct l; simpl; split; intros; try reflexivity; discriminate.
Qed.

(** On a set of complete cases the validator reports short sections only. *)
Lemma validateOutput_complete (positive negative boundary edge : list value) :
  Forall (fun tc => complete_case tc = true) positive ->
  Forall (fun tc => complete_case tc = true) negative ->
  Forall (fun tc => complete_case tc = true) boundary ->
  Forall (fun tc => complete_case tc = true) edge ->
  validateOutput (test_cases positive negative boundary edge) =
  Ok (let errors :=
        (short_if positive "positive" ++ short_if negative "negative" ++
         short_if boundary "boundary" ++ short_if edge "edge")%list in
      {| isValid := (List.length errors =? 0)%nat; errors := errors |}).
Proof.
  intros Hp Hn Hb He.
  unfold validateOutput, test_cases. simpl.
  rewrite (check_cases_complete _ _ Hp), (check_cases_complete _ _ Hn),
    (check_cases_complete _ _ Hb), (check_cases_complete _ _ He).
  simpl. unfold short_if. rewrite !app_nil_r. reflexivity.
Qed.

End Validator.

(** C8: for every test-case set (an object whose array sections hold
    objects), [validateOutput] returns a result whose [isValid] is true
    exactly when its error list is empty; and when the case at index [i] of
    section [S] lacks the required field [F], [isValid] is false and the
    error list holds the string naming [S], the 1-based index [i + 1] and
    [F]. *)
Theorem C8_validator_reports_missing_fields (set : object) :
  sections_hold_objects set ->
  exists r,
    validateOutput (VObj set) = Ok r /\
    (isValid r = true <-> errors r = []) /\
    forall S cases i tc F,
      In (S, VArr cases) set ->
      nth_error cases i = Some (VObj tc) ->
      In F requiredFields ->
      has_key tc F = false ->
      isValid r = false /\
      In ("Section " ++ S ++ ", case " ++ string_of_nat (i + 1) ++
          ": Missing field " ++ F) (errors r).
Proof.
  intros Hset. unfold validateOutput.
  destruct (check_sections_object set requiredSections) as (es1 & Hes1).
  destruct (check_entries_objects set Hset) as (es2 & Hes2 & Hin2).
  rewrite Hes1. cbn [bind Object_entries]. rewrite Hes2. cbn [bind].
  eexists. split; [reflexivity|]. cbn [isValid errors].
  split; [apply length_zero_iff|].
  intros S cases i tc F HS Hnth HF Hno.
  assert (Hin : In (missing_field S i F) (es1 ++ es2)).
  { apply in_or_app. right. apply (Hin2 S cases i (VObj tc) F); try assumption.
    simpl. now rewrite Hno. }
  split; [|exact Hin].
  destruct (es1 ++ es2)%list; [destruct Hin|reflexivity].
Qed.

Lemma C8_witness :
  sections_hold_objects
    [("positive", VArr [VObj [("id", VStr "TC_1"); ("steps", VArr [VStr "go"])]])] /\
  exists r,
    validateOutput
      (VObj [("positive",
              VArr [VObj [("id", VStr "TC_1"); ("steps", VArr [VStr "go"])]])]) = Ok r /\
    isValid r = false /\
    In "Section positive, case 1: Missing field title" (errors r).
Proof.
  assert (Hset : sections_hold_objects
    [("positive", VArr [VObj [("id", VStr "TC_1"); ("steps", VArr [VStr "go"])]])]).
  { intros section cases [Heq|[]]. injection Heq as <- <-. repeat constructor. }
  split; [exact Hset|].
  destruct (C8_validator_reports_missing_fields _ Hset) as (r & Hr & _ & Hmiss).
  exists r. split; [exact Hr|].
  apply (Hmiss "positive"
           [VObj [("id", VStr "TC_1"); ("steps", VArr [VStr "go"])]] 0%nat
           [("id", VStr "TC_1"); ("steps", VArr [VStr "go"])] "title").
  - now left.
  - reflexivity.
  - simpl. tauto.
  - reflexivity.
Defined.

(** ** The synthesizer *)

Section Synthesis.

Lemma bind_ok_inv {A B} (m : result A) (k : A -> result B) (b : B) :
  bind m k = Ok b -> exists a, m = Ok a /\ k a = Ok b.
Proof.
  destruct m as [a|e]; simpl; intros H; [|discriminate].
  exists a. split; [reflexivity|exact H].
Qed.

Lemma or_else_object_truthy (r : value) : truthy (or_else r (VObj [])) = true.
Proof.
  unfold or_else. destruct (truthy r) eqn:Hr; [exact Hr|reflexivity].
Qed.

Lemma Object_entries_truthy (v : value) :
  truthy v = true -> exists es, Object_entries v = Ok es.
Proof.
  destruct v; simpl; intros H; try discriminate; eexists; reflexivity.
Qed.

Lemma complete_test_case (id title type precondition step : string)
    (steps : list string) (expected_result : string) (test_data : value)
    (priority : string) :
  complete_case
    (test_case id title type precondition (step :: steps) expected_result
       test_data priority) = true.
Proof. reflexivity. Qed.

Lemma generateApiTestCases_shape (apiInput : value) (baseId : string) (tcs : value) :
  generateApiTestCases apiInput baseId = Ok tcs ->
  exists p n1 n2 b1 b2 e1 e2,
    tcs = test_cases [p] [n1; n2] [b1; b2] [e1; e2] /\
    all_complete [p] /\ all_complete [n1; n2] /\
    all_complete [b1; b2] /\ all_complete [e1; e2].
Proof.
  unfold generateApiTestCases. intros H.
  repeat (apply bind_ok_inv in H as (? & _ & H)).
  injection H as <-.
  do 7 eexists. split; [reflexivity|].
  repeat split; repeat constructor.
Qed.

Lemma generateApiTestCases_total (apiInput : value) (baseId : string)
    (endpoint method : value) :
  get_prop apiInput "endpoint" = Ok endpoint ->
  get_prop apiInput "method" = Ok method ->
  printable endpoint = true ->
  printable method = true ->
  exists tcs, generateApiTestCases apiInput baseId = Ok tcs.
Proof.
  intros He Hm Hpe Hpm. unfold generateApiTestCases.
  rewrite He, Hm. cbn [bind].
  assert (Hr : exists r, get_prop apiInput "request" = Ok r).
  { destruct apiInput; try discriminate; simpl; try (eexists; reflexivity).
    destruct (obj_get props "request"); eexists; reflexivity. }
  destruct Hr as (r & ->). cbn [bind].
  destruct (ToString_printable _ Hpm) as (ms & ->).
  destruct (ToString_printable _ Hpe) as (es' & ->). cbn [bind].
  destruct (Object_entries_truthy _ (or_else_object_truthy r)) as (es & Hes).
  unfold getInvalidTestData, getBoundaryTestData, getEdgeTestData.
  rewrite Hes. cbn [bind]. eexists. reflexivity.
Qed.

Lemma generateUserStoryTestCases_shape (storyInput : value) (baseId : string)
    (tcs : value) :
  generateUserStoryTestCases storyInput baseId = Ok tcs ->
  exists p n b e,
    tcs = test_cases [p] [n] [b] [e] /\
    all_complete [p] /\ all_complete [n] /\ all_complete [b] /\ all_complete [e].
Proof.
  unfold generateUserStoryTestCases. intros H.
  repeat (apply bind_ok_inv in H as (? & _ & H)).
  injection H as <-.
  do 4 eexists. split; [reflexivity|].
  repeat split; repeat constructor.
Qed.

Lemma generateRawTextTestCases_shape (textInput : value) (baseId : string)
    (tcs : value) :
  generateRawTextTestCases textInput baseId = Ok tcs ->
  exists p n b e,
    tcs = test_cases [p] [n] [b] [e] /\
    all_complete [p] /\ all_complete [n] /\ all_complete [b] /\ all_complete [e].
Proof.
  unfold generateRawTextTestCases. intros H.
  repeat (apply bind_ok_inv in H as (? & _ & H)).
  injection H as <-.
  do 4 eexists. split; [reflexivity|].
  repeat split; repeat constructor.
Qed.

(** Whatever the synthesizer returns is one of the two shapes, made of
    complete cases. *)
Lemma generateTestCases_shape (input tcs : value) :
  generateTestCases input = Ok tcs ->
  exists positive negative boundary edge,
    tcs = test_cases positive negative boundary edge /\
    all_complete positive /\ all_complete negative /\
    all_complete boundary /\ all_complete edge /\
    (List.length positive = 1 /\ List.length negative = 1 /\
     List.length boundary = 1 /\ List.length edge = 1 \/
     List.length positive = 1 /\ List.length negative = 2 /\
     List.length boundary = 2 /\ List.length edge = 2)%nat.
Proof.
  unfold generateTestCases. intros H.
  apply bind_ok_inv in H as (baseId & _ & H).
  apply bind_ok_inv in H as (type & _ & H).
  destruct (is_string type "api").
  { apply generateApiTestCases_shape in H
      as (p & n1 & n2 & b1 & b2 & e1 & e2 & -> & Hp & Hn & Hb & He).
    do 4 eexists. split; [reflexivity|]. repeat split; try assumption.
    right. repeat split. }
  destruct (is_string type "user_story").
  { apply generateUserStoryTestCases_shape in H
      as (p & n & b & e & -> & Hp & Hn & Hb & He).
    do 4 eexists. split; [reflexivity|]. repeat split; try assumption.
    left. repeat split. }
  destruct (is_string type "raw_text");
    [|now apply unsupported_type_throws in H].
  apply generateRawTextTestCases_shape in H
    as (p & n & b & e & -> & Hp & Hn & Hb & He).
  do 4 eexists. split; [reflexivity|]. repeat split; try assumption.
  left. repeat split.
Qed.

Lemma generateTestCases_api (input : value) :
  api_variant input ->
  exists tcs,
    generateTestCases input = Ok tcs /\
    exists baseId, generateApiTestCases input baseId = Ok tcs.
Proof.
  intros (Htype & (endpoint & Hendpoint) & method & Hmethod & Hprint).
  unfold generateTestCases, generateBaseId.
  rewrite Htype. cbn [bind is_string]. rewrite String.eqb_refl.
  rewrite Hendpoint. cbn [bind].
  destruct (generateApiTestCases_total input
              ("TC_" ++ Str.toUpperCase (Str.replace_non_alnum endpoint))
              _ _ Hendpoint Hmethod eq_refl Hprint)
    as (tcs & Htcs).
  exists tcs. split; [exact Htcs|]. eexists. exact Htcs.
Qed.

(** The identifier of a narrative input: the fallback is never taken. *)
Lemma generateBaseId_content (input type : value) (content : string) :
  get_prop input "type" = Ok type ->
  is_string type "api" = false ->
  get_prop input "content" = Ok (VStr content) ->
  generateBaseId input = Ok ("TC_" ++ String.concat "_" (keyWords_of content)).
Proof.
  intros Htype Hapi Hcontent. unfold generateBaseId.
  rewrite Htype. cbn [bind]. rewrite Hapi, Hcontent. cbn [bind].
  unfold or_else. cbn [truthy].
  destruct (String.eqb_spec content "") as [->|Hne]; reflexivity.
Qed.

Lemma generateTestCases_narrative (input : value) :
  narrative_variant input ->
  exists p n b e, generateTestCases input = Ok (test_cases [p] [n] [b] [e]).
Proof.
  intros (Htype & content & Hcontent).
  unfold generateTestCases.
  destruct Htype as [Htype|Htype];
    rewrite (generateBaseId_content _ _ _ Htype eq_refl Hcontent), Htype;
    cbn [bind is_string].
  - change ("user_story" =? "api") with false. rewrite String.eqb_refl. cbv iota.
    unfold generateUserStoryTestCases. rewrite Hcontent.
    cbn [bind extractMainAction lower_content].
    do 4 eexists. reflexivity.
  - change ("raw_text" =? "api") with false.
    change ("raw_text" =? "user_story") with false. rewrite String.eqb_refl.
    cbv iota.
    unfold generateRawTextTestCases. rewrite Hcontent.
    cbn [bind extractMainFeature lower_content].
    do 4 eexists. reflexivity.
Qed.

End Synthesis.

Lemma complete_case_fields (tc : value) :
  complete_case tc = true ->
  (forall F, In F requiredFields -> in_op F tc = Ok true) /\
  exists step steps, get_prop tc "steps" = Ok (VArr (step :: steps)).
Proof.
  destruct tc as [| | | | | |o]; try discriminate. unfold complete_case.
  intros H. apply andb_true_iff in H as [Hfields Hsteps]. split.
  - intros F HF. cbn [in_op]. f_equal.
    exact (proj1 (forallb_forall _ _) Hfields F HF).
  - cbn [get_prop].
    destruct (obj_get o "steps") as [[| | | | |[|step steps]|]|]; try discriminate.
    exists step, steps. reflexivity.
Qed.

Lemma short_if_form (cases : list value) (section e : string) :
  In e (short_if cases section) -> e = short_section section.
Proof.
  unfold short_if. destruct (List.length cases <? 3)%nat; simpl; intuition.
Qed.

(** C6: for every input of the [api] variant (tagged [api], with a string
    endpoint and a method that a template literal can print, as every
    string is) the synthesizer produces exactly 1 positive, 2 negative, 2
    boundary and 2 edge cases, 7 in all; and for the input
    [{endpoint: "/login", method: "POST", request: {username: "string",
    password: "string"}}] normalisation returns an input of the [api]
    variant, the base id is [TC__LOGIN] and the test data of the second
    negative case is [{username: 123, password: 123}]. *)
Theorem C6_api_variant_seven_cases :
  (forall input,
     api_variant input ->
     exists positive negative boundary edge,
       generateTestCases input = Ok (test_cases positive negative boundary edge) /\
       List.length positive = 1%nat /\ List.length negative = 2%nat /\
       List.length boundary = 2%nat /\ List.length edge = 2%nat /\
       List.length (positive ++ negative ++ boundary ++ edge)%list = 7%nat) /\
  (forall JSON_parse,
     exists normalized,
       normalizeInput JSON_parse login_api = Ok normalized /\
       api_variant normalized /\
       generateBaseId normalized = Ok "TC__LOGIN" /\
       exists p n1 n2 b1 b2 e1 e2,
         generateTestCases normalized =
           Ok (test_cases [p] [n1; n2] [b1; b2] [e1; e2]) /\
         get_prop n2 "test_data" =
           Ok (VObj [("username", VNum (num_of_Z 123));
                     ("password", VNum (num_of_Z 123))])).
Proof.
  split.
  - intros input Hapi.
    destruct (generateTestCases_api input Hapi) as (tcs & Hrun & baseId & Hgen).
    apply generateApiTestCases_shape in Hgen
      as (p & n1 & n2 & b1 & b2 & e1 & e2 & -> & _).
    exists [p], [n1; n2], [b1; b2], [e1; e2].
    repeat split. exact Hrun.
  - intros JSON_parse. eexists.
    split; [reflexivity|].
    split; [split; [reflexivity|split; [exists "/login"; reflexivity|]];
            exists (VStr "POST"); split; reflexivity|].
    split; [reflexivity|].
    do 7 eexists. split; reflexivity.
Qed.

Lemma C6_witness :
  api_variant
    (VObj [("type", VStr "api"); ("endpoint", VStr "/users/42");
           ("method", VStr "DELETE")]) /\
  exists positive negative boundary edge,
    generateTestCases
      (VObj [("type", VStr "api"); ("endpoint", VStr "/users/42");
             ("method", VStr "DELETE")]) =
      Ok (test_cases positive negative boundary edge) /\
    List.length positive = 1%nat /\ List.length negative = 2%nat /\
    List.length boundary = 2%nat /\ List.length edge = 2%nat /\
    List.length (positive ++ negative ++ boundary ++ edge)%list = 7%nat.
Proof.
  assert (Hapi : api_variant
    (VObj [("type", VStr "api"); ("endpoint", VStr "/users/42");
           ("method", VStr "DELETE")])).
  { split; [reflexivity|]. split; [exists "/users/42"; reflexivity|].
    exists (VStr "DELETE"). split; reflexivity. }
  split; [exact Hapi|].
  exact (proj1 C6_api_variant_seven_cases _ Hapi).
Defined.

(** C7: for every input of the [user_story] or of the [raw_text] variant
    (with a string content) the synthesizer produces exactly 1 case in each
    of the four sections, 4 in all, and the validator, run on that output,
    reports the error "less than 3 test cases" for every one of the four
    sections. *)
Theorem C7_narrative_one_case_per_section (input : value) :
  narrative_variant input ->
  exists p n b e r,
    generateTestCases input = Ok (test_cases [p] [n] [b] [e]) /\
    validateOutput (test_cases [p] [n] [b] [e]) = Ok r /\
    isValid r = false /\
    In "Section positive has less than 3 test cases" (errors r) /\
    In "Section negative has less than 3 test cases" (errors r) /\
    In "Section boundary has less than 3 test cases" (errors r) /\
    In "Section edge has less than 3 test cases" (errors r).
Proof.
  intros Hnarr.
  destruct (generateTestCases_narrative input Hnarr) as (p & n & b & e & Hrun).
  destruct (generateTestCases_shape _ _ Hrun)
    as (P & N & B & E & Heq & HP & HN & HB & HE & _).
  injection Heq as <- <- <- <-.
  exists p, n, b, e. eexists.
  split; [exact Hrun|].
  split; [apply (validateOutput_complete _ _ _ _ HP HN HB HE)|].
  cbn. tauto.
Qed.

Lemma C7_witness :
  narrative_variant (VObj [("type", VStr "user_story"); ("content", VStr login_story)]) /\
  exists p n b e r,
    generateTestCases
      (VObj [("type", VStr "user_story"); ("content", VStr login_story)]) =
      Ok (test_cases [p] [n] [b] [e]) /\
    validateOutput (test_cases [p] [n] [b] [e]) = Ok r /\
    isValid r = false /\
    In "Section positive has less than 3 test cases" (errors r) /\
    In "Section negative has less than 3 test cases" (errors r) /\
    In "Section boundary has less than 3 test cases" (errors r) /\
    In "Section edge has less than 3 test cases" (errors r).
Proof.
  assert (Hnarr : narrative_variant
    (VObj [("type", VStr "user_story"); ("content", VStr login_story)])).
  { split; [left; reflexivity|]. exists login_story. reflexivity. }
  split; [exact Hnarr|].
  exact (C7_narrative_one_case_per_section _ Hnarr).
Defined.

(** C10: the synthesizer returns a test-case set for every input of one of
    the three variants (a string endpoint and a printable method, as every
    string is, in the [api] case; a string content in the other two); and
    whatever set it returns, every case of it carries
    the eight required fields and a non-empty array of steps, so that every
    error the validator reports on it has the form
    "Section <name> has less than 3 test cases". *)
Theorem C10_synthesized_cases_are_complete :
  (forall input,
     api_variant input \/ narrative_variant input ->
     exists tcs, generateTestCases input = Ok tcs) /\
  (forall input tcs,
     generateTestCases input = Ok tcs ->
     exists positive negative boundary edge r,
       tcs = test_cases positive negative boundary edge /\
       (forall tc,
          In tc (positive ++ negative ++ boundary ++ edge)%list ->
          (forall F, In F requiredFields -> in_op F tc = Ok true) /\
          exists step steps, get_prop tc "steps" = Ok (VArr (step :: steps))) /\
       validateOutput tcs = Ok r /\
       forall e,
         In e (errors r) ->
         exists name, e = "Section " ++ name ++ " has less than 3 test cases").
Proof.
  split.
  - intros input [Hapi|Hnarr].
    + destruct (generateTestCases_api input Hapi) as (tcs & Hrun & _).
      exists tcs. exact Hrun.
    + destruct (generateTestCases_narrative input Hnarr) as (p & n & b & e & Hrun).
      eexists. exact Hrun.
  - intros input tcs Hrun.
    destruct (generateTestCases_shape _ _ Hrun)
      as (P & N & B & E & -> & HP & HN & HB & HE & _).
    exists P, N, B, E. eexists.
    split; [reflexivity|].
    split; [|split; [apply (validateOutput_complete _ _ _ _ HP HN HB HE)|]].
    + intros tc Hin. apply complete_case_fields.
      assert (Hall : all_complete (P ++ N ++ B ++ E))
        by (repeat (apply Forall_app; split); assumption).
      exact (proj1 (Forall_forall _ _) Hall tc Hin).
    + cbn [errors]. intros e Hin.
      repeat (apply in_app_or in Hin as [Hin|Hin]);
        apply short_if_form in Hin; eexists; exact Hin.
Qed.

Lemma C10_witness :
  (api_variant login_request_api \/ narrative_variant login_request_api) /\
  exists tcs positive negative boundary edge r,
    generateTestCases login_request_api = Ok tcs /\
    tcs = test_cases positive negative boundary edge /\
    (forall tc,
       In tc (positive ++ negative ++ boundary ++ edge)%list ->
       (forall F, In F requiredFields -> in_op F tc = Ok true) /\
       exists step steps, get_prop tc "steps" = Ok (VArr (step :: steps))) /\
    validateOutput tcs = Ok r /\
    forall e,
      In e (errors r) ->
      exists name, e = "Section " ++ name ++ " has less than 3 test cases".
Proof.
  assert (Hvar : api_variant login_request_api \/ narrative_variant login_request_api).
  { left. split; [reflexivity|]. split; [exists "/login"; reflexivity|].
    exists (VStr "POST"). split; reflexivity. }
  split; [exact Hvar|].
  destruct (proj1 C10_synthesized_cases_are_complete _ Hvar) as (tcs & Hrun).
  destruct (proj2 C10_synthesized_cases_are_complete _ _ Hrun)
    as (P & N & B & E & r & Hrest).
  exists tcs, P, N, B, E, r. split; [exact Hrun|exact Hrest].
Defined.

(** ** Normalisation and classification *)

Section Classification.

Lemma get_prop_object (o : object) (k : string) :
  get_prop (VObj o) k = Ok (prop o k).
Proof. unfold prop. simpl. destruct (obj_get o k); reflexivity. Qed.

Ltac split_truthy :=
  repeat match goal with
  | |- context [truthy (prop ?o ?k)] =>
      destruct (truthy (prop o k)) eqn:?; cbn [bind andb orb negb]
  end.

Lemma detect_classifies (p : value) :
  match detect p with
  | Ok n => exists rest, n = VObj (("type", VStr (classify p)) :: rest)
  | Throw _ => classify p = "raw_text"
  end.
Proof.
  destruct p as [| |b|n|s|l|o];
    try reflexivity;
    try (eexists; reflexivity).
  unfold detect, classify, field_truthy, and_props, or_props, existsb.
  rewrite !get_prop_object. cbn [bind].
  split_truthy; try congruence; try (eexists; reflexivity).
Qed.

(** The classification throws only on [undefined] and [null], whose
    properties cannot be read. *)
Lemma detect_throws (p : value) (e : error) :
  detect p = Throw e -> p = VUndefined \/ p = VNull.
Proof.
  destruct p as [| |b|n|s|l|o]; try (now left); try (now right);
    try discriminate.
  unfold detect, and_props, or_props.
  rewrite !get_prop_object. cbn [bind].
  split_truthy; discriminate.
Qed.

Variable JSON_parse : string -> option value.

(** The [catch] of [normalizeInput] is reached with an input that
    [String] converts: [undefined], [null] or a string. *)
Lemma caught_input_printable (input : value) (e : error) :
  detect (parsed_of JSON_parse input) = Throw e ->
  exists content, ToString input = Ok content.
Proof.
  intros H. apply detect_throws in H.
  destruct input as [| |b|n|s|l|o]; try (eexists; reflexivity);
    simpl in H; destruct H; discriminate.
Qed.

(** Normalisation always returns: an input is returned as it is when it
    carries a type; otherwise the result is tagged by the classification of
    its parsed value. *)
Lemma normalizeInput_cases (input : value) :
  match carried_type input with
  | Some _ => normalizeInput JSON_parse input = Ok input
  | None =>
      exists rest,
        normalizeInput JSON_parse input =
        Ok (VObj (("type", VStr (classify (parsed_of JSON_parse input))) :: rest))
  end.
Proof.
  assert (Hdetect : forall i,
    exists rest,
      match detect (parsed_of JSON_parse i) with
      | Ok normalized => Ok normalized
      | Throw _ =>
          content <- ToString i ;;
          Ok (VObj [("type", VStr "raw_text"); ("content", VStr content)])
      end = Ok (VObj (("type", VStr (classify (parsed_of JSON_parse i))) :: rest))).
  { intros i. pose proof (detect_classifies (parsed_of JSON_parse i)) as H.
    destruct (detect (parsed_of JSON_parse i)) as [n|e] eqn:Hd.
    - destruct H as (rest & ->). exists rest. reflexivity.
    - destruct (caught_input_printable i e Hd) as (content & ->).
      rewrite H. eexists. reflexivity. }
  unfold normalizeInput, normalizeInput_try.
  destruct input as [| |b|n|s|l|o]; try (apply Hdetect).
  - eexists. reflexivity.
  - cbn [carried_type typeof]. change ("object" =? "object") with true. cbv iota.
    rewrite get_prop_object. cbn [bind]. unfold prop.
    destruct (obj_get o "type") as [t|].
    + destruct (truthy t); [reflexivity|apply Hdetect].
    + apply Hdetect.
Qed.

End Classification.

(** ** Which errors the synthesizer throws *)

Section Errors.

Lemma only_type_errors_bind {A B} (m : result A) (k : A -> result B) :
  only_type_errors m ->
  (forall a, m = Ok a -> only_type_errors (k a)) ->
  only_type_errors (bind m k).
Proof.
  intros Hm Hk message. destruct m as [a|e]; simpl.
  - apply (Hk a eq_refl).
  - intros [= ->]. exact (Hm message eq_refl).
Qed.

Lemma only_type_errors_ok {A} (a : A) : only_type_errors (Ok a).
Proof. intros message; discriminate. Qed.

Lemma only_type_errors_type_error {A} : only_type_errors (@Throw A TypeError).
Proof. intros message; discriminate. Qed.

Lemma only_type_errors_get_prop (v : value) (k : string) :
  only_type_errors (get_prop v k).
Proof.
  destruct v; simpl; try (intros message; discriminate).
  destruct (obj_get props k); intros message; discriminate.
Qed.

Lemma only_type_errors_entries (v : value) : only_type_errors (Object_entries v).
Proof. destruct v; intros message; discriminate. Qed.

Lemma only_type_errors_lower (v : value) : only_type_errors (lower_content v).
Proof. destruct v; intros message; discriminate. Qed.

Ltac type_errors :=
  repeat first
    [ apply only_type_errors_ok
    | apply only_type_errors_type_error
    | apply only_type_errors_get_prop
    | apply only_type_errors_entries
    | apply only_type_errors_lower
    | apply only_type_errors_ToString
    | apply only_type_errors_bind; [|intros ? _] ].

Lemma only_type_errors_baseId (input : value) :
  only_type_errors (generateBaseId input).
Proof.
  unfold generateBaseId. type_errors.
  destruct (is_string a "api"); type_errors.
  - destruct a0; type_errors.
  - destruct (or_else a0 (VStr "")); type_errors.
Qed.

Lemma only_type_errors_api (input : value) (baseId : string) :
  only_type_errors (generateApiTestCases input baseId).
Proof.
  unfold generateApiTestCases, getInvalidTestData, getBoundaryTestData,
    getEdgeTestData.
  type_errors.
Qed.

Lemma only_type_errors_story (input : value) (baseId : string) :
  only_type_errors (generateUserStoryTestCases input baseId).
Proof.
  unfold generateUserStoryTestCases, extractMainAction. type_errors.
Qed.

Lemma only_type_errors_text (input : value) (baseId : string) :
  only_type_errors (generateRawTextTestCases input baseId).
Proof.
  unfold generateRawTextTestCases, extractMainFeature. type_errors.
Qed.

(** With a known tag the dispatch never reaches its [default] branch. *)
Lemma generateTestCases_known_tag (input t : value) :
  get_prop input "type" = Ok t ->
  known_tag t = true ->
  only_type_errors (generateTestCases input).
Proof.
  intros Htype Hknown. unfold generateTestCases.
  apply only_type_errors_bind; [apply only_type_errors_baseId|intros baseId _].
  rewrite Htype. cbn [bind].
  unfold known_tag in Hknown.
  destruct (is_string t "api"); [apply only_type_errors_api|].
  destruct (is_string t "user_story"); [apply only_type_errors_story|].
  destruct (is_string t "raw_text"); [apply only_type_errors_text|discriminate].
Qed.

End Errors.

(** ** The scenarios and the normalisation claims *)

(** C1, as the code runs: the text of the login story does not parse as
    JSON, so it is wrapped as [{raw: text}], which has none of the story
    fields: the pipeline classifies it [raw_text], with the wrapper
    serialised as content, mints the base id [TC_RAW_USER_WANT] and titles
    the cases after the default feature.  The counts are those of the claim:
    4 cases, one per section, and a validation that fails.  The values the
    claim names are those of the user-story path on the same text: main
    action [login] and base id [TC_USER_WANT_LOGIN]. *)
Theorem C1_login_story_runs_as_raw_text (JSON_parse : string -> option value) :
  JSON_parse login_story = None ->
  normalizeInput JSON_parse (VStr login_story) =
    Ok (VObj [("type", VStr "raw_text");
              ("content",
               VStr ("{" ++ quote "raw" ++ ":" ++ quote login_story ++ "}"))]) /\
  (normalized <- normalizeInput JSON_parse (VStr login_story) ;;
   generateBaseId normalized) = Ok "TC_RAW_USER_WANT" /\
  (exists r p n b e,
     generate_test_cases JSON_parse (VStr login_story) = Ok r /\
     input_type r = VStr "raw_text" /\
     test_cases_of r = test_cases [p] [n] [b] [e] /\
     get_prop p "title" = Ok (VStr "Basic functionality - feature") /\
     total_cases (summary_of r) = 4%nat /\
     by_section (summary_of r) =
       [("positive", VNum (num_of_nat 1)); ("negative", VNum (num_of_nat 1));
        ("boundary", VNum (num_of_nat 1)); ("edge", VNum (num_of_nat 1))] /\
     isValid (validation_of r) = false) /\
  extractMainAction (VStr login_story) = Ok "login" /\
  generateBaseId (VObj [("type", VStr "user_story"); ("content", VStr login_story)]) =
    Ok "TC_USER_WANT_LOGIN".
Proof.
  intros Hparse.
  assert (Hnorm : normalizeInput JSON_parse (VStr login_story) =
    Ok (VObj [("type", VStr "raw_text");
              ("content",
               VStr ("{" ++ quote "raw" ++ ":" ++ quote login_story ++ "}"))])).
  { unfold normalizeInput, normalizeInput_try, parsed_of.
    rewrite Hparse. reflexivity. }
  unfold generate_test_cases. rewrite Hnorm. cbn [bind].
  split; [reflexivity|].
  split; [vm_compute; reflexivity|].
  split; [|split; vm_compute; reflexivity].
  do 5 eexists. vm_compute. repeat split.
Qed.

Lemma C1_witness :
  JSONText.parse login_story = None /\
  (normalized <- normalizeInput JSONText.parse (VStr login_story) ;;
   generateBaseId normalized) = Ok "TC_RAW_USER_WANT".
Proof.
  assert (Hparse : JSONText.parse login_story = None) by (vm_compute; reflexivity).
  split; [exact Hparse|].
  exact (proj1 (proj2 (C1_login_story_runs_as_raw_text JSONText.parse Hparse))).
Defined.

(** C2, counterexample: an object that carries a type outside the three
    tags is returned by [normalizeInput] as it is, and the synthesizer
    throws its unsupported-input-type error on it. *)
Lemma C2_unknown_type_reaches_the_synthesizer :
  known_tag (VStr "graphql") = false /\
  normalizeInput JSONText.parse (VObj [("type", VStr "graphql")]) =
    Ok (VObj [("type", VStr "graphql")]) /\
  (normalized <- normalizeInput JSONText.parse (VObj [("type", VStr "graphql")]) ;;
   generateTestCases normalized) =
    Throw (Error "Unsupported input type: graphql").
Proof. repeat split. Qed.

(** C2, amended: for every input that is not an object carrying a truthy
    [type] other than the three known tags, and for any behaviour of
    [JSON.parse], normalisation returns (it never raises) an object tagged
    with one of the three known tags, and the synthesizer does not throw the
    unsupported-input-type error on it. *)
Theorem C2_normalized_tag_is_known
    (JSON_parse : string -> option value) (input : value) :
  (forall t, carried_type input = Some t -> known_tag t = true) ->
  exists normalized t,
    normalizeInput JSON_parse input = Ok normalized /\
    get_prop normalized "type" = Ok t /\
    known_tag t = true /\
    forall message, generateTestCases normalized <> Throw (Error message).
Proof.
  intros Hcarried.
  assert (Htag : exists normalized t,
    normalizeInput JSON_parse input = Ok normalized /\
    get_prop normalized "type" = Ok t /\ known_tag t = true).
  { pose proof (normalizeInput_cases JSON_parse input) as Hcases.
    destruct (carried_type input) as [t|] eqn:Hc.
    - exists input, t. split; [exact Hcases|]. split; [|apply Hcarried; reflexivity].
      destruct input as [| | | | | |o]; try discriminate.
      simpl in Hc |- *. destruct (obj_get o "type") as [t'|]; [|discriminate].
      destruct (truthy t'); [|discriminate]. congruence.
    - destruct Hcases as (rest & Hnorm). do 2 eexists.
      split; [exact Hnorm|]. split; [reflexivity|].
      unfold classify.
      destruct (_ && _); [reflexivity|]. destruct (existsb _ _); reflexivity. }
  destruct Htag as (normalized & t & Hnorm & Htype & Hknown).
  exists normalized, t. split; [exact Hnorm|]. split; [exact Htype|].
  split; [exact Hknown|].
  exact (generateTestCases_known_tag _ _ Htype Hknown).
Qed.

Lemma C2_witness :
  (forall t, carried_type login_request_api = Some t -> known_tag t = true) /\
  exists normalized t,
    normalizeInput JSONText.parse login_request_api = Ok normalized /\
    get_prop normalized "type" = Ok t /\
    known_tag t = true /\
    forall message, generateTestCases normalized <> Throw (Error message).
Proof.
  assert (H : forall t, carried_type login_request_api = Some t -> known_tag t = true)
    by (intros t Ht; injection Ht as <-; reflexivity).
  split; [exact H|].
  exact (C2_normalized_tag_is_known JSONText.parse login_request_api H).
Defined.

(** C3, counterexample: an object with an endpoint field and a method field
    is classified [raw_text] when the endpoint is the empty string, and keeps
    the [user_story] tag it carries when it has a [type] field. *)
Lemma C3_endpoint_and_method_not_always_api :
  has_field (VObj [("endpoint", VStr ""); ("method", VStr "POST")]) "endpoint" = true /\
  has_field (VObj [("endpoint", VStr ""); ("method", VStr "POST")]) "method" = true /\
  (normalized <-
     normalizeInput JSONText.parse
       (VObj [("endpoint", VStr ""); ("method", VStr "POST")]) ;;
   get_prop normalized "type") = Ok (VStr "raw_text") /\
  has_field
    (VObj [("type", VStr "user_story"); ("endpoint", VStr "/login");
           ("method", VStr "POST")]) "endpoint" = true /\
  has_field
    (VObj [("type", VStr "user_story"); ("endpoint", VStr "/login");
           ("method", VStr "POST")]) "method" = true /\
  (normalized <-
     normalizeInput JSONText.parse
       (VObj [("type", VStr "user_story"); ("endpoint", VStr "/login");
              ("method", VStr "POST")]) ;;
   get_prop normalized "type") = Ok (VStr "user_story").
Proof. repeat split. Qed.

(** C3, amended: for every input that carries no truthy [type] of its own,
    and for any behaviour of [JSON.parse], the variant is decided by the
    truthy top-level fields of the parsed value (the input itself, or the
    parse of a string, or [{raw: string}] when it does not parse): [api]
    when endpoint and method are both truthy, whatever the other fields;
    otherwise [user_story] when one of user, story, as, iWant, soThat is
    truthy; otherwise [raw_text]. *)
Theorem C3_classification_by_truthy_fields
    (JSON_parse : string -> option value) (input : value) :
  carried_type input = None ->
  let parsed := parsed_of JSON_parse input in
  (normalized <- normalizeInput JSON_parse input ;; get_prop normalized "type") =
  Ok (VStr
        (if field_truthy parsed "endpoint" && field_truthy parsed "method"
         then "api"
         else if field_truthy parsed "user" || field_truthy parsed "story" ||
                 field_truthy parsed "as" || field_truthy parsed "iWant" ||
                 field_truthy parsed "soThat"
              then "user_story"
              else "raw_text")).
Proof.
  intros Hc parsed.
  pose proof (normalizeInput_cases JSON_parse input) as Hcases.
  rewrite Hc in Hcases. destruct Hcases as (rest & ->).
  fold parsed. cbn [bind get_prop obj_get]. rewrite String.eqb_refl.
  unfold classify, existsb. rewrite orb_false_r.
  rewrite <- !orb_assoc. reflexivity.
Qed.

Lemma C3_witness :
  carried_type login_api = None /\
  (normalized <- normalizeInput JSONText.parse login_api ;;
   get_prop normalized "type") = Ok (VStr "api").
Proof.
  assert (Hc : carried_type login_api = None) by reflexivity.
  split; [exact Hc|].
  exact (C3_classification_by_truthy_fields JSONText.parse login_api Hc).
Defined.

(** C4, as the code runs: for a narrative input with a string content the
    identifier is [TC_] followed by the first three words of length three or
    more, upper-cased and joined by underscores; when the content has no
    such word the identifier is the bare prefix [TC_], not [TC_GENERIC]: the
    fallback of the source is written after a string that is never empty. *)
Theorem C4_base_id_without_words_is_bare_prefix
    (input type : value) (content : string) :
  get_prop input "type" = Ok type ->
  is_string type "api" = false ->
  get_prop input "content" = Ok (VStr content) ->
  generateBaseId input =
    Ok ("TC_" ++ String.concat "_"
                   (map Str.toUpperCase
                      (firstn 3
                         match Str.match_words content with
                         | Some ws => ws
                         | None => []
                         end))) /\
  (Str.match_words content = None ->
   generateBaseId input = Ok "TC_" /\
   generateBaseId input <> Ok "TC_GENERIC").
Proof.
  intros Htype Hapi Hcontent.
  pose proof (generateBaseId_content _ _ _ Htype Hapi Hcontent) as Hid.
  split; [exact Hid|].
  intros Hnone. rewrite Hid. unfold keyWords_of. rewrite Hnone.
  split; [reflexivity|discriminate].
Qed.

Lemma C4_witness :
  generateBaseId (VObj [("type", VStr "raw_text"); ("content", VStr "go")]) =
    Ok "TC_" /\
  generateBaseId (VObj [("type", VStr "raw_text"); ("content", VStr "go")]) <>
    Ok "TC_GENERIC".
Proof.
  exact (proj2 (C4_base_id_without_words_is_bare_prefix
                  (VObj [("type", VStr "raw_text"); ("content", VStr "go")])
                  (VStr "raw_text") "go" eq_refl eq_refl eq_refl) eq_refl).
Defined.

(** ** Further properties of normalisation *)

Section MoreNormalization.

Variable JSON_parse : string -> option value.

Lemma classify_truthy (p : value) : truthy (VStr (classify p)) = true.
Proof.
  unfold classify. destruct (_ && _); [reflexivity|].
  destruct (existsb _ _); reflexivity.
Qed.

(** Without a carried type the [try] block is the classification of the
    parsed value. *)
Lemma normalizeInput_try_detect (input : value) :
  carried_type input = None ->
  normalizeInput_try JSON_parse input = detect (parsed_of JSON_parse input).
Proof.
  unfold normalizeInput_try.
  destruct input as [| |b|n|s|l|o]; try reflexivity.
  cbn [carried_type typeof]. change ("object" =? "object") with true. cbv iota.
  rewrite get_prop_object. cbn [bind]. unfold prop.
  destruct (obj_get o "type") as [t|]; [|reflexivity].
  destruct (truthy t); [discriminate|reflexivity].
Qed.

Lemma normalizeInput_unparsed (s : string) :
  JSON_parse s = None ->
  normalizeInput JSON_parse (VStr s) =
  Ok (VObj [("type", VStr "raw_text");
            ("content", VStr ("{" ++ quote "raw" ++ ":" ++ quote s ++ "}"))]).
Proof.
  intros Hparse. unfold normalizeInput, normalizeInput_try, parsed_of.
  rewrite Hparse. reflexivity.
Qed.

Lemma normalizeInput_fixed (input : value) :
  exists normalized,
    normalizeInput JSON_parse input = Ok normalized /\
    normalizeInput JSON_parse normalized = Ok normalized.
Proof.
  pose proof (normalizeInput_cases JSON_parse input) as Hcases.
  destruct (carried_type input) as [t|] eqn:Hc.
  - exists input. split; exact Hcases.
  - destruct Hcases as (rest & Hnorm). eexists. split; [exact Hnorm|].
    pose proof (normalizeInput_cases JSON_parse
      (VObj (("type", VStr (classify (parsed_of JSON_parse input))) :: rest))) as H.
    cbn [carried_type obj_get] in H. rewrite String.eqb_refl in H.
    rewrite classify_truthy in H. exact H.
Qed.

End MoreNormalization.

(** X1: normalising twice is normalising once, for every input and whatever
    [JSON.parse] does: normalisation returns a record, which always carries
    a truthy [type], so a second call returns it as it is. *)
Theorem X1_normalizeInput_idempotent
    (JSON_parse : string -> option value) (input : value) :
  exists normalized,
    normalizeInput JSON_parse input = Ok normalized /\
    normalizeInput JSON_parse normalized = Ok normalized.
Proof. apply normalizeInput_fixed. Qed.

(** X2: a string that does not parse as JSON is always classified
    [raw_text], never [user_story] or [api], and its content is not the
    string itself but the serialised wrapper [{"raw": string}]. *)
Theorem X2_unparsed_text_is_wrapped_raw_text
    (JSON_parse : string -> option value) (s : string) :
  JSON_parse s = None ->
  normalizeInput JSON_parse (VStr s) =
  Ok (VObj [("type", VStr "raw_text");
            ("content", VStr ("{" ++ quote "raw" ++ ":" ++ quote s ++ "}"))]).
Proof. apply normalizeInput_unparsed. Qed.

Lemma X2_witness :
  JSONText.parse "Login functionality with username and password validation" = None /\
  normalizeInput JSONText.parse
    (VStr "Login functionality with username and password validation") =
  Ok (VObj [("type", VStr "raw_text");
            ("content",
             VStr ("{" ++ quote "raw" ++ ":" ++
                   quote "Login functionality with username and password validation" ++
                   "}"))]).
Proof.
  assert (H : JSONText.parse
    "Login functionality with username and password validation" = None)
    by (vm_compute; reflexivity).
  split; [exact H|].
  exact (X2_unparsed_text_is_wrapped_raw_text JSONText.parse _ H).
Defined.

(** ** Further properties of the synthesizer *)

Section MoreSynthesis.

Ltac label_one :=
  split; [reflexivity|split; [reflexivity|]];
  eexists; split; [reflexivity|simpl; tauto].

Ltac labelled := repeat (split; [label_one|]); label_one.

Lemma generateApiTestCases_labels (apiInput : value) (baseId : string) (tcs : value) :
  generateApiTestCases apiInput baseId = Ok tcs ->
  exists p n1 n2 b1 b2 e1 e2,
    tcs = test_cases [p] [n1; n2] [b1; b2] [e1; e2] /\
    case_labelled baseId "_POS_001" "positive" p /\
    case_labelled baseId "_NEG_001" "negative" n1 /\
    case_labelled baseId "_NEG_002" "negative" n2 /\
    case_labelled baseId "_BND_001" "boundary" b1 /\
    case_labelled baseId "_BND_002" "boundary" b2 /\
    case_labelled baseId "_EDGE_001" "edge" e1 /\
    case_labelled baseId "_EDGE_002" "edge" e2.
Proof.
  unfold generateApiTestCases. intros H.
  repeat (apply bind_ok_inv in H as (? & _ & H)).
  injection H as <-.
  do 7 eexists. split; [reflexivity|]. labelled.
Qed.

Lemma generateUserStoryTestCases_labels (storyInput : value) (baseId : string)
    (tcs : value) :
  generateUserStoryTestCases storyInput baseId = Ok tcs ->
  exists p n b e,
    tcs = test_cases [p] [n] [b] [e] /\
    case_labelled baseId "_POS_001" "positive" p /\
    case_labelled baseId "_NEG_001" "negative" n /\
    case_labelled baseId "_BND_001" "boundary" b /\
    case_labelled baseId "_EDGE_001" "edge" e.
Proof.
  unfold generateUserStoryTestCases. intros H.
  repeat (apply bind_ok_inv in H as (? & _ & H)).
  injection H as <-.
  do 4 eexists. split; [reflexivity|]. labelled.
Qed.

Lemma generateRawTextTestCases_labels (textInput : value) (baseId : string)
    (tcs : value) :
  generateRawTextTestCases textInput baseId = Ok tcs ->
  exists p n b e,
    tcs = test_cases [p] [n] [b] [e] /\
    case_labelled baseId "_POS_001" "positive" p /\
    case_labelled baseId "_NEG_001" "negative" n /\
    case_labelled baseId "_BND_001" "boundary" b /\
    case_labelled baseId "_EDGE_001" "edge" e.
Proof.
  unfold generateRawTextTestCases. intros H.
  repeat (apply bind_ok_inv in H as (? & _ & H)).
  injection H as <-.
  do 4 eexists. split; [reflexivity|]. labelled.
Qed.

(** The labels of whatever the synthesizer returns. *)
Lemma generateTestCases_labels (input tcs : value) :
  generateTestCases input = Ok tcs ->
  exists baseId positive negative boundary edge,
    generateBaseId input = Ok baseId /\
    tcs = test_cases positive negative boundary edge /\
    (exists p, positive = [p] /\ case_labelled baseId "_POS_001" "positive" p) /\
    ((exists n b e,
        negative = [n] /\ boundary = [b] /\ edge = [e] /\
        case_labelled baseId "_NEG_001" "negative" n /\
        case_labelled baseId "_BND_001" "boundary" b /\
        case_labelled baseId "_EDGE_001" "edge" e) \/
     (exists n1 n2 b1 b2 e1 e2,
        negative = [n1; n2] /\ boundary = [b1; b2] /\ edge = [e1; e2] /\
        case_labelled baseId "_NEG_001" "negative" n1 /\
        case_labelled baseId "_NEG_002" "negative" n2 /\
        case_labelled baseId "_BND_001" "boundary" b1 /\
        case_labelled baseId "_BND_002" "boundary" b2 /\
        case_labelled baseId "_EDGE_001" "edge" e1 /\
        case_labelled baseId "_EDGE_002" "edge" e2)).
Proof.
  unfold generateTestCases. intros H.
  apply bind_ok_inv in H as (baseId & Hbase & H).
  apply bind_ok_inv in H as (type & _ & H).
  exists baseId.
  destruct (is_string type "api").
  { apply generateApiTestCases_labels in H
      as (p & n1 & n2 & b1 & b2 & e1 & e2 & -> & Hp & H1 & H2 & H3 & H4 & H5 & H6).
    do 4 eexists. split; [exact Hbase|]. split; [reflexivity|].
    split; [exists p; split; [reflexivity|exact Hp]|].
    right. exists n1, n2, b1, b2, e1, e2.
    do 3 (split; [reflexivity|]). repeat (split; [assumption|]). assumption. }
  assert (Hfour : forall p n b e,
    case_labelled baseId "_POS_001" "positive" p ->
    case_labelled baseId "_NEG_001" "negative" n ->
    case_labelled baseId "_BND_001" "boundary" b ->
    case_labelled baseId "_EDGE_001" "edge" e ->
    exists positive negative boundary edge,
      Ok baseId = Ok baseId /\
      test_cases [p] [n] [b] [e] = test_cases positive negative boundary edge /\
      (exists p', positive = [p'] /\ case_labelled baseId "_POS_001" "positive" p') /\
      ((exists n' b' e',
          negative = [n'] /\ boundary = [b'] /\ edge = [e'] /\
          case_labelled baseId "_NEG_001" "negative" n' /\
          case_labelled baseId "_BND_001" "boundary" b' /\
          case_labelled baseId "_EDGE_001" "edge" e') \/
       (exists n1 n2 b1 b2 e1 e2,
          negative = [n1; n2] /\ boundary = [b1; b2] /\ edge = [e1; e2] /\
          case_labelled baseId "_NEG_001" "negative" n1 /\
          case_labelled baseId "_NEG_002" "negative" n2 /\
          case_labelled baseId "_BND_001" "boundary" b1 /\
          case_labelled baseId "_BND_002" "boundary" b2 /\
          case_labelled baseId "_EDGE_001" "edge" e1 /\
          case_labelled baseId "_EDGE_002" "edge" e2))).
  { intros p n b e Hp Hn Hb He.
    exists [p], [n], [b], [e]. split; [reflexivity|]. split; [reflexivity|].
    split; [exists p; split; [reflexivity|exact Hp]|].
    left. exists n, b, e.
    do 3 (split; [reflexivity|]). repeat (split; [assumption|]). assumption. }
  rewrite Hbase.
  destruct (is_string type "user_story").
  { apply generateUserStoryTestCases_labels in H
      as (p & n & b & e & -> & Hp & Hn & Hb & He).
    now apply Hfour. }
  destruct (is_string type "raw_text");
    [|now apply unsupported_type_throws in H].
  apply generateRawTextTestCases_labels in H
    as (p & n & b & e & -> & Hp & Hn & Hb & He).
  now apply Hfour.
Qed.

Lemma append_cancel (s a b : string) : s ++ a = s ++ b -> a = b.
Proof.
  induction s as [|c s IH]; simpl; intros H; [exact H|].
  injection H as H. exact (IH H).
Qed.

End MoreSynthesis.

Section CaseLabels.

Lemma prop_of_id (baseId suffix type : string) (tc : value) :
  case_labelled baseId suffix type tc -> prop_of "id" tc = VStr (baseId ++ suffix).
Proof. intros (Hid & _). unfold prop_of. now rewrite Hid. Qed.

Lemma NoDup_suffixed (baseId : string) (suffixes : list string) :
  NoDup suffixes -> NoDup (map (fun s => VStr (baseId ++ s)) suffixes).
Proof.
  induction 1 as [|s l Hnotin _ IH]; simpl; constructor; [|exact IH].
  intros Hin. apply in_map_iff in Hin as (s' & Heq & Hin).
  injection Heq as Heq. apply append_cancel in Heq. subst s'. exact (Hnotin Hin).
Qed.

Lemma NoDup_strings_4 :
  NoDup ["_POS_001"; "_NEG_001"; "_BND_001"; "_EDGE_001"].
Proof. repeat constructor; simpl; intuition discriminate. Qed.

Lemma NoDup_strings_7 :
  NoDup ["_POS_001"; "_NEG_001"; "_NEG_002"; "_BND_001"; "_BND_002";
         "_EDGE_001"; "_EDGE_002"].
Proof. repeat constructor; simpl; intuition discriminate. Qed.

(** The ids of a returned set are the base id with pairwise distinct
    suffixes. *)
Lemma generated_ids (input tcs : value) :
  generateTestCases input = Ok tcs ->
  exists baseId positive negative boundary edge suffixes,
    generateBaseId input = Ok baseId /\
    tcs = test_cases positive negative boundary edge /\
    NoDup suffixes /\
    ids_of (positive ++ negative ++ boundary ++ edge) =
    map (fun s => VStr (baseId ++ s)) suffixes.
Proof.
  intros H.
  destruct (generateTestCases_labels _ _ H)
    as (baseId & P & N & B & E & Hbase & -> & (p & -> & Hp) & Hrest).
  exists baseId, [p], N, B, E.
  destruct Hrest as [(n & b & e & -> & -> & -> & Hn & Hb & He)
                    |(n1 & n2 & b1 & b2 & e1 & e2 & -> & -> & -> &
                      H1 & H2 & H3 & H4 & H5 & H6)].
  - exists ["_POS_001"; "_NEG_001"; "_BND_001"; "_EDGE_001"].
    split; [exact Hbase|]. split; [reflexivity|]. split; [exact NoDup_strings_4|].
    unfold ids_of. simpl.
    now rewrite (prop_of_id _ _ _ _ Hp), (prop_of_id _ _ _ _ Hn),
      (prop_of_id _ _ _ _ Hb), (prop_of_id _ _ _ _ He).
  - exists ["_POS_001"; "_NEG_001"; "_NEG_002"; "_BND_001"; "_BND_002";
            "_EDGE_001"; "_EDGE_002"].
    split; [exact Hbase|]. split; [reflexivity|]. split; [exact NoDup_strings_7|].
    unfold ids_of. simpl.
    now rewrite (prop_of_id _ _ _ _ Hp), (prop_of_id _ _ _ _ H1),
      (prop_of_id _ _ _ _ H2), (prop_of_id _ _ _ _ H3), (prop_of_id _ _ _ _ H4),
      (prop_of_id _ _ _ _ H5), (prop_of_id _ _ _ _ H6).
Qed.

Lemma api_variant_login_request : api_variant login_request_api.
Proof.
  split; [reflexivity|]. split; [exists "/login"; reflexivity|].
  exists (VStr "POST"). split; reflexivity.
Qed.

End CaseLabels.

(** X3: within one run the ids of the generated cases are pairwise
    distinct, and each is the base id of the input followed by a suffix:
    the numbering of the sections, not the base id, tells the cases apart. *)
Theorem X3_generated_ids_are_distinct (input tcs : value) :
  generateTestCases input = Ok tcs ->
  exists baseId positive negative boundary edge,
    generateBaseId input = Ok baseId /\
    tcs = test_cases positive negative boundary edge /\
    NoDup (ids_of (positive ++ negative ++ boundary ++ edge)) /\
    forall id,
      In id (ids_of (positive ++ negative ++ boundary ++ edge)) ->
      exists suffix, id = VStr (baseId ++ suffix).
Proof.
  intros H.
  destruct (generated_ids _ _ H)
    as (baseId & P & N & B & E & suffixes & Hbase & -> & Hnd & Hids).
  exists baseId, P, N, B, E.
  split; [exact Hbase|]. split; [reflexivity|]. rewrite Hids. split.
  - apply NoDup_suffixed, Hnd.
  - intros id Hin. apply in_map_iff in Hin as (s & <- & _). exists s. reflexivity.
Qed.

Lemma X3_witness :
  exists tcs,
    generateTestCases login_request_api = Ok tcs /\
    exists baseId positive negative boundary edge,
      generateBaseId login_request_api = Ok baseId /\
      tcs = test_cases positive negative boundary edge /\
      NoDup (ids_of (positive ++ negative ++ boundary ++ edge)) /\
      forall id,
        In id (ids_of (positive ++ negative ++ boundary ++ edge)) ->
        exists suffix, id = VStr (baseId ++ suffix).
Proof.
  destruct (generateTestCases_api _ api_variant_login_request) as (tcs & Hrun & _).
  exists tcs. split; [exact Hrun|].
  exact (X3_generated_ids_are_distinct _ _ Hrun).
Defined.

(** X4: in whatever set the synthesizer returns, the [type] of every case is
    the name of the section that holds it, and the [priority] of every case
    is one of High, Medium and Low. *)
Theorem X4_type_is_the_section (input tcs : value) :
  generateTestCases input = Ok tcs ->
  exists positive negative boundary edge,
    tcs = test_cases positive negative boundary edge /\
    (forall tc, In tc positive -> get_prop tc "type" = Ok (VStr "positive")) /\
    (forall tc, In tc negative -> get_prop tc "type" = Ok (VStr "negative")) /\
    (forall tc, In tc boundary -> get_prop tc "type" = Ok (VStr "boundary")) /\
    (forall tc, In tc edge -> get_prop tc "type" = Ok (VStr "edge")) /\
    (forall tc,
       In tc (positive ++ negative ++ boundary ++ edge)%list ->
       exists priority,
         get_prop tc "priority" = Ok (VStr priority) /\
         In priority ["High"; "Medium"; "Low"]).
Proof.
  intros H.
  destruct (generateTestCases_labels _ _ H)
    as (baseId & P & N & B & E & Hbase & -> & (p & -> & Hp) & Hrest).
  exists [p], N, B, E. split; [reflexivity|].
  destruct Hrest as [(n & b & e & -> & -> & -> & Hn & Hb & He)
                    |(n1 & n2 & b1 & b2 & e1 & e2 & -> & -> & -> &
                      H1 & H2 & H3 & H4 & H5 & H6)];
    unfold case_labelled in *; simpl;
    repeat split; intros tc Hin;
    repeat (destruct Hin as [<-|Hin]; [tauto|]); destruct Hin.
Qed.

Lemma X4_witness :
  exists tcs,
    generateTestCases login_request_api = Ok tcs /\
    exists positive negative boundary edge,
      tcs = test_cases positive negative boundary edge /\
      (forall tc, In tc positive -> get_prop tc "type" = Ok (VStr "positive")) /\
      (forall tc, In tc negative -> get_prop tc "type" = Ok (VStr "negative")) /\
      (forall tc, In tc boundary -> get_prop tc "type" = Ok (VStr "boundary")) /\
      (forall tc, In tc edge -> get_prop tc "type" = Ok (VStr "edge")) /\
      (forall tc,
         In tc (positive ++ negative ++ boundary ++ edge)%list ->
         exists priority,
           get_prop tc "priority" = Ok (VStr priority) /\
           In priority ["High"; "Medium"; "Low"]).
Proof.
  destruct (generateTestCases_api _ api_variant_login_request) as (tcs & Hrun & _).
  exists tcs. split; [exact Hrun|].
  exact (X4_type_is_the_section _ _ Hrun).
Defined.

(** ** The tool as a whole *)

Section Tool.

Variable JSON_parse : string -> option value.

(** What the handler returns once the synthesizer has returned. *)
Lemma generate_test_cases_run (input normalized : value)
    (positive negative boundary edge : list value) :
  normalizeInput JSON_parse input = Ok normalized ->
  generateTestCases normalized =
    Ok (test_cases positive negative boundary edge) ->
  all_complete positive -> all_complete negative ->
  all_complete boundary -> all_complete edge ->
  exists type,
    get_prop normalized "type" = Ok type /\
    generate_test_cases JSON_parse input =
    Ok {| input_type := type;
          validation_of :=
            (let errors :=
               (short_if positive "positive" ++ short_if negative "negative" ++
                short_if boundary "boundary" ++ short_if edge "edge")%list in
             {| isValid := (List.length errors =? 0)%nat; errors := errors |});
          test_cases_of := test_cases positive negative boundary edge;
          summary_of :=
            {| total_cases :=
                 (List.length positive +
                  (List.length negative +
                   (List.length boundary + (List.length edge + 0))))%nat;
               by_section :=
                 [("positive", VNum (num_of_nat (List.length positive)));
                  ("negative", VNum (num_of_nat (List.length negative)));
                  ("boundary", VNum (num_of_nat (List.length boundary)));
                  ("edge", VNum (num_of_nat (List.length edge)))] |} |}.
Proof.
  intros Hnorm Hrun HP HN HB HE.
  assert (Htype : exists type, get_prop normalized "type" = Ok type).
  { unfold generateTestCases in Hrun.
    apply bind_ok_inv in Hrun as (baseId & _ & Hrun).
    apply bind_ok_inv in Hrun as (type & Htype & _).
    exists type. exact Htype. }
  destruct Htype as (type & Htype). exists type. split; [exact Htype|].
  unfold generate_test_cases.
  rewrite Hnorm. cbn [bind]. rewrite Hrun. cbn [bind].
  rewrite (validateOutput_complete _ _ _ _ HP HN HB HE). cbn [bind].
  rewrite Htype. reflexivity.
Qed.

Lemma generate_test_cases_inv (input : value) (r : response) :
  generate_test_cases JSON_parse input = Ok r ->
  exists normalized,
    normalizeInput JSON_parse input = Ok normalized /\
    generateTestCases normalized = Ok (test_cases_of r).
Proof.
  unfold generate_test_cases. intros H.
  apply bind_ok_inv in H as (normalized & Hnorm & H).
  apply bind_ok_inv in H as (tcs & Hrun & H).
  repeat (apply bind_ok_inv in H as (? & _ & H)).
  injection H as <-. exists normalized. split; [exact Hnorm|exact Hrun].
Qed.

(** Every successful run: four or seven cases, and a failed validation. *)
Lemma generate_test_cases_result (input : value) (r : response) :
  generate_test_cases JSON_parse input = Ok r ->
  isValid (validation_of r) = false /\
  errors (validation_of r) =
    ["Section positive has less than 3 test cases";
     "Section negative has less than 3 test cases";
     "Section boundary has less than 3 test cases";
     "Section edge has less than 3 test cases"] /\
  (total_cases (summary_of r) = 4%nat \/ total_cases (summary_of r) = 7%nat) /\
  (normalized <- normalizeInput JSON_parse input ;; get_prop normalized "type") =
    Ok (input_type r).
Proof.
  intros Hr. destruct (generate_test_cases_inv _ _ Hr) as (normalized & Hnorm & Hrun).
  destruct (generateTestCases_shape _ _ Hrun)
    as (P & N & B & E & Heq & HP & HN & HB & HE & Hlen).
  rewrite Heq in Hrun.
  destruct (generate_test_cases_run _ _ _ _ _ _ Hnorm Hrun HP HN HB HE)
    as (type & Htype & Hr').
  rewrite Hr in Hr'. injection Hr' as ->. rewrite Hnorm.
  cbn [bind validation_of summary_of input_type isValid errors total_cases].
  unfold short_if.
  destruct Hlen as [(-> & -> & -> & ->)|(-> & -> & -> & ->)]; cbn;
    repeat split; auto.
Qed.

End Tool.

(** X5: the tool never reports a valid result.  Whenever
    [generate_test_cases] succeeds, for any input and whatever [JSON.parse]
    does, the set has 4 or 7 cases, [validation.isValid] is false and the
    errors are exactly the four "less than 3 test cases" messages, in the
    order of the sections; [input_type] is the type of the normalised
    input. *)
Theorem X5_tool_result_is_never_valid
    (JSON_parse : string -> option value) (input : value) (r : response) :
  generate_test_cases JSON_parse input = Ok r ->
  isValid (validation_of r) = false /\
  errors (validation_of r) =
    ["Section positive has less than 3 test cases";
     "Section negative has less than 3 test cases";
     "Section boundary has less than 3 test cases";
     "Section edge has less than 3 test cases"] /\
  (total_cases (summary_of r) = 4%nat \/ total_cases (summary_of r) = 7%nat) /\
  (normalized <- normalizeInput JSON_parse input ;; get_prop normalized "type") =
    Ok (input_type r).
Proof. apply generate_test_cases_result. Qed.

Lemma X5_witness :
  exists r,
    generate_test_cases JSONText.parse login_api = Ok r /\
    isValid (validation_of r) = false /\
    errors (validation_of r) =
      ["Section positive has less than 3 test cases";
       "Section negative has less than 3 test cases";
       "Section boundary has less than 3 test cases";
       "Section edge has less than 3 test cases"] /\
    (total_cases (summary_of r) = 4%nat \/ total_cases (summary_of r) = 7%nat) /\
    (normalized <- normalizeInput JSONText.parse login_api ;;
     get_prop normalized "type") = Ok (input_type r).
Proof.
  eexists. split; [vm_compute; reflexivity|].
  apply (X5_tool_result_is_never_valid JSONText.parse login_api).
  vm_compute. reflexivity.
Defined.

Section PlainText.

Lemma scan_skip (fuel : nat) (before : option ascii) (c : ascii) (r : string) :
  Str.match_at before (String c r) = None ->
  Str.scan (S fuel) before (String c r) = Str.scan fuel (Some c) r.
Proof. intros H. cbn [Str.scan]. rewrite H. reflexivity. Qed.

Lemma scan_hit (fuel : nat) (before : option ascii) (s m after : string) :
  Str.match_at before s = Some (m, after) ->
  Str.scan (S fuel) before s = m :: Str.scan fuel (Str.last_char m) after.
Proof. intros H. cbn [Str.scan]. rewrite H. reflexivity. Qed.

(** The first word of a serialised wrapper is its key. *)
Lemma match_words_wrapped (s : string) :
  exists rest,
    Str.match_words ("{" ++ quote "raw" ++ ":" ++ quote s ++ "}") =
    Some ("raw" :: rest).
Proof.
  unfold Str.match_words.
  set (tail := ":" ++ quote s ++ "}").
  change ("{" ++ quote "raw" ++ tail)
    with (String "{" (String (ascii_of_nat 34)
            (String "r" (String "a" (String "w"
               (String (ascii_of_nat 34) tail)))))).
  cbn [String.length].
  rewrite scan_skip by reflexivity.
  rewrite scan_skip by reflexivity.
  rewrite (scan_hit _ _ _ "raw" (String (ascii_of_nat 34) tail)) by reflexivity.
  eexists. reflexivity.
Qed.

Lemma baseId_wrapped (s : string) :
  exists suffix,
    generateBaseId
      (VObj [("type", VStr "raw_text");
             ("content", VStr ("{" ++ quote "raw" ++ ":" ++ quote s ++ "}"))]) =
    Ok ("TC_RAW" ++ suffix).
Proof.
  destruct (match_words_wrapped s) as (rest & Hwords).
  rewrite (generateBaseId_content
             (VObj [("type", VStr "raw_text");
                    ("content", VStr ("{" ++ quote "raw" ++ ":" ++ quote s ++ "}"))])
             (VStr "raw_text") ("{" ++ quote "raw" ++ ":" ++ quote s ++ "}")
             eq_refl eq_refl eq_refl).
  unfold keyWords_of. rewrite Hwords.
  change (firstn 3 ("raw" :: rest)) with ("raw" :: firstn 2 rest).
  cbn [map]. change (Str.toUpperCase "raw") with "RAW".
  destruct (map Str.toUpperCase (firstn 2 rest)) as [|w ws].
  - exists "". reflexivity.
  - eexists. cbn [String.concat]. reflexivity.
Qed.

End PlainText.

(** X6: for every string that does not parse as JSON the tool succeeds: it
    reports the type [raw_text] and 4 cases, one in each section, and the
    base id of the cases starts with [TC_RAW], the key of the wrapper, before
    any word of the text. *)
Theorem X6_plain_text_run
    (JSON_parse : string -> option value) (s : string) :
  JSON_parse s = None ->
  exists r suffix p n b e,
    generate_test_cases JSON_parse (VStr s) = Ok r /\
    input_type r = VStr "raw_text" /\
    total_cases (summary_of r) = 4%nat /\
    test_cases_of r = test_cases [p] [n] [b] [e] /\
    (normalized <- normalizeInput JSON_parse (VStr s) ;; generateBaseId normalized) =
      Ok ("TC_RAW" ++ suffix) /\
    get_prop p "id" = Ok (VStr ("TC_RAW" ++ suffix ++ "_POS_001")).
Proof.
  intros Hparse.
  pose proof (normalizeInput_unparsed JSON_parse s Hparse) as Hnorm.
  destruct (baseId_wrapped s) as (suffix & Hbase).
  set (normalized :=
         VObj [("type", VStr "raw_text");
               ("content", VStr ("{" ++ quote "raw" ++ ":" ++ quote s ++ "}"))]) in *.
  assert (Hnarr : narrative_variant normalized).
  { split; [right; reflexivity|]. eexists. reflexivity. }
  destruct (generateTestCases_narrative _ Hnarr) as (p & n & b & e & Hrun).
  destruct (generateTestCases_shape _ _ Hrun)
    as (P & N & B & E & Heq & HP & HN & HB & HE & _).
  injection Heq as <- <- <- <-.
  destruct (generate_test_cases_run JSON_parse _ _ _ _ _ _ Hnorm Hrun HP HN HB HE)
    as (type & Htype & Hr).
  destruct (generateTestCases_labels _ _ Hrun)
    as (baseId & P & N & B & E & Hbase' & Heq & (p' & -> & Hp) & _).
  injection Heq as <- _ _ _.
  rewrite Hbase in Hbase'. injection Hbase' as <-.
  injection Htype as <-.
  eexists. exists suffix, p, n, b, e.
  split; [exact Hr|]. cbn [input_type summary_of total_cases test_cases_of].
  repeat split; [rewrite Hnorm; exact Hbase|exact (proj1 Hp)].
Qed.

Lemma X6_witness :
  JSONText.parse "Login functionality with username and password validation" = None /\
  exists r suffix p n b e,
    generate_test_cases JSONText.parse
      (VStr "Login functionality with username and password validation") = Ok r /\
    input_type r = VStr "raw_text" /\
    total_cases (summary_of r) = 4%nat /\
    test_cases_of r = test_cases [p] [n] [b] [e] /\
    (normalized <-
       normalizeInput JSONText.parse
         (VStr "Login functionality with username and password validation") ;;
     generateBaseId normalized) = Ok ("TC_RAW" ++ suffix) /\
    get_prop p "id" = Ok (VStr ("TC_RAW" ++ suffix ++ "_POS_001")).
Proof.
  assert (H : JSONText.parse
    "Login functionality with username and password validation" = None)
    by (vm_compute; reflexivity).
  split; [exact H|].
  exact (X6_plain_text_run JSONText.parse _ H).
Defined.

Section MoreClassification.

Variable JSON_parse : string -> option value.

Lemma normalizeInput_api (input : value) :
  carried_type input = None ->
  field_truthy (parsed_of JSON_parse input) "endpoint" &&
  field_truthy (parsed_of JSON_parse input) "method" = true ->
  exists o,
    parsed_of JSON_parse input = VObj o /\
    normalizeInput JSON_parse input =
    Ok (VObj [("type", VStr "api");
              ("endpoint", prop o "endpoint");
              ("method", prop o "method");
              ("request",
               or_else (or_else (prop o "request") (prop o "parameters")) (VObj []));
              ("response", or_else (prop o "response") (VObj []))]).
Proof.
  intros Hc Hfields. unfold normalizeInput.
  rewrite (normalizeInput_try_detect JSON_parse input Hc).
  destruct (parsed_of JSON_parse input) as [| |b|n|s|l|o]; try discriminate.
  exists o. split; [reflexivity|].
  unfold field_truthy in Hfields. rewrite !get_prop_object in Hfields.
  apply andb_true_iff in Hfields as [He Hm].
  unfold detect, and_props, or_props. rewrite !get_prop_object. cbn [bind].
  rewrite He. cbn [bind]. rewrite Hm. cbn [bind].
  unfold or_else. destruct (truthy (prop o "request")); reflexivity.
Qed.

Lemma normalizeInput_carried (o : object) (t : value) :
  obj_get o "type" = Some t ->
  truthy t = true ->
  normalizeInput JSON_parse (VObj o) = Ok (VObj o).
Proof.
  intros Htype Ht.
  pose proof (normalizeInput_cases JSON_parse (VObj o)) as H.
  cbn [carried_type] in H. rewrite Htype, Ht in H. exact H.
Qed.

Lemma unknown_type_throws (o : object) (t : value) :
  obj_get o "type" = Some t ->
  known_tag t = false ->
  match prop o "content" with
  | VStr _ => True
  | c => truthy c = false
  end ->
  generateTestCases (VObj o) =
  (printed <- ToString t ;;
   Throw (Error ("Unsupported input type: " ++ printed))).
Proof.
  intros Htype Hknown Hcontent.
  unfold known_tag in Hknown.
  apply orb_false_iff in Hknown as [Hknown Hraw].
  apply orb_false_iff in Hknown as [Hapi Hstory].
  assert (Hbase : exists baseId, generateBaseId (VObj o) = Ok baseId).
  { unfold generateBaseId. rewrite !get_prop_object.
    unfold prop at 1. rewrite Htype. cbn [bind]. rewrite Hapi.
    unfold or_else.
    destruct (prop o "content") as [| |b|n|s|l|o'];
      try (rewrite Hcontent); try (eexists; reflexivity).
    destruct (truthy (VStr s)); eexists; reflexivity. }
  destruct Hbase as (baseId & Hbase).
  unfold generateTestCases. rewrite Hbase. cbn [bind].
  rewrite get_prop_object. unfold prop. rewrite Htype. cbn [bind].
  rewrite Hapi, Hstory, Hraw. reflexivity.
Qed.

End MoreClassification.

(** X7: an input classified [api] is normalised to a record of exactly five
    fields (type, endpoint, method, request, response): every other field of
    the input is dropped; the request is the [request] field when it is
    truthy, else the [parameters] field when it is truthy, else an empty
    object, and the response defaults to an empty object in the same way. *)
Theorem X7_api_record_has_five_fields
    (JSON_parse : string -> option value) (input : value) :
  carried_type input = None ->
  field_truthy (parsed_of JSON_parse input) "endpoint" &&
  field_truthy (parsed_of JSON_parse input) "method" = true ->
  exists endpoint method request parameters response,
    get_prop (parsed_of JSON_parse input) "endpoint" = Ok endpoint /\
    get_prop (parsed_of JSON_parse input) "method" = Ok method /\
    get_prop (parsed_of JSON_parse input) "request" = Ok request /\
    get_prop (parsed_of JSON_parse input) "parameters" = Ok parameters /\
    get_prop (parsed_of JSON_parse input) "response" = Ok response /\
    normalizeInput JSON_parse input =
    Ok (VObj [("type", VStr "api");
              ("endpoint", endpoint);
              ("method", method);
              ("request", or_else (or_else request parameters) (VObj []));
              ("response", or_else response (VObj []))]).
Proof.
  intros Hc Hfields.
  destruct (normalizeInput_api JSON_parse input Hc Hfields) as (o & -> & ->).
  exists (prop o "endpoint"), (prop o "method"), (prop o "request"),
    (prop o "parameters"), (prop o "response").
  rewrite !get_prop_object. repeat split.
Qed.

Lemma X7_witness :
  carried_type login_api = None /\
  field_truthy (parsed_of JSONText.parse login_api) "endpoint" &&
  field_truthy (parsed_of JSONText.parse login_api) "method" = true /\
  exists endpoint method request parameters response,
    get_prop (parsed_of JSONText.parse login_api) "endpoint" = Ok endpoint /\
    get_prop (parsed_of JSONText.parse login_api) "method" = Ok method /\
    get_prop (parsed_of JSONText.parse login_api) "request" = Ok request /\
    get_prop (parsed_of JSONText.parse login_api) "parameters" = Ok parameters /\
    get_prop (parsed_of JSONText.parse login_api) "response" = Ok response /\
    normalizeInput JSONText.parse login_api =
    Ok (VObj [("type", VStr "api");
              ("endpoint", endpoint);
              ("method", method);
              ("request", or_else (or_else request parameters) (VObj []));
              ("response", or_else response (VObj []))]).
Proof.
  split; [reflexivity|]. split; [reflexivity|].
  exact (X7_api_record_has_five_fields JSONText.parse login_api eq_refl eq_refl).
Defined.

(** X8: an input object that carries a truthy [type] other than the three
    tags, and whose [content] is absent, falsy or a string, is returned by
    normalisation as it is and makes the synthesizer throw the error
    "Unsupported input type: " followed by the type as a template literal
    prints it; when the type cannot be printed (an object with a [toString]
    property of its own, or an array that holds one) the template literal
    throws a TypeError instead. *)
Theorem X8_unknown_type_is_reported
    (JSON_parse : string -> option value) (o : object) (t : value) :
  obj_get o "type" = Some t ->
  truthy t = true ->
  known_tag t = false ->
  match prop o "content" with
  | VStr _ => True
  | c => truthy c = false
  end ->
  normalizeInput JSON_parse (VObj o) = Ok (VObj o) /\
  (forall printed,
     ToString t = Ok printed ->
     generateTestCases (VObj o) =
     Throw (Error ("Unsupported input type: " ++ printed))) /\
  (printable t = false -> generateTestCases (VObj o) = Throw TypeError).
Proof.
  intros Htype Ht Hknown Hcontent.
  split; [exact (normalizeInput_carried JSON_parse o t Htype Ht)|].
  rewrite (unknown_type_throws o t Htype Hknown Hcontent).
  split.
  - intros printed ->. reflexivity.
  - intros Hp. rewrite (ToString_unprintable t Hp). reflexivity.
Qed.

Lemma X8_witness :
  normalizeInput JSONText.parse
    (VObj [("type", VNum (num_of_Z 42)); ("content", VStr "checkout flow")]) =
    Ok (VObj [("type", VNum (num_of_Z 42)); ("content", VStr "checkout flow")]) /\
  generateTestCases
    (VObj [("type", VNum (num_of_Z 42)); ("content", VStr "checkout flow")]) =
  Throw (Error "Unsupported input type: 42").
Proof.
  destruct (X8_unknown_type_is_reported JSONText.parse
              [("type", VNum (num_of_Z 42)); ("content", VStr "checkout flow")]
              (VNum (num_of_Z 42)) eq_refl eq_refl eq_refl I)
    as (Hnorm & Hprinted & _).
  split; [exact Hnorm|]. exact (Hprinted "42" eq_refl).
Defined.

(** ** The alphabet of the identifiers *)

Section Identifiers.

Ltac by_cases c :=
  destruct c as [[] [] [] [] [] [] [] []]; vm_compute; reflexivity.

Lemma endpoint_char (c : ascii) :
  is_id_char
    ((fun c => if Str.is_lower c then ascii_of_nat (nat_of_ascii c - 32) else c)
       (if Str.is_alnum c then c else "_"%char)) = true.
Proof. by_cases c. Qed.

Lemma word_char (c : ascii) :
  implb (Str.is_word_char c)
    (is_id_char (if Str.is_lower c then ascii_of_nat (nat_of_ascii c - 32) else c)) = true.
Proof. by_cases c. Qed.

Lemma all_chars_append (p : ascii -> bool) (a b : string) :
  all_chars p (a ++ b) = all_chars p a && all_chars p b.
Proof.
  induction a as [|c a IH]; simpl; [reflexivity|].
  now rewrite IH, andb_assoc.
Qed.

Lemma all_chars_endpoint (e : string) :
  all_chars is_id_char (Str.toUpperCase (Str.replace_non_alnum e)) = true.
Proof.
  unfold Str.toUpperCase, Str.replace_non_alnum.
  induction e as [|c e IH]; [reflexivity|].
  cbn [Str.map_chars all_chars]. rewrite IH, endpoint_char. reflexivity.
Qed.

Lemma length_map_chars (f : ascii -> ascii) (s : string) :
  String.length (Str.map_chars f s) = String.length s.
Proof. induction s as [|c s IH]; simpl; congruence. Qed.

Lemma all_chars_upper (w : string) :
  all_chars Str.is_word_char w = true ->
  all_chars is_id_char (Str.toUpperCase w) = true.
Proof.
  unfold Str.toUpperCase.
  induction w as [|c w IH]; [reflexivity|].
  cbn [Str.map_chars all_chars]. intros H.
  apply andb_true_iff in H as [Hc Hw].
  pose proof (word_char c) as Himp. rewrite Hc in Himp. cbn [implb] in Himp.
  rewrite Himp, (IH Hw). reflexivity.
Qed.

Lemma all_chars_substring (p : ascii -> bool) (s : string) :
  all_chars p s = true -> forall n m, all_chars p (substring n m s) = true.
Proof.
  induction s as [|c s IH]; intros H n m.
  - destruct n, m; reflexivity.
  - cbn [all_chars] in H. apply andb_true_iff in H as [Hc Hs].
    destruct n as [|n]; destruct m as [|m]; cbn [substring all_chars];
      try reflexivity; try (apply IH; exact Hs).
    rewrite Hc. cbn [andb]. apply IH, Hs.
Qed.

Lemma take_word_chars (s : string) :
  all_chars Str.is_word_char (fst (Str.take_word s)) = true.
Proof.
  induction s as [|c s IH]; [reflexivity|].
  cbn [Str.take_word]. destruct (Str.is_word_char c) eqn:Hc; [|reflexivity].
  destruct (Str.take_word s) as [w rest]. cbn [fst all_chars] in *.
  now rewrite Hc, IH.
Qed.

Lemma try_lengths_chars (run rest : string) (n : nat) (m after : string) :
  all_chars Str.is_word_char run = true ->
  Str.try_lengths run rest n = Some (m, after) ->
  all_chars Str.is_word_char m = true.
Proof.
  intros Hrun. induction n as [|n IH]; cbn [Str.try_lengths]; [discriminate|].
  destruct (S n <? 3)%nat; [discriminate|].
  destruct (Str.word_boundary _ _); [|exact IH].
  intros [= <- _]. apply all_chars_substring, Hrun.
Qed.

Lemma match_at_chars (before : option ascii) (s m after : string) :
  Str.match_at before s = Some (m, after) ->
  all_chars Str.is_word_char m = true.
Proof.
  unfold Str.match_at. destruct (Str.word_boundary _ _); [|discriminate].
  pose proof (take_word_chars s) as Hrun.
  destruct (Str.take_word s) as [run rest]. cbn [fst] in Hrun.
  apply try_lengths_chars, Hrun.
Qed.

(** Every match of the expression consists of word characters. *)
Lemma scan_chars (fuel : nat) :
  forall before s,
    Forall (fun w => all_chars Str.is_word_char w = true) (Str.scan fuel before s).
Proof.
  induction fuel as [|fuel IH]; intros before s; cbn [Str.scan]; [constructor|].
  destruct (Str.match_at before s) as [[m after]|] eqn:Hm.
  - constructor; [exact (match_at_chars _ _ _ _ Hm)|apply IH].
  - destruct s; [constructor|apply IH].
Qed.

Lemma keyWords_chars (content : string) :
  Forall (fun w => all_chars is_id_char w = true) (keyWords_of content).
Proof.
  unfold keyWords_of.
  assert (Hwords : Forall (fun w => all_chars Str.is_word_char w = true)
    match Str.match_words content with
    | Some ws => ws
    | None => []
    end).
  { unfold Str.match_words.
    pose proof (scan_chars (S (String.length content)) None content) as H.
    destruct (Str.scan _ _ _); [constructor|exact H]. }
  set (words := match Str.match_words content with Some ws => ws | None => [] end) in *.
  assert (Hfirst : Forall (fun w => all_chars Str.is_word_char w = true) (firstn 3 words)).
  { rewrite <- (firstn_skipn 3 words) in Hwords. apply Forall_app in Hwords. tauto. }
  induction Hfirst as [|w l Hw _ IH]; simpl; constructor; [|exact IH].
  apply all_chars_upper, Hw.
Qed.

Lemma all_chars_concat (l : list string) :
  Forall (fun w => all_chars is_id_char w = true) l ->
  all_chars is_id_char (String.concat "_" l) = true.
Proof.
  induction 1 as [|w l Hw Hl IH]; [reflexivity|].
  cbn [String.concat]. destruct l as [|w' l']; [exact Hw|].
  rewrite all_chars_append, Hw. cbn [andb]. exact IH.
Qed.

Lemma baseId_alphabet (input : value) (id : string) :
  generateBaseId input = Ok id ->
  exists body,
    id = "TC_" ++ body /\
    all_chars is_id_char body = true /\
    forall endpoint,
      get_prop input "type" = Ok (VStr "api") ->
      get_prop input "endpoint" = Ok (VStr endpoint) ->
      String.length body = String.length endpoint.
Proof.
  unfold generateBaseId. intros H.
  apply bind_ok_inv in H as (type & Htype & H).
  destruct (is_string type "api") eqn:Hapi.
  - apply bind_ok_inv in H as (e & He & H).
    destruct e as [| | | |e| |]; try discriminate. injection H as <-.
    eexists. split; [reflexivity|]. split; [apply all_chars_endpoint|].
    intros endpoint _ Hendpoint. rewrite He in Hendpoint.
    injection Hendpoint as <-.
    unfold Str.toUpperCase, Str.replace_non_alnum. now rewrite !length_map_chars.
  - apply bind_ok_inv in H as (c & Hc & H).
    assert (Hnot : forall endpoint,
      get_prop input "type" = Ok (VStr "api") ->
      get_prop input "endpoint" = Ok (VStr endpoint) ->
      False).
    { intros endpoint Ht _. rewrite Htype in Ht. injection Ht as ->. discriminate. }
    destruct (or_else c (VStr "")) as [| | | |content| |]; try discriminate.
    assert (Hid : id = "TC_" ++ String.concat "_" (keyWords_of content)).
    { change (Ok ("TC_" ++ String.concat "_" (keyWords_of content)) = Ok id) in H.
      congruence. }
    subst id. eexists. split; [reflexivity|].
    split; [apply all_chars_concat, keyWords_chars|].
    intros endpoint Ht He. destruct (Hnot endpoint Ht He).
Qed.

End Identifiers.

(** X9: every base id the minter returns is [TC_] followed by capitals,
    digits and underscores only; for an [api] input it has one character for
    each character of the endpoint. *)
Theorem X9_base_id_alphabet (input : value) (id : string) :
  generateBaseId input = Ok id ->
  exists body,
    id = "TC_" ++ body /\
    all_chars is_id_char body = true /\
    forall endpoint,
      get_prop input "type" = Ok (VStr "api") ->
      get_prop input "endpoint" = Ok (VStr endpoint) ->
      String.length body = String.length endpoint.
Proof. apply baseId_alphabet. Qed.

Lemma X9_witness :
  generateBaseId login_request_api = Ok "TC__LOGIN" /\
  exists body,
    "TC__LOGIN" = "TC_" ++ body /\
    all_chars is_id_char body = true /\
    forall endpoint,
      get_prop login_request_api "type" = Ok (VStr "api") ->
      get_prop login_request_api "endpoint" = Ok (VStr endpoint) ->
      String.length body = String.length endpoint.
Proof.
  split; [reflexivity|].
  exact (X9_base_id_alphabet login_request_api "TC__LOGIN" eq_refl).
Defined.

(** ** Edge and boundary data *)

Section EdgeData.

Lemma getEdgeTestData_null_get (R : object) :
  NoDup (map fst R) ->
  exists edge,
    getEdgeTestData (VObj R) "null" = Ok (VObj edge) /\
    forall k,
      obj_get edge k =
      if k =? "__proto__" then None
      else match obj_get R k with
           | Some _ => Some VNull
           | None => None
           end.
Proof.
  intros Hnd. eexists. split; [reflexivity|].
  intros k.
  rewrite (fold_assign_fields _ (fun _ => Some VNull)) by
    (solve [intros acc k0 v; reflexivity] || assumption).
  destruct (k =? "__proto__"), (obj_get R k); reflexivity.
Qed.

Lemma getEdgeTestData_special_get (R : object) :
  NoDup (map fst R) ->
  exists edge,
    getEdgeTestData (VObj R) "special" = Ok (VObj edge) /\
    forall k,
      obj_get edge k =
      if k =? "__proto__" then None
      else match obj_get R k with
           | Some (VStr _) => Some (VStr "!@#$%^&*()_+-=[]{}|;:,.<>?")
           | Some v => Some v
           | None => None
           end.
Proof.
  intros Hnd. eexists. split; [reflexivity|].
  intros k.
  rewrite (fold_assign_fields _
    (fun v => Some (if typeof v =? "string"
                    then VStr "!@#$%^&*()_+-=[]{}|;:,.<>?" else v))) by
    (solve [intros acc k0 v; reflexivity] || assumption).
  destruct (k =? "__proto__"); [reflexivity|].
  destruct (obj_get R k) as [[]|]; reflexivity.
Qed.

Lemma fold_left_same {A B} (f : A -> B -> A) (l : list B) (a : A) :
  (forall x y, f x y = x) -> fold_left f l a = a.
Proof.
  intros Hf. induction l as [|y l IH]; simpl; [reflexivity|].
  now rewrite Hf.
Qed.

Lemma getEdgeTestData_other (R : object) (type : string) :
  (type =? "null") = false ->
  (type =? "special") = false ->
  getEdgeTestData (VObj R) type = Ok (VObj []).
Proof.
  intros Hnull Hspecial. unfold getEdgeTestData. cbn [Object_entries bind].
  rewrite fold_left_same; [reflexivity|].
  intros x [k v]. now rewrite Hnull, Hspecial.
Qed.

End EdgeData.

(** X10: for every request object (its property names distinct) the edge
    data keeps every field of the request but one named [__proto__], which
    is never stored: the [null] case maps each other field to [null]
    whatever its type, and the [special] case replaces each string by the
    special-character payload and leaves every other value as it is.  With
    any other mode the result is the empty object. *)
Theorem X10_getEdgeTestData_keeps_every_other_field (R : object) :
  NoDup (map fst R) ->
  (exists enull especial,
     getEdgeTestData (VObj R) "null" = Ok (VObj enull) /\
     getEdgeTestData (VObj R) "special" = Ok (VObj especial) /\
     (forall k, has_key enull k = has_key R k && negb (k =? "__proto__")) /\
     (forall k, has_key especial k = has_key R k && negb (k =? "__proto__")) /\
     (forall k v,
        k <> "__proto__" -> obj_get R k = Some v -> obj_get enull k = Some VNull) /\
     (forall k s,
        k <> "__proto__" ->
        obj_get R k = Some (VStr s) ->
        obj_get especial k = Some (VStr "!@#$%^&*()_+-=[]{}|;:,.<>?")) /\
     (forall k v,
        k <> "__proto__" ->
        obj_get R k = Some v -> typeof v <> "string" ->
        obj_get especial k = Some v)) /\
  (forall type,
     type <> "null" -> type <> "special" ->
     getEdgeTestData (VObj R) type = Ok (VObj [])).
Proof.
  intros Hnd. split.
  - destruct (getEdgeTestData_null_get R Hnd) as (enull & Hnull & Hgn).
    destruct (getEdgeTestData_special_get R Hnd) as (especial & Hspecial & Hgs).
    exists enull, especial. split; [exact Hnull|]. split; [exact Hspecial|].
    repeat split.
    + intros k. unfold has_key. rewrite Hgn.
      destruct (k =? "__proto__"), (obj_get R k); reflexivity.
    + intros k. unfold has_key. rewrite Hgs.
      destruct (k =? "__proto__"), (obj_get R k) as [[]|]; reflexivity.
    + intros k v Hp Hk. apply String.eqb_neq in Hp. now rewrite Hgn, Hp, Hk.
    + intros k s Hp Hk. apply String.eqb_neq in Hp. now rewrite Hgs, Hp, Hk.
    + intros k v Hp Hk Hv. apply String.eqb_neq in Hp. rewrite Hgs, Hp, Hk.
      destruct v; try reflexivity. now destruct Hv.
  - intros type Hn Hs. apply getEdgeTestData_other; now apply String.eqb_neq.
Qed.

Lemma X10_witness :
  NoDup (map fst [("name", VStr "Ann"); ("age", VNum (num_of_Z 7)); ("tags", VArr []);
                  ("__proto__", VStr "x")]) /\
  exists enull especial,
    getEdgeTestData
      (VObj [("name", VStr "Ann"); ("age", VNum (num_of_Z 7)); ("tags", VArr []);
             ("__proto__", VStr "x")])
      "null" = Ok (VObj enull) /\
    getEdgeTestData
      (VObj [("name", VStr "Ann"); ("age", VNum (num_of_Z 7)); ("tags", VArr []);
             ("__proto__", VStr "x")])
      "special" = Ok (VObj especial) /\
    obj_get enull "tags" = Some VNull /\
    obj_get especial "name" = Some (VStr "!@#$%^&*()_+-=[]{}|;:,.<>?") /\
    obj_get especial "age" = Some (VNum (num_of_Z 7)) /\
    has_key enull "__proto__" = false /\
    has_key especial "__proto__" = false.
Proof.
  assert (Hnd : NoDup (map fst
    [("name", VStr "Ann"); ("age", VNum (num_of_Z 7)); ("tags", VArr []);
     ("__proto__", VStr "x")])).
  { repeat constructor; simpl; intuition discriminate. }
  split; [exact Hnd|].
  destruct (proj1 (X10_getEdgeTestData_keeps_every_other_field _ Hnd))
    as (enull & especial & Hn & Hs & Hkn & Hks & Hgn & Hgs & Hgo).
  exists enull, especial. split; [exact Hn|]. split; [exact Hs|].
  split; [apply (Hgn "tags" (VArr [])); [discriminate|reflexivity]|].
  split; [apply (Hgs "name" "Ann"); [discriminate|reflexivity]|].
  split; [apply (Hgo "age" (VNum (num_of_Z 7))); [discriminate|reflexivity|discriminate]|].
  split; [exact (Hkn "__proto__")|exact (Hks "__proto__")].
Defined.

(** X11: for every request object (its property names distinct) the
    boundary data, in either mode, has a field exactly for the fields of the
    request whose value is a string or a number and whose name is not
    [__proto__]: booleans, [null], arrays and nested objects are left out of
    the boundary cases, and so is whatever the request holds under
    [__proto__]. *)
Theorem X11_getBoundaryTestData_fields (R : object) (type : string) :
  NoDup (map fst R) ->
  exists boundary,
    getBoundaryTestData (VObj R) type = Ok (VObj boundary) /\
    forall k,
      has_key boundary k = true <->
      k <> "__proto__" /\
      exists v,
        obj_get R k = Some v /\ (typeof v = "string" \/ typeof v = "number").
Proof.
  intros Hnd.
  destruct (getBoundaryTestData_get R type Hnd) as (boundary & Hrun & Hget).
  exists boundary. split; [exact Hrun|].
  intros k. unfold has_key. rewrite Hget.
  destruct (String.eqb_spec k "__proto__") as [->|Hk].
  { split; [discriminate|]. intros [H _]. now destruct H. }
  destruct (obj_get R k) as [v|].
  - destruct v; simpl; split; intros H;
      first [ discriminate H
            | reflexivity
            | split; [exact Hk|eexists; split; [reflexivity|tauto]]
            | destruct H as (_ & v' & Heq & [H|H]); injection Heq as <-;
              discriminate H ].
  - split; [discriminate|]. intros (_ & v & Hv & _). discriminate.
Qed.

Lemma X11_witness :
  NoDup (map fst [("name", VStr "Ann"); ("admin", VBool true);
                  ("__proto__", VStr "x")]) /\
  exists boundary,
    getBoundaryTestData
      (VObj [("name", VStr "Ann"); ("admin", VBool true); ("__proto__", VStr "x")])
      "max" = Ok (VObj boundary) /\
    has_key boundary "name" = true /\
    has_key boundary "admin" <> true /\
    has_key boundary "__proto__" <> true.
Proof.
  assert (Hnd : NoDup (map fst [("name", VStr "Ann"); ("admin", VBool true);
                                ("__proto__", VStr "x")])).
  { repeat constructor; simpl; intuition discriminate. }
  split; [exact Hnd|].
  destruct (X11_getBoundaryTestData_fields _ "max" Hnd) as (boundary & Hrun & Hkeys).
  exists boundary. split; [exact Hrun|]. split; [|split].
  - apply Hkeys. split; [discriminate|].
    exists (VStr "Ann"). split; [reflexivity|]. now left.
  - intros H. apply Hkeys in H as (_ & v & [= <-] & [H|H]); discriminate.
  - intros H. apply Hkeys in H as (H & _). now destruct H.
Defined.

(** X23: for every request object (its property names distinct) the data
    of the invalid-format case has a field exactly for the fields of the
    request whose value is a string, a number or a boolean and whose name is
    not [__proto__]: the assignment [invalid[key] = ...] under that name
    reaches the accessor of [Object.prototype], which ignores the number or
    string it is given, and no property is created. *)
Theorem X23_getInvalidTestData_fields (R : object) :
  NoDup (map fst R) ->
  exists invalid,
    getInvalidTestData (VObj R) = Ok (VObj invalid) /\
    forall k,
      has_key invalid k = true <->
      k <> "__proto__" /\
      exists v,
        obj_get R k = Some v /\
        (typeof v = "string" \/ typeof v = "number" \/ typeof v = "boolean").
Proof.
  intros Hnd.
  destruct (getInvalidTestData_get R Hnd) as (invalid & Hrun & Hget).
  exists invalid. split; [exact Hrun|].
  intros k. unfold has_key. rewrite Hget.
  destruct (String.eqb_spec k "__proto__") as [->|Hk].
  { split; [discriminate|]. intros [H _]. now destruct H. }
  destruct (obj_get R k) as [v|].
  - destruct v; simpl; split; intros H;
      first [ discriminate H
            | reflexivity
            | split; [exact Hk|eexists; split; [reflexivity|tauto]]
            | destruct H as (_ & v' & Heq & [H|[H|H]]); injection Heq as <-;
              discriminate H ].
  - split; [discriminate|]. intros (_ & v & Hv & _). discriminate.
Qed.

Lemma X23_witness :
  NoDup (map fst [("__proto__", VStr "x"); ("name", VStr "Ann")]) /\
  exists invalid,
    getInvalidTestData (VObj [("__proto__", VStr "x"); ("name", VStr "Ann")]) =
      Ok (VObj invalid) /\
    has_key invalid "name" = true /\
    has_key invalid "__proto__" <> true.
Proof.
  assert (Hnd : NoDup (map fst [("__proto__", VStr "x"); ("name", VStr "Ann")])).
  { repeat constructor; simpl; intuition discriminate. }
  split; [exact Hnd|].
  destruct (X23_getInvalidTestData_fields _ Hnd) as (invalid & Hrun & Hkeys).
  exists invalid. split; [exact Hrun|]. split.
  - apply Hkeys. split; [discriminate|].
    exists (VStr "Ann"). split; [reflexivity|]. now left.
  - intros H. apply Hkeys in H as (H & _). now destruct H.
Defined.

(** ** Keyword extraction *)

Section Keywords.

Lemma first_included_keyword (text : string) (words : list string) (default : string) :
  first_keyword text words default (first_included text words default).
Proof.
  induction words as [|w words IH]; cbn [first_included].
  - left. split; [reflexivity|]. intros w [].
  - destruct (Str.includes text w) eqn:Hw.
    + right. exists [], words. split; [reflexivity|]. split; [exact Hw|].
      intros w' [].
    + destruct IH as [(Heq & Hnone)|(before & after & Hsplit & Hin & Hbefore)].
      * left. split; [exact Heq|]. intros w' [<-|Hw']; [exact Hw|now apply Hnone].
      * right. exists (w :: before), after.
        split; [simpl; f_equal; exact Hsplit|]. split; [exact Hin|].
        intros w' [<-|Hw']; [exact Hw|now apply Hbefore].
Qed.

End Keywords.

(** X12: on a string, [extractMainAction] returns the first of its ten
    keywords, in their fixed order, that the lower-cased content includes as
    a substring, and "perform action" exactly when the content includes
    none; [extractMainFeature] does the same with its seven keywords and
    the default "feature".  On anything but a string both throw a
    TypeError. *)
Theorem X12_first_keyword_wins :
  (forall content,
     exists action feature,
       extractMainAction (VStr content) = Ok action /\
       first_keyword (Str.toLowerCase content) actionWords "perform action" action /\
       extractMainFeature (VStr content) = Ok feature /\
       first_keyword (Str.toLowerCase content) featureWords "feature" feature) /\
  (forall v,
     typeof v <> "string" ->
     extractMainAction v = Throw TypeError /\
     extractMainFeature v = Throw TypeError).
Proof.
  split.
  - intros content. do 2 eexists.
    split; [reflexivity|]. split; [apply first_included_keyword|].
    split; [reflexivity|apply first_included_keyword].
  - intros v Hv. destruct v; try (split; reflexivity). now destruct Hv.
Qed.

Lemma X12_witness :
  typeof VUndefined <> "string" /\
  extractMainAction VUndefined = Throw TypeError /\
  extractMainFeature VUndefined = Throw TypeError.
Proof.
  assert (H : typeof VUndefined <> "string") by discriminate.
  split; [exact H|].
  exact (proj2 X12_first_keyword_wins VUndefined H).
Defined.

(** ** More on the validator *)

Section MoreValidator.

Lemma check_sections_nil (set : object) (sections : list string) :
  check_sections (VObj set) sections = Ok [] ->
  forall S, In S sections ->
  exists cases, obj_get set S = Some (VArr cases) /\ (3 <= List.length cases)%nat.
Proof.
  induction sections as [|s sections IH]; cbn [check_sections]; intros H S HS;
    [destruct HS|].
  rewrite get_prop_object in H. cbn [bind] in H.
  apply bind_ok_inv in H as (more & Hmore & H).
  injection H as H. apply app_eq_nil in H as [Hhere ->].
  destruct HS as [<-|HS]; [|exact (IH Hmore S HS)].
  unfold prop in Hhere. revert Hhere.
  destruct (obj_get set s) as [[| |b|n|str|cases|o]|]; cbn;
    try discriminate;
    try (destruct b; discriminate);
    try (destruct (negb (num_is_zero n)); discriminate);
    try (destruct (negb (str =? "")); discriminate).
  destruct (Nat.leb_spec (List.length cases) 2); [discriminate|].
  intros _. exists cases. split; [reflexivity|lia].
Qed.

Lemma check_sections_in (set : object) (sections : list string) (es : list string) :
  check_sections (VObj set) sections = Ok es ->
  forall S, In S sections ->
  match obj_get set S with
  | Some (VArr cases) =>
      (List.length cases < 3)%nat -> In (short_section S) es
  | _ => In (missing_section S) es
  end.
Proof.
  revert es.
  induction sections as [|s sections IH]; cbn [check_sections]; intros es H S HS;
    [destruct HS|].
  rewrite get_prop_object in H. cbn [bind] in H.
  apply bind_ok_inv in H as (more & Hmore & H).
  injection H as <-.
  destruct HS as [<-|HS].
  - unfold prop.
    destruct (obj_get set s) as [[| |b|n|str|cases|o]|]; cbn;
      try (now left);
      try (destruct b; now left);
      try (destruct (negb (num_is_zero n)); now left);
      try (destruct (negb (str =? "")); now left).
    intros Hlt.
    assert (Hle : (List.length cases <=? 2)%nat = true) by (apply Nat.leb_le; lia).
    rewrite Hle. now left.
  - specialize (IH more Hmore S HS).
    destruct (obj_get set S) as [[| | | | |cases|]|];
      try (apply in_or_app; right; exact IH).
    intros Hlt. apply in_or_app. right. exact (IH Hlt).
Qed.

Lemma check_fields_nil (section : string) (index : nat) (tc : value)
    (fields : list string) :
  check_fields section index tc fields = Ok [] ->
  forall F, In F fields -> in_op F tc = Ok true.
Proof.
  induction fields as [|f fields IH]; cbn [check_fields]; intros H F HF;
    [destruct HF|].
  apply bind_ok_inv in H as (present & Hpresent & H).
  apply bind_ok_inv in H as (more & Hmore & H).
  injection H as H. apply app_eq_nil in H as [Hhere ->].
  destruct HF as [<-|HF]; [|exact (IH Hmore F HF)].
  destruct present; [exact Hpresent|discriminate].
Qed.

Lemma check_case_nil (section : string) (index : nat) (tc : value) :
  check_case section index tc = Ok [] ->
  (forall F, In F requiredFields -> in_op F tc = Ok true) /\
  exists steps,
    get_prop tc "steps" = Ok steps /\ truthy steps = true /\ steps <> VArr [].
Proof.
  unfold check_case. intros H.
  apply bind_ok_inv in H as (missing & Hmissing & H).
  apply bind_ok_inv in H as (steps & Hsteps & H).
  apply bind_ok_inv in H as (no_steps & Hno & H).
  injection H as H. apply app_eq_nil in H as [-> Hempty].
  split; [exact (check_fields_nil _ _ _ _ Hmissing)|].
  exists steps. split; [exact Hsteps|].
  destruct no_steps; [discriminate|].
  destruct (truthy steps); [|discriminate]. split; [reflexivity|].
  intros ->. discriminate.
Qed.

Lemma check_cases_nil (section : string) (cases : list value) :
  forall base,
    check_cases section cases base = Ok [] ->
    forall tc, In tc cases -> exists i, check_case section i tc = Ok [].
Proof.
  induction cases as [|c cases IH]; cbn [check_cases]; intros base H tc Htc;
    [destruct Htc|].
  apply bind_ok_inv in H as (here & Hhere & H).
  apply bind_ok_inv in H as (more & Hmore & H).
  injection H as H. apply app_eq_nil in H as [-> ->].
  destruct Htc as [<-|Htc].
  - exists base. exact Hhere.
  - exact (IH _ Hmore tc Htc).
Qed.

Lemma check_entries_nil (set : object) :
  check_entries set = Ok [] ->
  forall S cases tc,
    In (S, VArr cases) set -> In tc cases ->
    exists i, check_case S i tc = Ok [].
Proof.
  induction set as [|[s c] set IH]; cbn [check_entries]; intros H S cases tc HS Htc;
    [destruct HS|].
  apply bind_ok_inv in H as (here & Hhere & H).
  apply bind_ok_inv in H as (more & Hmore & H).
  injection H as H. apply app_eq_nil in H as [-> ->].
  destruct HS as [Heq|HS]; [|exact (IH Hmore S cases tc HS Htc)].
  injection Heq as -> ->.
  exact (check_cases_nil _ _ _ Hhere tc Htc).
Qed.

(** The errors of one case reach the result of the validator. *)
Lemma check_cases_lift (section : string) (cases : list value) :
  Forall (fun tc => is_object_value tc = true) cases ->
  forall base,
  exists es,
    check_cases section cases base = Ok es /\
    forall i tc e es',
      nth_error cases i = Some tc ->
      check_case section (base + i) tc = Ok es' -> In e es' -> In e es.
Proof.
  induction 1 as [|tc cases Htc _ IH]; intros base; simpl.
  - exists []. split; [reflexivity|]. intros [|i] ? ? ? Hnth; discriminate.
  - destruct (check_case_object section base tc Htc) as (es1 & Hes1 & _).
    destruct (IH (S base)) as (es2 & Hes2 & Hin2).
    rewrite Hes1, Hes2. simpl. eexists. split; [reflexivity|].
    intros [|i] tc' e es' Hnth Hcase He; simpl in Hnth; apply in_or_app.
    + injection Hnth as <-. left. rewrite Nat.add_0_r, Hes1 in Hcase.
      injection Hcase as <-. exact He.
    + right. replace (base + S i)%nat with (S base + i)%nat in Hcase by lia.
      exact (Hin2 i tc' e es' Hnth Hcase He).
Qed.

Lemma check_entries_lift (set : object) :
  sections_hold_objects set ->
  exists es,
    check_entries set = Ok es /\
    forall S cases i tc e es',
      In (S, VArr cases) set -> nth_error cases i = Some tc ->
      check_case S i tc = Ok es' -> In e es' -> In e es.
Proof.
  induction set as [|[s c] set IH]; intros Hset; simpl.
  - exists []. split; [reflexivity|]. intros ? ? ? ? ? ? [].
  - destruct IH as (es2 & Hes2 & Hin2).
    { intros section cases Hin. apply (Hset section cases). now right. }
    assert (Hhere : exists es1,
      match c with
      | VArr l => check_cases s l 0
      | _ => Ok []
      end = Ok es1 /\
      forall cases i tc e es', c = VArr cases ->
        nth_error cases i = Some tc ->
        check_case s i tc = Ok es' -> In e es' -> In e es1).
    { destruct c as [| | | | |l|]; try (exists []; split; [reflexivity|]; discriminate).
      destruct (check_cases_lift s l (Hset s l (or_introl eq_refl)) 0)
        as (es1 & Hes1 & Hin1).
      exists es1. split; [exact Hes1|].
      intros cases i tc e es' [= <-]. apply (Hin1 i tc e es'). }
    destruct Hhere as (es1 & Hes1 & Hin1).
    rewrite Hes1, Hes2. simpl. eexists. split; [reflexivity|].
    intros S cases i tc e es' [Heq|Hin] Hnth Hcase He; apply in_or_app.
    + left. injection Heq as -> Hc. exact (Hin1 cases i tc e es' Hc Hnth Hcase He).
    + right. exact (Hin2 S cases i tc e es' Hin Hnth Hcase He).
Qed.

Lemma check_case_steps (section : string) (index : nat) (tc steps : value) :
  is_object_value tc = true ->
  get_prop tc "steps" = Ok steps ->
  truthy steps = false \/ steps = VArr [] ->
  exists es, check_case section index tc = Ok es /\ In (empty_steps section index) es.
Proof.
  intros Hobj Hsteps Hempty. unfold check_case.
  destruct (check_fields_object section index tc requiredFields Hobj)
    as (es & Hes & _).
  rewrite Hes. cbn [bind]. rewrite Hsteps. cbn [bind].
  assert (Hno : (if negb (truthy steps) then Ok true
                 else len <- length_prop steps ;; Ok (is_zero len)) = Ok true).
  { destruct Hempty as [->| ->]; reflexivity. }
  rewrite Hno. cbn [bind]. eexists. split; [reflexivity|].
  apply in_or_app. right. now left.
Qed.

Lemma nonempty_invalid (es : list string) (e : string) :
  In e es -> (List.length es =? 0)%nat = false.
Proof. destruct es; [intros []|reflexivity]. Qed.

End MoreValidator.

(** X13: what a valid verdict guarantees.  When [validateOutput] returns
    [isValid = true] on a set, each of the four required sections is an array
    of at least 3 cases, and every case of every array-valued entry of the
    set (required or not) has the eight required fields and a [steps] value
    that is truthy and not the empty array. *)
Theorem X13_valid_verdict_is_sound (set : object) (r : validation) :
  validateOutput (VObj set) = Ok r ->
  isValid r = true ->
  (forall S,
     In S requiredSections ->
     exists cases, obj_get set S = Some (VArr cases) /\ (3 <= List.length cases)%nat) /\
  (forall S cases tc,
     In (S, VArr cases) set -> In tc cases ->
     (forall F, In F requiredFields -> in_op F tc = Ok true) /\
     exists steps,
       get_prop tc "steps" = Ok steps /\ truthy steps = true /\ steps <> VArr []).
Proof.
  unfold validateOutput. intros H Hvalid.
  apply bind_ok_inv in H as (es1 & Hes1 & H).
  cbn [Object_entries bind] in H.
  apply bind_ok_inv in H as (es2 & Hes2 & H).
  injection H as <-. cbn [isValid] in Hvalid.
  apply length_zero_iff, app_eq_nil in Hvalid as [-> ->].
  split.
  - exact (check_sections_nil _ _ Hes1).
  - intros S cases tc HS Htc.
    destruct (check_entries_nil _ Hes2 S cases tc HS Htc) as (i & Hi).
    exact (check_case_nil _ _ _ Hi).
Qed.

Lemma X13_witness :
  exists r,
    validateOutput (VObj sample_set) = Ok r /\
    isValid r = true /\
    (forall S,
       In S requiredSections ->
       exists cases,
         obj_get sample_set S = Some (VArr cases) /\ (3 <= List.length cases)%nat) /\
    (forall S cases tc,
       In (S, VArr cases) sample_set -> In tc cases ->
       (forall F, In F requiredFields -> in_op F tc = Ok true) /\
       exists steps,
         get_prop tc "steps" = Ok steps /\ truthy steps = true /\ steps <> VArr []).
Proof.
  exists {| isValid := true; errors := [] |}.
  assert (Hrun : validateOutput (VObj sample_set) = Ok {| isValid := true; errors := [] |})
    by reflexivity.
  split; [exact Hrun|]. split; [reflexivity|].
  exact (X13_valid_verdict_is_sound sample_set _ Hrun eq_refl).
Defined.

(** X14: a set of the four sections, each holding at least 3 cases that
    carry the eight required fields and a non-empty array of steps, is
    valid: the validator returns [isValid = true] and no error. *)
Theorem X14_three_complete_cases_per_section_is_valid
    (positive negative boundary edge : list value) :
  all_complete positive -> all_complete negative ->
  all_complete boundary -> all_complete edge ->
  (3 <= List.length positive)%nat -> (3 <= List.length negative)%nat ->
  (3 <= List.length boundary)%nat -> (3 <= List.length edge)%nat ->
  validateOutput (test_cases positive negative boundary edge) =
  Ok {| isValid := true; errors := [] |}.
Proof.
  intros HP HN HB HE LP LN LB LE.
  rewrite (validateOutput_complete _ _ _ _ HP HN HB HE). unfold short_if.
  apply Nat.ltb_ge in LP, LN, LB, LE. rewrite LP, LN, LB, LE. reflexivity.
Qed.

Lemma X14_witness :
  validateOutput (VObj sample_set) = Ok {| isValid := true; errors := [] |}.
Proof.
  apply (X14_three_complete_cases_per_section_is_valid
           [sample_case "A1"; sample_case "A2"; sample_case "A3"]
           [sample_case "B1"; sample_case "B2"; sample_case "B3"]
           [sample_case "C1"; sample_case "C2"; sample_case "C3"]
           [sample_case "D1"; sample_case "D2"; sample_case "D3"]);
    try (repeat constructor); simpl; lia.
Defined.

(** X15: the section rule.  For every set whose array sections hold objects
    and every required section [S]: when [S] is absent from the set or is
    not an array, the errors hold "Missing or invalid section: S"; when it is
    an array of fewer than 3 cases, they hold "Section S has less than 3
    test cases"; in both cases [isValid] is false. *)
Theorem X15_section_rule (set : object) (S : string) :
  sections_hold_objects set ->
  In S requiredSections ->
  exists r,
    validateOutput (VObj set) = Ok r /\
    match obj_get set S with
    | Some (VArr cases) =>
        (List.length cases < 3)%nat ->
        In ("Section " ++ S ++ " has less than 3 test cases") (errors r) /\
        isValid r = false
    | _ =>
        In ("Missing or invalid section: " ++ S) (errors r) /\
        isValid r = false
    end.
Proof.
  intros Hset HS. unfold validateOutput.
  destruct (check_sections_object set requiredSections) as (es1 & Hes1).
  destruct (check_entries_objects set Hset) as (es2 & Hes2 & _).
  rewrite Hes1. cbn [bind Object_entries]. rewrite Hes2. cbn [bind].
  eexists. split; [reflexivity|]. cbn [isValid errors].
  pose proof (check_sections_in _ _ _ Hes1 S HS) as Hin.
  destruct (obj_get set S) as [[| | | | |cases|]|];
    try (split; [apply in_or_app; left; exact Hin
                |apply (nonempty_invalid _ (missing_section S));
                 apply in_or_app; left; exact Hin]).
  intros Hlt. specialize (Hin Hlt).
  split; [apply in_or_app; left; exact Hin|].
  apply (nonempty_invalid _ (short_section S)). apply in_or_app. now left.
Qed.

Lemma X15_witness :
  sections_hold_objects [("positive", VArr []); ("negative", VStr "none")] /\
  In "negative" requiredSections /\
  exists r,
    validateOutput (VObj [("positive", VArr []); ("negative", VStr "none")]) = Ok r /\
    In "Missing or invalid section: negative" (errors r) /\
    isValid r = false.
Proof.
  assert (Hset : sections_hold_objects
    [("positive", VArr []); ("negative", VStr "none")]).
  { intros section cases [Heq|[Heq|[]]]; [|discriminate Heq].
    injection Heq as <- <-. constructor. }
  assert (HS : In "negative" requiredSections) by (simpl; tauto).
  split; [exact Hset|]. split; [exact HS|].
  exact (X15_section_rule _ "negative" Hset HS).
Defined.

(** X16: the steps rule.  For every set whose array sections hold objects,
    a case at index [i] of an array-valued entry [S] whose [steps] is absent,
    falsy or the empty array puts "Section S, case i+1: Steps array is
    empty" among the errors, and [isValid] is false. *)
Theorem X16_steps_rule (set : object) (S : string) (cases : list value)
    (i : nat) (tc steps : value) :
  sections_hold_objects set ->
  In (S, VArr cases) set ->
  nth_error cases i = Some tc ->
  get_prop tc "steps" = Ok steps ->
  truthy steps = false \/ steps = VArr [] ->
  exists r,
    validateOutput (VObj set) = Ok r /\
    In ("Section " ++ S ++ ", case " ++ string_of_nat (i + 1) ++
        ": Steps array is empty") (errors r) /\
    isValid r = false.
Proof.
  intros Hset HS Hnth Hsteps Hempty. unfold validateOutput.
  destruct (check_sections_object set requiredSections) as (es1 & Hes1).
  destruct (check_entries_lift set Hset) as (es2 & Hes2 & Hlift).
  rewrite Hes1. cbn [bind Object_entries]. rewrite Hes2. cbn [bind].
  eexists. split; [reflexivity|]. cbn [isValid errors].
  assert (Hobj : is_object_value tc = true).
  { pose proof (Hset S cases HS) as Hall.
    exact (proj1 (Forall_forall _ _) Hall tc (nth_error_In _ _ Hnth)). }
  destruct (check_case_steps S i tc steps Hobj Hsteps Hempty) as (es' & Hcase & Hin).
  assert (Hres : In (empty_steps S i) (es1 ++ es2)).
  { apply in_or_app. right. exact (Hlift S cases i tc _ es' HS Hnth Hcase Hin). }
  split; [exact Hres|exact (nonempty_invalid _ _ Hres)].
Qed.

Lemma X16_witness :
  exists r,
    validateOutput
      (VObj [("edge", VArr [sample_case "E1"; VObj [("id", VStr "E2"); ("steps", VArr [])]])])
      = Ok r /\
    In "Section edge, case 2: Steps array is empty" (errors r) /\
    isValid r = false.
Proof.
  apply (X16_steps_rule
           [("edge", VArr [sample_case "E1"; VObj [("id", VStr "E2"); ("steps", VArr [])]])]
           "edge"
           [sample_case "E1"; VObj [("id", VStr "E2"); ("steps", VArr [])]]
           1%nat (VObj [("id", VStr "E2"); ("steps", VArr [])]) (VArr [])).
  - intros section cases [Heq|[]]. injection Heq as <- <-. repeat constructor.
  - now left.
  - reflexivity.
  - reflexivity.
  - now right.
Defined.

(** ** The spreadsheet rows *)

Section ExportRows.

Lemma excel_row_object (section : string) (tc : value) :
  is_object_value tc = true ->
  steps_printable tc = true ->
  exists row,
    excel_row section tc = Ok row /\
    List.length row = 9%nat /\
    nth 0 row VUndefined = or_else (prop_of "id" tc) (VStr "") /\
    nth 8 row VUndefined = VStr (capitalize section).
Proof.
  intros Hobj Hsteps. unfold excel_row, steps_printable, prop_of in *.
  assert (Hget : forall k, exists x, get_prop tc k = Ok x).
  { intros k. destruct tc; try discriminate; simpl; [eexists; reflexivity|].
    destruct (obj_get props k); eexists; reflexivity. }
  destruct (Hget "steps") as (steps & Hs). rewrite Hs in Hsteps.
  destruct (Hget "id") as (id & ->), (Hget "title") as (title & ->),
    (Hget "type") as (type & ->), (Hget "priority") as (priority & ->),
    (Hget "precondition") as (precondition & ->),
    (Hget "expected_result") as (expected & ->),
    (Hget "test_data") as (data & ->).
  rewrite Hs. cbn [bind].
  assert (Hjoined : exists joined,
    match steps with
    | VArr l => lines <- Array_join newline l ;; Ok (VStr lines)
    | _ => Ok (or_else steps (VStr ""))
    end = Ok joined).
  { destruct steps as [| | | | |l|]; try (eexists; reflexivity).
    destruct (Array_join_printable newline l Hsteps) as (lines & ->).
    eexists. reflexivity. }
  destruct Hjoined as (joined & ->).
  cbn [bind]. eexists. split; [reflexivity|]. repeat split.
Qed.

Lemma excel_rows_objects (section : string) (cases : list value) :
  Forall (fun tc => is_object_value tc = true /\ steps_printable tc = true) cases ->
  exists rows,
    excel_rows section cases = Ok rows /\
    List.length rows = List.length cases /\
    Forall (fun row => List.length row = 9%nat) rows /\
    map (fun row => nth 0 row VUndefined) rows =
      map (fun tc => or_else (prop_of "id" tc) (VStr "")) cases /\
    Forall (fun row => nth 8 row VUndefined = VStr (capitalize section)) rows.
Proof.
  induction 1 as [|tc cases Htc _ (rows & Hrows & Hlen & Hwidth & Hids & Hsec)];
    cbn [excel_rows].
  - exists []. repeat split; constructor.
  - destruct (excel_row_object section tc (proj1 Htc) (proj2 Htc))
      as (row & Hrow & Hl & Hid & Hs).
    rewrite Hrow, Hrows. cbn [bind]. eexists. split; [reflexivity|].
    cbn [List.length map]. rewrite Hlen, Hid, Hids.
    repeat split; constructor; assumption.
Qed.

(** The rows of the sections, given what each section contributes. *)
Lemma excel_sections_objects (set : object) :
  sections_hold_rows set ->
  forall sections,
  exists rows,
    excel_sections (VObj set) sections = Ok rows /\
    List.length rows = list_sum (map (section_count set) sections) /\
    Forall (fun row => List.length row = 9%nat) rows /\
    map (fun row => nth 0 row VUndefined) rows =
      flat_map (fun section =>
                  match obj_get set section with
                  | Some (VArr cases) =>
                      map (fun tc => or_else (prop_of "id" tc) (VStr "")) cases
                  | _ => []
                  end) sections.
Proof.
  intros Hset sections.
  induction sections as [|s sections (rows & Hrows & Hlen & Hwidth & Hids)];
    cbn [excel_sections].
  - exists []. repeat split; constructor.
  - rewrite get_prop_object. cbn [bind]. unfold prop, section_count.
    cbn [map list_sum flat_map]. fold (section_count set).
    destruct (obj_get set s) as [v|] eqn:Hs.
    + destruct v as [| |b|n|str|cases|o];
        try (cbn; rewrite Hrows; cbn [bind]; exists rows;
             rewrite ?app_nil_l; repeat split; assumption);
        try (destruct b; cbn; rewrite Hrows; cbn [bind]; exists rows;
             repeat split; assumption);
        try (cbn; destruct (negb (num_is_zero n)); cbn; rewrite Hrows;
             cbn [bind]; exists rows; repeat split; assumption);
        try (cbn; destruct (negb (str =? "")); cbn; rewrite Hrows;
             cbn [bind]; exists rows; repeat split; assumption).
      assert (Hin : In (s, VArr cases) set).
      { clear - Hs. induction set as [|[k v] set IH]; [discriminate|].
        simpl in Hs. destruct (String.eqb_spec k s) as [->|Hne].
        - injection Hs as ->. now left.
        - right. exact (IH Hs). }
      destruct (excel_rows_objects s cases (Hset s cases Hin))
        as (here & Hhere & Hl & Hw & Hi & _).
      cbn [truthy Array_isArray andb]. rewrite Hhere, Hrows. cbn [bind].
      eexists. split; [reflexivity|].
      rewrite length_app, map_app, Hl, Hlen, Hi, Hids.
      repeat split. apply Forall_app. split; assumption.
    + cbn. rewrite Hrows. cbn [bind]. exists rows. repeat split; assumption.
Qed.

Lemma append_nonempty (a : string) (c : ascii) (b : string) :
  truthy (VStr (a ++ String c b)) = true.
Proof. destruct a; reflexivity. Qed.

(** A row is built only for a case whose steps can be joined. *)
Lemma excel_row_steps (section : string) (tc : value) (row : list value) :
  excel_row section tc = Ok row -> steps_printable tc = true.
Proof.
  unfold excel_row. intros H.
  do 5 (apply bind_ok_inv in H as (? & _ & H)).
  apply bind_ok_inv in H as (steps & Hsteps & H).
  do 2 (apply bind_ok_inv in H as (? & _ & H)).
  apply bind_ok_inv in H as (joined & Hjoined & _).
  unfold steps_printable, prop_of. rewrite Hsteps.
  destruct steps as [| | | | |l|]; try reflexivity.
  apply bind_ok_inv in Hjoined as (lines & Hlines & _).
  pose proof (Array_join_cases newline l) as Hl. now rewrite Hlines in Hl.
Qed.

Lemma excel_rows_steps (section : string) (cases : list value) :
  forall rows,
    excel_rows section cases = Ok rows ->
    Forall (fun tc => steps_printable tc = true) cases.
Proof.
  induction cases as [|tc cases IH]; cbn [excel_rows]; intros rows H;
    [constructor|].
  apply bind_ok_inv in H as (row & Hrow & H).
  apply bind_ok_inv in H as (more & Hmore & _).
  constructor; [exact (excel_row_steps _ _ _ Hrow)|exact (IH _ Hmore)].
Qed.

Lemma excel_sections_steps (set : object) (sections : list string) :
  forall rows,
    excel_sections (VObj set) sections = Ok rows ->
    forall S cases,
      In S sections -> obj_get set S = Some (VArr cases) ->
      Forall (fun tc => steps_printable tc = true) cases.
Proof.
  induction sections as [|s sections IH]; cbn [excel_sections];
    intros rows H S cases HS Hcases; [destruct HS|].
  rewrite get_prop_object in H. cbn [bind] in H.
  apply bind_ok_inv in H as (here & Hhere & H).
  apply bind_ok_inv in H as (more & Hmore & _).
  destruct HS as [->|HS]; [|exact (IH _ Hmore S cases HS Hcases)].
  unfold prop in Hhere. rewrite Hcases in Hhere.
  exact (excel_rows_steps _ _ _ Hhere).
Qed.

Ltac excel_errors :=
  repeat first
    [ apply only_type_errors_ok
    | apply only_type_errors_get_prop
    | apply only_type_errors_join
    | apply only_type_errors_bind; [|intros ? _] ].

Lemma only_type_errors_excel_row (section : string) (tc : value) :
  only_type_errors (excel_row section tc).
Proof.
  unfold excel_row. excel_errors.
  match goal with |- context [match ?v with _ => _ end] => destruct v end;
    excel_errors.
Qed.

Lemma only_type_errors_excel_rows (section : string) (cases : list value) :
  only_type_errors (excel_rows section cases).
Proof.
  induction cases as [|tc cases IH]; cbn [excel_rows].
  - apply only_type_errors_ok.
  - apply only_type_errors_bind; [apply only_type_errors_excel_row|intros ? _].
    apply only_type_errors_bind; [exact IH|intros ? _]. apply only_type_errors_ok.
Qed.

Lemma only_type_errors_excel_sections (testCases : value) (sections : list string) :
  only_type_errors (excel_sections testCases sections).
Proof.
  induction sections as [|s sections IH]; cbn [excel_sections].
  - apply only_type_errors_ok.
  - apply only_type_errors_bind; [apply only_type_errors_get_prop|intros v _].
    apply only_type_errors_bind.
    + destruct (truthy v && Array_isArray v); [|apply only_type_errors_ok].
      destruct v; try apply only_type_errors_ok. apply only_type_errors_excel_rows.
    + intros ? _. apply only_type_errors_bind; [exact IH|intros ? _].
      apply only_type_errors_ok.
Qed.

(** With a case whose steps cannot be joined in a required section the
    rows are never completed: building them throws a TypeError. *)
Lemma excelData_unprintable (set : object) (S : string) (cases : list value)
    (tc : value) (l : list value) :
  In S requiredSections ->
  obj_get set S = Some (VArr cases) ->
  In tc cases ->
  get_prop tc "steps" = Ok (VArr l) ->
  forallb printable l = false ->
  excelData (VObj set) = Throw TypeError.
Proof.
  intros HS Hcases Htc Hsteps Hl. unfold excelData.
  destruct (excel_sections (VObj set) requiredSections) as [rows|e] eqn:Hrows.
  - pose proof (excel_sections_steps _ _ _ Hrows S cases HS Hcases) as Hall.
    pose proof (proj1 (Forall_forall _ _) Hall tc Htc) as Hp.
    unfold steps_printable, prop_of in Hp. rewrite Hsteps in Hp. congruence.
  - cbn [bind]. destruct e as [|message]; [reflexivity|].
    now destruct (only_type_errors_excel_sections (VObj set) requiredSections message).
Qed.

End ExportRows.

Section ExportOfGenerated.

Lemma printable_strings (l : list string) : forallb printable (map VStr l) = true.
Proof. induction l as [|x l IH]; [reflexivity|exact IH]. Qed.

(** A synthesized case is an object whose steps are strings. *)
Lemma test_case_row (id title type precondition : string) (steps : list string)
    (expected_result : string) (test_data : value) (priority : string) :
  is_object_value
    (test_case id title type precondition steps expected_result test_data priority)
    = true /\
  steps_printable
    (test_case id title type precondition steps expected_result test_data priority)
    = true.
Proof. split; [reflexivity|]. apply printable_strings. Qed.

Ltac rows_of_cases H :=
  repeat (apply bind_ok_inv in H as (? & _ & H));
  injection H as <-;
  do 4 eexists; split; [reflexivity|];
  repeat (apply Forall_cons; [apply test_case_row|]); apply Forall_nil.

Lemma generated_cases_rows (input tcs : value) :
  generateTestCases input = Ok tcs ->
  exists positive negative boundary edge,
    tcs = test_cases positive negative boundary edge /\
    Forall (fun tc => is_object_value tc = true /\ steps_printable tc = true)
      (positive ++ negative ++ boundary ++ edge).
Proof.
  unfold generateTestCases. intros H.
  apply bind_ok_inv in H as (baseId & _ & H).
  apply bind_ok_inv in H as (type & _ & H).
  destruct (is_string type "api").
  { unfold generateApiTestCases in H. rows_of_cases H. }
  destruct (is_string type "user_story").
  { unfold generateUserStoryTestCases in H. rows_of_cases H. }
  destruct (is_string type "raw_text");
    [|now apply unsupported_type_throws in H].
  unfold generateRawTextTestCases in H. rows_of_cases H.
Qed.

Lemma test_cases_hold_rows (positive negative boundary edge : list value) :
  Forall (fun tc => is_object_value tc = true /\ steps_printable tc = true)
    (positive ++ negative ++ boundary ++ edge) ->
  sections_hold_rows
    [("positive", VArr positive); ("negative", VArr negative);
     ("boundary", VArr boundary); ("edge", VArr edge)].
Proof.
  intros Hall section cases Hin.
  apply Forall_app in Hall as [HP Hall].
  apply Forall_app in Hall as [HN Hall].
  apply Forall_app in Hall as [HB HE].
  repeat (destruct Hin as [Heq|Hin]; [injection Heq as <- <-; assumption|]).
  destruct Hin.
Qed.

Lemma labelled_id_truthy (baseId suffix type : string) (tc : value) :
  case_labelled baseId suffix type tc ->
  suffix <> "" ->
  truthy (prop_of "id" tc) = true.
Proof.
  intros Hl Hs. rewrite (prop_of_id _ _ _ _ Hl).
  destruct suffix as [|c suffix]; [now destruct Hs|apply append_nonempty].
Qed.

Lemma generated_ids_truthy (input : value)
    (positive negative boundary edge : list value) :
  generateTestCases input = Ok (test_cases positive negative boundary edge) ->
  Forall (fun tc => truthy (prop_of "id" tc) = true)
    (positive ++ negative ++ boundary ++ edge).
Proof.
  intros H.
  destruct (generateTestCases_labels _ _ H)
    as (baseId & P & N & B & E & _ & Heq & (p & -> & Hp) & Hrest).
  injection Heq as -> -> -> ->.
  destruct Hrest as [(n & b & e & -> & -> & -> & Hn & Hb & He)
                    |(n1 & n2 & b1 & b2 & e1 & e2 & -> & -> & -> &
                      H1 & H2 & H3 & H4 & H5 & H6)];
    simpl; repeat constructor;
    eapply labelled_id_truthy; try eassumption; discriminate.
Qed.

End ExportOfGenerated.

(** X17: for every set whose array sections hold objects with steps that can
    be joined (no array of steps holds an object with a [toString] property
    of its own), [exportToExcel] builds the header row and then one row for
    each case of the sections positive, negative, boundary and edge, in that
    order and of no other entry of the set; every row has nine cells; and
    when the write succeeds the [total_cases] it reports is the number of
    those cases, while a failing write is returned as a failure result.
    When a case of one of the four sections has an array of steps that
    cannot be joined, nothing is written and the result is the failure of a
    TypeError. *)
Theorem X17_export_rows
    (write : list (list value) -> value -> result nat)
    (set : object) (path : value) :
  (sections_hold_rows set ->
   exists rows,
     excelData (VObj set) = Ok (excel_header :: rows) /\
     Forall (fun row => List.length row = 9%nat) (excel_header :: rows) /\
     List.length rows =
       (section_count set "positive" + section_count set "negative" +
        section_count set "boundary" + section_count set "edge")%nat /\
     exportToExcel write (VObj set) path =
       match write (excel_header :: rows) path with
       | Ok size => Exported path (List.length rows) size
       | Throw e => ExportFailed e
       end) /\
  (forall S cases tc l,
     In S requiredSections ->
     obj_get set S = Some (VArr cases) ->
     In tc cases ->
     get_prop tc "steps" = Ok (VArr l) ->
     forallb printable l = false ->
     exportToExcel write (VObj set) path = ExportFailed TypeError).
Proof.
  split.
  - intros Hset.
    destruct (excel_sections_objects set Hset requiredSections)
      as (rows & Hrows & Hlen & Hwidth & _).
    exists rows. unfold exportToExcel, excelData. rewrite Hrows. cbn [bind].
    split; [reflexivity|]. split; [constructor; [reflexivity|exact Hwidth]|].
    split; [rewrite Hlen; simpl; lia|].
    destruct (write (excel_header :: rows) path); cbn [bind List.length];
      [f_equal; lia|reflexivity].
  - intros S cases tc l HS Hcases Htc Hsteps Hl. unfold exportToExcel.
    rewrite (excelData_unprintable set S cases tc l HS Hcases Htc Hsteps Hl).
    reflexivity.
Qed.

Lemma X17_witness :
  sections_hold_rows sample_set /\
  exists rows,
    excelData (VObj sample_set) = Ok (excel_header :: rows) /\
    Forall (fun row => List.length row = 9%nat) (excel_header :: rows) /\
    List.length rows =
      (section_count sample_set "positive" + section_count sample_set "negative" +
       section_count sample_set "boundary" + section_count sample_set "edge")%nat /\
    exportToExcel (fun _ _ => Ok 512%nat) (VObj sample_set) (VStr "./cases.xlsx") =
      Exported (VStr "./cases.xlsx") (List.length rows) 512.
Proof.
  assert (Hset : sections_hold_rows sample_set).
  { intros section cases Hin.
    repeat (destruct Hin as [Heq|Hin];
            [injection Heq as <- <-; repeat constructor|]).
    destruct Hin. }
  split; [exact Hset|].
  exact (proj1 (X17_export_rows (fun _ _ => Ok 512%nat) sample_set
                  (VStr "./cases.xlsx")) Hset).
Defined.

(** X18: the spreadsheet of a generated set.  Whatever set the synthesizer
    returns, [exportToExcel] builds for it exactly one row per generated
    case, in the order of the sections, and the first cell of each row is the
    id of its case. *)
Theorem X18_export_lists_generated_cases (input tcs : value) :
  generateTestCases input = Ok tcs ->
  exists positive negative boundary edge rows,
    tcs = test_cases positive negative boundary edge /\
    excelData tcs = Ok (excel_header :: rows) /\
    List.length rows = List.length (positive ++ negative ++ boundary ++ edge)%list /\
    map (fun row => nth 0 row VUndefined) rows =
      ids_of (positive ++ negative ++ boundary ++ edge).
Proof.
  intros H.
  destruct (generated_cases_rows _ _ H) as (P & N & B & E & -> & Hall).
  pose proof (generated_ids_truthy _ _ _ _ _ H) as Hids.
  pose proof (test_cases_hold_rows _ _ _ _ Hall) as Hset.
  destruct (excel_sections_objects _ Hset requiredSections)
    as (rows & Hrows & Hlen & _ & Hcol).
  exists P, N, B, E, rows. split; [reflexivity|].
  unfold excelData, test_cases. rewrite Hrows. cbn [bind].
  split; [reflexivity|]. split.
  - rewrite Hlen. cbn. rewrite !length_app. lia.
  - rewrite Hcol. cbn. rewrite app_nil_r, <- !map_app. unfold ids_of.
    apply map_ext_in. intros tc Htc.
    pose proof (proj1 (Forall_forall _ _) Hids tc Htc) as Ht.
    unfold or_else. now rewrite Ht.
Qed.

Lemma X18_witness :
  exists tcs,
    generateTestCases login_request_api = Ok tcs /\
    exists positive negative boundary edge rows,
      tcs = test_cases positive negative boundary edge /\
      excelData tcs = Ok (excel_header :: rows) /\
      List.length rows = List.length (positive ++ negative ++ boundary ++ edge)%list /\
      map (fun row => nth 0 row VUndefined) rows =
        ids_of (positive ++ negative ++ boundary ++ edge).
Proof.
  destruct (generateTestCases_api _ api_variant_login_request) as (tcs & Hrun & _).
  exists tcs. split; [exact Hrun|].
  exact (X18_export_lists_generated_cases _ _ Hrun).
Defined.

(** ** The automation templater *)

Section AutomationLemmas.

Lemma generatePlaywrightTest_throws
    (id title steps expectedResult testData type baseUrl : value) :
  exists e,
    generatePlaywrightTest id title steps expectedResult testData type baseUrl =
    Throw e.
Proof. destruct title; eexists; reflexivity. Qed.

Lemma generateSingleTest_configured (tc baseUrl : value) :
  exists e,
    generateSingleTest tc (VStr "playwright") (VStr "javascript") baseUrl = Throw e.
Proof.
  unfold generateSingleTest.
  destruct tc as [| |b|n|s|l|o]; try (eexists; reflexivity).
  rewrite !get_prop_object. cbn [bind]. cbn [is_string].
  rewrite !String.eqb_refl. cbn [andb].
  apply generatePlaywrightTest_throws.
Qed.

Lemma generateSingleTest_titled (tc baseUrl : value) :
  titled tc ->
  generateSingleTest tc (VStr "playwright") (VStr "javascript") baseUrl =
  Throw (Error "testCase is not defined").
Proof.
  intros (o & title & -> & Htitle). unfold generateSingleTest.
  rewrite !get_prop_object. cbn [bind]. cbn [is_string].
  rewrite !String.eqb_refl. cbn [andb].
  unfold prop at 2. rewrite Htitle. reflexivity.
Qed.

Lemma automation_sections_throw (set : object) (S : string) (tc : value)
    (rest : list value) (baseUrl : value) :
  obj_get set S = Some (VArr (tc :: rest)) ->
  forall sections tests,
    In S sections ->
    exists e,
      automation_sections (VObj set) sections (VStr "playwright")
        (VStr "javascript") baseUrl tests = Throw e.
Proof.
  intros HS sections.
  induction sections as [|s sections IH]; intros tests Hin; [destruct Hin|].
  cbn [automation_sections]. rewrite get_prop_object. cbn [bind].
  destruct (String.eqb_spec s S) as [->|Hne].
  - unfold prop. rewrite HS. cbn [truthy Array_isArray andb map_tests].
    destruct (generateSingleTest_configured tc baseUrl) as (e & ->).
    exists e. reflexivity.
  - destruct Hin as [Heq|Hin]; [contradiction|].
    match goal with
    | |- exists e, bind ?m _ = _ => destruct m as [tests'|e]
    end.
    + cbn [bind]. apply IH, Hin.
    + exists e. reflexivity.
Qed.

Lemma automation_first_titled (tc : value) (rest : list value)
    (negative boundary edge : value) (baseUrl : value) :
  titled tc ->
  automation_sections
    (VObj [("positive", VArr (tc :: rest)); ("negative", negative);
           ("boundary", boundary); ("edge", edge)])
    requiredSections (VStr "playwright") (VStr "javascript") baseUrl empty_object =
  Throw (Error "testCase is not defined").
Proof.
  intros Htc. cbn [automation_sections requiredSections].
  rewrite get_prop_object. cbn.
  rewrite (generateSingleTest_titled tc baseUrl Htc). reflexivity.
Qed.

Ltac titled_case := do 2 eexists; split; reflexivity.

Lemma generated_first_titled (input tcs : value) :
  generateTestCases input = Ok tcs ->
  exists p negative boundary edge,
    tcs = test_cases [p] negative boundary edge /\ titled p.
Proof.
  unfold generateTestCases. intros H.
  apply bind_ok_inv in H as (baseId & _ & H).
  apply bind_ok_inv in H as (type & _ & H).
  destruct (is_string type "api").
  { unfold generateApiTestCases in H.
    repeat (apply bind_ok_inv in H as (? & _ & H)).
    injection H as <-. do 4 eexists. split; [reflexivity|titled_case]. }
  destruct (is_string type "user_story").
  { unfold generateUserStoryTestCases in H.
    repeat (apply bind_ok_inv in H as (? & _ & H)).
    injection H as <-. do 4 eexists. split; [reflexivity|titled_case]. }
  destruct (is_string type "raw_text");
    [|now apply unsupported_type_throws in H].
  unfold generateRawTextTestCases in H.
  repeat (apply bind_ok_inv in H as (? & _ & H)).
  injection H as <-. do 4 eexists. split; [reflexivity|titled_case].
Qed.

End AutomationLemmas.

Section AutomationRuns.

Lemma value_eq_null (v : value) : v = VNull \/ v <> VNull.
Proof. destruct v; (now left) || (right; discriminate). Qed.

Lemma automation_options (testCases options : value) :
  match options with VUndefined => VObj [] | _ => options end <> VNull ->
  generateAutomationTests testCases options =
  (let framework := option_or options "framework" "playwright" in
   let language := option_or options "language" "javascript" in
   let baseUrl := option_or options "baseUrl" "https://example.com" in
   let configured :=
     is_string framework "playwright" && is_string language "javascript" in
   tests <- automation_sections testCases requiredSections framework language
              baseUrl empty_object ;;
   Ok (VObj [("framework", framework);
             ("language", language);
             ("baseUrl", baseUrl);
             ("tests", VObj (own tests));
             ("setup", VStr (if configured then generatePlaywrightSetup else ""));
             ("dependencies",
              VArr (if configured then [VStr "@playwright/test"] else []))])).
Proof.
  intros Hnull. unfold generateAutomationTests, option_or, prop_of.
  destruct options as [| |b|n|s|l|o]; try reflexivity.
  - now destruct Hnull.
  - rewrite !get_prop_object. reflexivity.
Qed.

Lemma automation_null_options (testCases : value) :
  generateAutomationTests testCases VNull = Throw TypeError.
Proof. reflexivity. Qed.

Lemma map_tests_not_implemented (cases : list value) (framework language baseUrl : value)
    (f l : string) :
  is_string framework "playwright" && is_string language "javascript" = false ->
  ToString framework = Ok f ->
  ToString language = Ok l ->
  Forall (fun tc => is_object_value tc = true) cases ->
  map_tests cases framework language baseUrl =
  Ok (repeat (not_implemented f l) (List.length cases)).
Proof.
  intros Hconf Hf Hl.
  induction 1 as [|tc cases Htc _ IH]; cbn [map_tests]; [reflexivity|].
  assert (Hone : generateSingleTest tc framework language baseUrl =
                 Ok (not_implemented f l)).
  { unfold generateSingleTest.
    assert (Hget : forall k, exists x, get_prop tc k = Ok x).
    { intros k. destruct tc; try discriminate; simpl; [eexists; reflexivity|].
      destruct (obj_get props k); eexists; reflexivity. }
    destruct (Hget "id") as (? & ->), (Hget "title") as (? & ->),
      (Hget "steps") as (? & ->), (Hget "expected_result") as (? & ->),
      (Hget "test_data") as (? & ->), (Hget "type") as (? & ->).
    cbn [bind]. rewrite Hconf, Hf, Hl. reflexivity. }
  rewrite Hone, IH. reflexivity.
Qed.

Lemma obj_get_in (set : object) (S : string) (v : value) :
  obj_get set S = Some v -> In (S, v) set.
Proof.
  induction set as [|[k x] set IH]; [discriminate|].
  simpl. destruct (String.eqb_spec k S) as [->|Hne].
  - intros [= ->]. now left.
  - intros H. right. exact (IH H).
Qed.

Lemma in_dec_cons (S s : string) (sections : list string) :
  (if in_dec string_dec S (s :: sections) then true else false) =
  (S =? s) || (if in_dec string_dec S sections then true else false).
Proof.
  destruct (String.eqb_spec S s) as [->|Hne];
    destruct (in_dec string_dec _ (s :: sections)) as [Hin|Hout];
    destruct (in_dec string_dec _ sections) as [Hin'|Hout'];
    try reflexivity; exfalso.
  - apply Hout. now left.
  - apply Hout. now left.
  - destruct Hin as [->|Hin]; [now apply Hne|contradiction].
  - apply Hout. now right.
Qed.

Lemma automation_sections_not_implemented (set : object)
    (framework language baseUrl : value) (f l : string) :
  is_string framework "playwright" && is_string language "javascript" = false ->
  ToString framework = Ok f ->
  ToString language = Ok l ->
  sections_hold_objects set ->
  forall sections tests,
    NoDup sections ->
    ~ In "__proto__" sections ->
    exists final,
      automation_sections (VObj set) sections framework language baseUrl tests =
        Ok final /\
      forall S,
        obj_get (own final) S =
        match obj_get set S with
        | Some (VArr cases) =>
            if in_dec string_dec S sections
            then Some (VArr (repeat (not_implemented f l) (List.length cases)))
            else obj_get (own tests) S
        | _ => obj_get (own tests) S
        end.
Proof.
  intros Hconf Hf Hl Hset sections.
  induction sections as [|s sections IH]; intros tests Hnd Hproto.
  - exists tests. split; [reflexivity|]. intros S.
    destruct (obj_get set S) as [[]|]; reflexivity.
  - inversion Hnd as [|? ? Hnotin Hnd']; subst.
    assert (Hs : s <> "__proto__") by (intros ->; apply Hproto; now left).
    assert (Hproto' : ~ In "__proto__" sections)
      by (intros Hin; apply Hproto; now right).
    assert (Hskip : forall S (cases : list value),
      S <> s ->
      (if in_dec string_dec S (s :: sections)
       then Some (VArr (repeat (not_implemented f l) (List.length cases)))
       else obj_get (own tests) S) =
      (if in_dec string_dec S sections
       then Some (VArr (repeat (not_implemented f l) (List.length cases)))
       else obj_get (own tests) S)).
    { intros S cases Hne. pose proof (in_dec_cons S s sections) as Hd.
      apply String.eqb_neq in Hne. rewrite Hne in Hd. cbn [orb] in Hd.
      destruct (in_dec string_dec S (s :: sections)),
        (in_dec string_dec S sections); try reflexivity; discriminate. }
    cbn [automation_sections]. rewrite get_prop_object. cbn [bind]. unfold prop.
    destruct (obj_get set s) as [v|] eqn:Hv.
    + destruct v as [| |b|n|str|cases|o].
      1-5, 7:
        (match goal with
         | |- context [if ?c then _ else _] =>
             replace (if c then _ else _) with (@Ok instance tests)
               by (destruct c; reflexivity)
         end;
         cbn [bind]; destruct (IH tests Hnd' Hproto') as (final & Hrun & Hget);
         exists final; split; [exact Hrun|];
         intros S; rewrite Hget;
         destruct (obj_get set S) as [[| | | | |cases'|]|] eqn:HS; try reflexivity;
         symmetry; apply Hskip; congruence).
      cbn [truthy Array_isArray andb].
      rewrite (map_tests_not_implemented cases framework language baseUrl f l
                 Hconf Hf Hl (Hset s cases (obj_get_in _ _ _ Hv))).
      cbn [bind].
      destruct (IH (obj_assign s
                      (VArr (repeat (not_implemented f l) (List.length cases)))
                      tests) Hnd' Hproto')
        as (final & Hrun & Hget).
      exists final. split; [exact Hrun|].
      intros S. rewrite Hget, (obj_get_assign _ _ _ _ Hs).
      destruct (String.eqb_spec S s) as [->|Hne].
      * rewrite Hv.
        destruct (in_dec string_dec s sections) as [Hin|_]; [contradiction|].
        destruct (in_dec string_dec s (s :: sections)) as [_|Hout];
          [reflexivity|exfalso; apply Hout; now left].
      * destruct (obj_get set S) as [[| | | | |cases'|]|] eqn:HS; try reflexivity.
        symmetry. now apply Hskip.
    + cbn [truthy andb bind]. destruct (IH tests Hnd' Hproto') as (final & Hrun & Hget).
      exists final. split; [exact Hrun|].
      intros S. rewrite Hget.
      destruct (obj_get set S) as [[| | | | |cases'|]|] eqn:HS; try reflexivity.
      symmetry. apply Hskip. congruence.
Qed.

End AutomationRuns.

(** X19: with the framework playwright and the language javascript (the
    defaults), [generateAutomationTests] produces no test: on every set in
    which a required section is a non-empty array it throws, because
    [generatePlaywrightTest] reads an identifier, [testCase], that nothing
    declares.  On every set the synthesizer returns, and with options that
    are not [null], the exception is the ReferenceError "testCase is not
    defined". *)
Theorem X19_playwright_generation_always_throws :
  (forall (set : object) (options : value) (S : string) (tc : value)
          (rest : list value),
     option_or options "framework" "playwright" = VStr "playwright" ->
     option_or options "language" "javascript" = VStr "javascript" ->
     In S requiredSections ->
     obj_get set S = Some (VArr (tc :: rest)) ->
     exists e, generateAutomationTests (VObj set) options = Throw e) /\
  (forall (input tcs options : value),
     generateTestCases input = Ok tcs ->
     option_or options "framework" "playwright" = VStr "playwright" ->
     option_or options "language" "javascript" = VStr "javascript" ->
     options <> VNull ->
     generateAutomationTests tcs options =
     Throw (Error "testCase is not defined")).
Proof.
  split.
  - intros set options S tc rest Hf Hl HS Hset.
    destruct (value_eq_null options) as [->|Hnull].
    { exists TypeError. reflexivity. }
    rewrite automation_options
      by (destruct options; try discriminate; now try apply Hnull).
    cbv zeta. rewrite Hf, Hl.
    destruct (automation_sections_throw set S tc rest
                (option_or options "baseUrl" "https://example.com") Hset
                requiredSections empty_object HS) as (e & ->).
    exists e. reflexivity.
  - intros input tcs options Hrun Hf Hl Hnull.
    destruct (generated_first_titled _ _ Hrun) as (p & N & B & E & -> & Hp).
    rewrite automation_options
      by (destruct options; try discriminate; now try apply Hnull).
    cbv zeta. rewrite Hf, Hl. unfold test_cases.
    rewrite (automation_first_titled p [] (VArr N) (VArr B) (VArr E) _ Hp).
    reflexivity.
Qed.

Lemma X19_witness :
  exists tcs,
    generateTestCases login_request_api = Ok tcs /\
    generateAutomationTests tcs (VObj [("baseUrl", VStr "https://shop.test")]) =
    Throw (Error "testCase is not defined").
Proof.
  destruct (generateTestCases_api _ api_variant_login_request) as (tcs & Hrun & _).
  exists tcs. split; [exact Hrun|].
  apply (proj2 X19_playwright_generation_always_throws login_request_api tcs
           (VObj [("baseUrl", VStr "https://shop.test")]) Hrun);
    [reflexivity|reflexivity|discriminate].
Defined.

(** X20: with any other framework or language nothing is generated either:
    for every set whose array sections hold objects, and a framework and a
    language that a template literal can print, [generateAutomationTests]
    returns an empty setup and no dependency, and its tests hold, for each
    required section that is an array, one copy per case of the comment
    "// Test generation not implemented for <framework> with <language>";
    a required section that is not an array gets no entry. *)
Theorem X20_other_frameworks_yield_comments (set : object) (options : value)
    (framework language : string) :
  options <> VNull ->
  is_string (option_or options "framework" "playwright") "playwright" &&
  is_string (option_or options "language" "javascript") "javascript" = false ->
  ToString (option_or options "framework" "playwright") = Ok framework ->
  ToString (option_or options "language" "javascript") = Ok language ->
  sections_hold_objects set ->
  exists tests,
    generateAutomationTests (VObj set) options =
    Ok (VObj [("framework", option_or options "framework" "playwright");
              ("language", option_or options "language" "javascript");
              ("baseUrl", option_or options "baseUrl" "https://example.com");
              ("tests", VObj tests);
              ("setup", VStr "");
              ("dependencies", VArr [])]) /\
    forall S,
      In S requiredSections ->
      obj_get tests S =
      match obj_get set S with
      | Some (VArr cases) =>
          Some (VArr (repeat
                        (VStr ("// Test generation not implemented for " ++
                               framework ++ " with " ++ language))
                        (List.length cases)))
      | _ => None
      end.
Proof.
  intros Hnull Hconf Hf Hl Hset.
  rewrite automation_options
    by (destruct options; try discriminate; now try apply Hnull).
  cbv zeta. rewrite Hconf.
  assert (Hnd : NoDup requiredSections)
    by (repeat constructor; simpl; intuition discriminate).
  assert (Hproto : ~ In "__proto__" requiredSections)
    by (simpl; intuition discriminate).
  destruct (automation_sections_not_implemented set _ _
              (option_or options "baseUrl" "https://example.com") framework language
              Hconf Hf Hl Hset requiredSections empty_object Hnd Hproto)
    as (tests & -> & Hget).
  exists (own tests). split; [reflexivity|].
  intros S HS. rewrite Hget.
  destruct (obj_get set S) as [[| | | | |cases|]|]; try reflexivity.
  destruct (in_dec string_dec S requiredSections); [reflexivity|contradiction].
Qed.

Lemma X20_witness :
  exists tests,
    generateAutomationTests (VObj sample_set) (VObj [("framework", VStr "cypress")]) =
    Ok (VObj [("framework", VStr "cypress");
              ("language", VStr "javascript");
              ("baseUrl", VStr "https://example.com");
              ("tests", VObj tests);
              ("setup", VStr "");
              ("dependencies", VArr [])]) /\
    obj_get tests "edge" =
    Some (VArr (repeat
                  (VStr "// Test generation not implemented for cypress with javascript")
                  3)).
Proof.
  destruct (X20_other_frameworks_yield_comments sample_set
              (VObj [("framework", VStr "cypress")]) "cypress" "javascript")
    as (tests & Hrun & Hget).
  - discriminate.
  - reflexivity.
  - reflexivity.
  - reflexivity.
  - intros section cases Hin.
    repeat (destruct Hin as [Heq|Hin];
            [injection Heq as <- <-; repeat constructor|]).
    destruct Hin.
  - exists tests. split; [exact Hrun|].
    apply (Hget "edge"). simpl. tauto.
Defined.

(** ** File types *)

(** X21: [detectFileType] decides by the extension alone, compared without
    regard to case, whenever it is one of the ten it knows: the content of
    the file is then ignored and the type is one of markdown, text, json,
    yaml, word and pdf.  Only for another extension is the content
    consulted, and the type is [user_story] only if the content includes
    each of "As a", "I want" and "So that" with these capitals. *)
Theorem X21_known_extension_decides :
  (forall extension content1 content2,
     In (Str.toLowerCase extension) known_extensions ->
     detectFileType extension content1 = detectFileType extension content2 /\
     In (detectFileType extension content1)
        ["markdown"; "text"; "json"; "yaml"; "word"; "pdf"]) /\
  (forall extension content,
     detectFileType extension content = "user_story" ->
     ~ In (Str.toLowerCase extension) known_extensions /\
     Str.includes content "As a" = true /\
     Str.includes content "I want" = true /\
     Str.includes content "So that" = true).
Proof.
  split.
  - intros extension c1 c2 Hin. unfold detectFileType. cbv zeta.
    unfold known_extensions in Hin. simpl in Hin.
    repeat (destruct Hin as [<-|Hin]; [split; [reflexivity|simpl; tauto]|]).
    destruct Hin.
  - intros extension content. unfold detectFileType. cbv zeta.
    set (ext := Str.toLowerCase extension).
    unfold known_extensions. cbn [existsb].
    destruct (String.eqb_spec ext ".md"); [discriminate|].
    destruct (String.eqb_spec ext ".markdown"); [discriminate|].
    destruct (String.eqb_spec ext ".txt"); [discriminate|].
    destruct (String.eqb_spec ext ".text"); [discriminate|].
    destruct (String.eqb_spec ext ".json"); [discriminate|].
    destruct (String.eqb_spec ext ".yml"); [discriminate|].
    destruct (String.eqb_spec ext ".yaml"); [discriminate|].
    destruct (String.eqb_spec ext ".doc"); [discriminate|].
    destruct (String.eqb_spec ext ".docx"); [discriminate|].
    destruct (String.eqb_spec ext ".pdf"); [discriminate|].
    cbn [orb].
    destruct (Str.includes content "As a"); cbn [andb];
      [|destruct (_ || _); discriminate].
    destruct (Str.includes content "I want"); cbn [andb];
      [|destruct (_ || _); discriminate].
    destruct (Str.includes content "So that"); cbn [andb];
      [|destruct (_ || _); discriminate].
    intros _. split; [|repeat split].
    simpl. intuition congruence.
Qed.

Lemma X21_witness :
  In (Str.toLowerCase ".MD") known_extensions /\
  detectFileType ".MD" "As a user I want this So that it works" = "markdown".
Proof.
  assert (H : In (Str.toLowerCase ".MD") known_extensions) by (simpl; tauto).
  split; [exact H|].
  destruct (proj1 X21_known_extension_decides ".MD"
              "As a user I want this So that it works" "" H) as [Heq _].
  rewrite Heq. reflexivity.
Defined.

(** ** API specifications given as text *)

(** X22: a string that parses to an object with a non-empty string for
    endpoint and a truthy method is classified [api], whatever other fields
    the object has: a [type] field inside the text is not looked at, since
    only an input that is itself an object is returned as it is.  When the
    method can be printed the tool succeeds with 7 cases; when it cannot (an
    object with a [toString] property of its own) the titles cannot be built
    and the tool fails with a TypeError. *)
Theorem X22_api_text_runs_as_api
    (JSON_parse : string -> option value) (s : string) (o : object)
    (endpoint : string) :
  JSON_parse s = Some (VObj o) ->
  obj_get o "endpoint" = Some (VStr endpoint) ->
  endpoint <> "" ->
  truthy (prop o "method") = true ->
  (normalized <- normalizeInput JSON_parse (VStr s) ;; get_prop normalized "type") =
    Ok (VStr "api") /\
  (printable (prop o "method") = true ->
   exists r,
     generate_test_cases JSON_parse (VStr s) = Ok r /\
     input_type r = VStr "api" /\
     total_cases (summary_of r) = 7%nat) /\
  (printable (prop o "method") = false ->
   generate_test_cases JSON_parse (VStr s) = Throw TypeError).
Proof.
  intros Hparse Hendpoint Hne Hmethod.
  assert (Hfields :
    field_truthy (parsed_of JSON_parse (VStr s)) "endpoint" &&
    field_truthy (parsed_of JSON_parse (VStr s)) "method" = true).
  { cbn [parsed_of]. rewrite Hparse. unfold field_truthy.
    rewrite !get_prop_object, Hmethod. unfold prop. rewrite Hendpoint.
    cbn [truthy]. apply String.eqb_neq in Hne. now rewrite Hne. }
  destruct (normalizeInput_api JSON_parse (VStr s) eq_refl Hfields)
    as (o' & Hparsed & Hnorm).
  cbn [parsed_of] in Hparsed. rewrite Hparse in Hparsed. injection Hparsed as <-.
  assert (He : prop o "endpoint" = VStr endpoint)
    by (unfold prop; now rewrite Hendpoint).
  rewrite He in Hnorm.
  split; [rewrite Hnorm; reflexivity|]. split.
  - intros Hprint.
    assert (Hapi : api_variant
      (VObj [("type", VStr "api"); ("endpoint", VStr endpoint);
             ("method", prop o "method");
             ("request",
              or_else (or_else (prop o "request") (prop o "parameters")) (VObj []));
             ("response", or_else (prop o "response") (VObj []))])).
    { split; [reflexivity|]. split; [exists endpoint; reflexivity|].
      exists (prop o "method"). split; [reflexivity|exact Hprint]. }
    destruct (generateTestCases_api _ Hapi) as (tcs & Hrun & baseId & Hgen).
    destruct (generateApiTestCases_shape _ _ _ Hgen)
      as (p & n1 & n2 & b1 & b2 & e1 & e2 & -> & HP & HN & HB & HE).
    destruct (generate_test_cases_run JSON_parse _ _ _ _ _ _ Hnorm Hrun HP HN HB HE)
      as (type & Htype & Hr).
    injection Htype as <-.
    eexists. split; [exact Hr|]. split; reflexivity.
  - intros Hprint. unfold generate_test_cases. rewrite Hnorm. cbn [bind].
    unfold generateTestCases, generateBaseId.
    cbn [get_prop obj_get String.eqb Ascii.eqb Bool.eqb bind is_string].
    unfold generateApiTestCases.
    cbn [get_prop obj_get String.eqb Ascii.eqb Bool.eqb bind].
    rewrite (ToString_unprintable _ Hprint). reflexivity.
Qed.

Lemma X22_witness :
  exists r,
    generate_test_cases JSONText.parse
      (VStr ("{" ++ quote "type" ++ ":" ++ quote "graphql" ++ "," ++
             quote "endpoint" ++ ":" ++ quote "/login" ++ "," ++
             quote "method" ++ ":" ++ quote "POST" ++ "}")) = Ok r /\
    input_type r = VStr "api" /\
    total_cases (summary_of r) = 7%nat.
Proof.
  apply (X22_api_text_runs_as_api JSONText.parse _
           [("type", VStr "graphql"); ("endpoint", VStr "/login");
            ("method", VStr "POST")] "/login").
  - vm_compute. reflexivity.
  - reflexivity.
  - discriminate.
  - reflexivity.
  - reflexivity.
Defined.
